(** * WeWork Notify: the API clients of [custom_components/wework_notify/api.py]

    A shallow embedding of the two message clients (custom application and
    group robot), of their payload builders and of the access-token cache,
    followed by the properties of the specification that were checked
    against it.

    Conventions of the embedding:
    - a Python [str] is a [string]; its characters are the code points
      U+0000 .. U+00FF;
    - a JSON value, a field of the service call and a field of a payload are
      values of [pyval] (JSON numbers with a fraction are not represented);
    - a [dict] is an association list in insertion order;
    - readings of [time.monotonic()], the arithmetic on them and the builtin
      [int()] on strings belong to the Python runtime and are taken from the
      class [PyRuntime];
    - network calls go through an [environment] that answers each request;
      every request is appended to a log held in the state. *)

From Stdlib Require Import String Ascii List ZArith Bool Lia.
Import ListNotations.
Set Warnings "-register-all".
Open Scope string_scope.

(** ** Strings: [str.strip], [str.split], [str.join] *)

Module PyStr.

(** [str.isspace] on one character, for the code points below 256. *)
Definition is_space (c : ascii) : bool :=
  let n := nat_of_ascii c in
  (Nat.leb 9 n && Nat.leb n 13) || (Nat.leb 28 n && Nat.leb n 32)
  || Nat.eqb n 133 || Nat.eqb n 160.

Definition nonempty (s : string) : bool :=
  match s with EmptyString => false | String _ _ => true end.

Fixpoint lstrip (s : string) : string :=
  match s with
  | EmptyString => EmptyString
  | String c r => if is_space c then lstrip r else s
  end.

Fixpoint rstrip (s : string) : string :=
  match s with
  | EmptyString => EmptyString
  | String c r =>
      match rstrip r with
      | EmptyString => if is_space c then EmptyString else String c EmptyString
      | r' => String c r'
      end
  end.

(** [s.strip()] *)
Definition strip (s : string) : string := rstrip (lstrip s).

Definition bar : ascii := "|"%char.

(** One more character in front of the first piece. *)
Definition push (c : ascii) (pieces : list string) : list string :=
  match pieces with
  | [] => [String c EmptyString]
  | h :: t => String c h :: t
  end.

(** [s.split("|")]: never the empty list. *)
Fixpoint split (s : string) : list string :=
  match s with
  | EmptyString => [EmptyString]
  | String c r =>
      if Ascii.eqb c bar then EmptyString :: split r else push c (split r)
  end.

(** ["|".join(l)] *)
Definition join (l : list string) : string := String.concat "|" l.

(** [x in l] for a list of strings. *)
Fixpoint mem (x : string) (l : list string) : bool :=
  match l with
  | [] => false
  | y :: r => String.eqb x y || mem x r
  end.

End PyStr.

(** ** Python values *)

Inductive pyval : Type :=
| PNone
| PBool (b : bool)
| PInt (z : Z)
| PStr (s : string)
| PList (l : list pyval)
| PDict (d : list (string * pyval)).

Definition dict := list (string * pyval).

(** Truth value of an object, as tested by [if x], [not x], [and], [or]. *)
Definition truthy (v : pyval) : bool :=
  match v with
  | PNone => false
  | PBool b => b
  | PInt z => negb (Z.eqb z 0)
  | PStr s => PyStr.nonempty s
  | PList l => match l with [] => false | _ => true end
  | PDict d => match d with [] => false | _ => true end
  end.

Fixpoint lookup (d : dict) (k : string) : option pyval :=
  match d with
  | [] => None
  | (k', v) :: r => if String.eqb k k' then Some v else lookup r k
  end.

(** [d.get(k, dflt)] and [d.get(k)] *)
Definition get_default (d : dict) (k : string) (dflt : pyval) : pyval :=
  match lookup d k with Some v => v | None => dflt end.

Definition get (d : dict) (k : string) : pyval := get_default d k PNone.

(** [d[k] = v]: replaces the value of an existing key in place, appends a
    new key at the end. *)
Fixpoint dict_set (d : dict) (k : string) (v : pyval) : dict :=
  match d with
  | [] => [(k, v)]
  | (k', v') :: r =>
      if String.eqb k k' then (k', v) :: r else (k', v') :: dict_set r k v
  end.

(** ** Constants of [const.py] *)

Definition CONF_MESSAGE := "message".
Definition CONF_MESSAGE_TYPE := "message_type".
Definition CONF_TO_USER := "to_user".
Definition CONF_TO_PARTY := "to_party".
Definition CONF_TO_TAG := "to_tag".
Definition CONF_IMAGE_MEDIA_ID := "image_media_id".
Definition CONF_IMAGE_BASE64 := "image_base64".
Definition CONF_IMAGE_MD5 := "image_md5".
Definition CONF_MENTIONED_LIST := "mentioned_list".
Definition CONF_MENTIONED_MOBILE_LIST := "mentioned_mobile_list".

Definition MESSAGE_TYPE_TEXT := "text".
Definition MESSAGE_TYPE_MARKDOWN := "markdown".
Definition MESSAGE_TYPE_IMAGE := "image".
Definition SUPPORTED_MESSAGE_TYPES : list string :=
  [MESSAGE_TYPE_TEXT; MESSAGE_TYPE_MARKDOWN; MESSAGE_TYPE_IMAGE].

Definition TOKEN_RETRYABLE_ERROR_CODES : list Z := [40014; 42001; 40001]%Z.

(** ** Exceptions *)

(** The text of a [WeWorkError], kept structured: the f-string arguments are
    the constructor arguments. *)
Inductive message : Type :=
| UnsupportedType (message_type : pyval)
| ContentRequiredApp
| RecipientRequired
| MediaIdRequired
| ContentRequiredText
| ContentRequiredMarkdown
| ImageDataRequired
| SendTransport (detail : string)
| SendFailed (errmsg : pyval)
| RefreshTransport (detail : string)
| RefreshFailed (errmsg : pyval)
| MissingAccessToken.

Inductive exn : Type :=
| WeWorkError (msg : message) (errcode : pyval)
| AttributeError
| TypeError
| ValueError
| OverflowError
| ForeignError (detail : string).

Inductive outcome (A : Type) : Type :=
| Return (a : A)
| Raise (e : exn).
Arguments Return {A} a.
Arguments Raise {A} e.

(** ** Module-level helpers of [api.py] *)

(** The loop of [_merge_recipient]; [existing] is the list being built. *)
Fixpoint merge_loop (parts existing : list string) : list string :=
  match parts with
  | [] => existing
  | part :: rest =>
      let part := PyStr.strip part in
      if PyStr.nonempty part && negb (PyStr.mem part existing)
      then merge_loop rest (existing ++ [part])
      else merge_loop rest existing
  end.

(** [x.strip() if isinstance(x, str) else None] *)
Definition strip_if_str (v : pyval) : option string :=
  match v with
  | PStr s => Some (PyStr.strip s)
  | _ => None
  end.

Definition nonempty_opt (o : option string) : bool :=
  match o with Some s => PyStr.nonempty s | None => false end.

(** [a or b] on [str | None]. *)
Definition or_else (a b : option string) : option string :=
  if nonempty_opt a then a else b.

Definition str_of (o : option string) : string :=
  match o with Some s => s | None => EmptyString end.

Definition _merge_recipient (override default : pyval) : option string :=
  let override := strip_if_str override in
  let default := strip_if_str default in
  if nonempty_opt override && nonempty_opt default
  then Some (PyStr.join
               (merge_loop
                  (PyStr.split (str_of override) ++ PyStr.split (str_of default))
                  []))
  else or_else override default.

(** The comprehension of [_split_optional]. *)
Fixpoint split_items (items : list string) : list string :=
  match items with
  | [] => []
  | item :: rest =>
      if PyStr.nonempty (PyStr.strip item)
      then PyStr.strip item :: split_items rest
      else split_items rest
  end.

(** [_split_optional]: [None] for a falsy argument; an object that is truthy
    and not a string has no [split] attribute. *)
Definition _split_optional (value : pyval) : outcome (option (list string)) :=
  if negb (truthy value) then Return None
  else match value with
       | PStr s => Return (Some (split_items (PyStr.split s)))
       | _ => Raise AttributeError
       end.

(** [v in S] for a set [S] of strings: a list or a dict cannot be hashed. *)
Definition in_str_set (v : pyval) (S : list string) : outcome bool :=
  match v with
  | PStr s => Return (PyStr.mem s S)
  | PList _ | PDict _ => Raise TypeError
  | _ => Return false
  end.

Definition Z_mem (z : Z) (S : list Z) : bool := existsb (Z.eqb z) S.

(** [v in S] for a set [S] of integers; [True] and [False] hash and compare
    as [1] and [0]. *)
Definition in_int_set (v : pyval) (S : list Z) : outcome bool :=
  match v with
  | PInt z => Return (Z_mem z S)
  | PBool b => Return (Z_mem (if b then 1 else 0)%Z S)
  | PList _ | PDict _ => Raise TypeError
  | _ => Return false
  end.

(** [result.get(k, dflt)] on the decoded body of a response: only a dict has
    a [get] attribute. *)
Definition body_get (result : pyval) (k : string) (dflt : pyval)
  : outcome pyval :=
  match result with
  | PDict d => Return (get_default d k dflt)
  | _ => Raise AttributeError
  end.

(** ** The Python runtime *)

(** What the client takes from the interpreter: the type of the readings of
    [time.monotonic()] with the three operations the client applies to them,
    and [int()] on a string ([None]: [ValueError]).  [time_add_int] is
    [float + int], which raises [OverflowError] ([None]) for an integer
    outside the range of a float. *)
Class PyRuntime : Type := {
  time : Type;
  time_of_int : Z -> time;
  time_add_int : time -> Z -> option time;
  time_sub_int : time -> Z -> time;
  time_lt : time -> time -> bool;
  int_of_str : string -> option Z
}.

(** The builtin [int(v)]. *)
Definition py_int `{PyRuntime} (v : pyval) : outcome Z :=
  match v with
  | PInt z => Return z
  | PBool b => Return (if b then 1 else 0)%Z
  | PStr s => match int_of_str s with
              | Some z => Return z
              | None => Raise ValueError
              end
  | _ => Raise TypeError
  end.

(** ** Requests and the environment *)

Inductive request : Type :=
| GetToken (corpid corpsecret : string)
| PostMessage (access_token : pyval) (payload : dict)
| PostWebhook (key : string) (payload : dict).

(** What [session.get]/[session.post] followed by [resp.json()] gives: the
    decoded body, an [aiohttp.ClientError], or an exception of another class
    (a timeout, a body that is not JSON). *)
Inductive http_outcome : Type :=
| HttpJson (result : pyval)
| HttpClientError (detail : string)
| HttpOtherError (detail : string).

Record environment `{PyRuntime} : Type := {
  (** the answer to a request, given the requests made before it, the most
      recent first *)
  http : list request -> request -> http_outcome;
  (** the n-th reading of [time.monotonic()] *)
  monotonic : nat -> time
}.

(** ** State and the monad of the clients *)

(** The mutable fields of a [WeWorkAppClient], the log of the requests made
    so far (most recent first) and the number of clock readings taken. *)
Record state `{PyRuntime} : Type := mkState {
  _token : pyval;
  _token_expire_time : time;
  sent : list request;
  clock_reads : nat
}.

Arguments mkState {_} _ _ _ _.

Definition M `{PyRuntime} (A : Type) : Type := state -> outcome A * state.

Definition ret `{PyRuntime} {A} (a : A) : M A := fun s => (Return a, s).

Definition raise `{PyRuntime} {A} (e : exn) : M A := fun s => (Raise e, s).

Definition bind `{PyRuntime} {A B} (m : M A) (k : A -> M B) : M B :=
  fun s => match m s with
           | (Return a, s') => k a s'
           | (Raise e, s') => (Raise e, s')
           end.

(** A pure computation that may raise. *)
Definition lift `{PyRuntime} {A} (o : outcome A) : M A := fun s => (o, s).

(** [try: m  except WeWorkError as err: h err]; other exceptions pass. *)
Definition try_except `{PyRuntime} {A} (m : M A)
  (h : message -> pyval -> M A) : M A :=
  fun s => match m s with
           | (Raise (WeWorkError msg errcode), s') => h msg errcode s'
           | r => r
           end.

Declare Scope py_scope.
Delimit Scope py_scope with py.
Notation "x <- m ;; k" := (bind m (fun x => k))
  (at level 61, m at next level, right associativity) : py_scope.
Notation "m ;;; k" := (bind m (fun _ => k))
  (at level 61, right associativity) : py_scope.
Open Scope py_scope.

Section Effects.

Context `{PyRuntime}.
Variable env : environment.

(** [time.monotonic()] *)
Definition now : M time :=
  fun s => (Return (monotonic env (clock_reads s)),
            mkState (_token s) (_token_expire_time s) (sent s)
                    (S (clock_reads s))).

(** One HTTP exchange: the request is logged and answered. *)
Definition exchange (r : request) : M http_outcome :=
  fun s => (Return (http env (sent s) r),
            mkState (_token s) (_token_expire_time s) (r :: sent s)
                    (clock_reads s)).

Definition read_token : M pyval := fun s => (Return (_token s), s).

Definition read_expire_time : M time :=
  fun s => (Return (_token_expire_time s), s).

Definition write_token (v : pyval) : M unit :=
  fun s => (Return tt,
            mkState v (_token_expire_time s) (sent s) (clock_reads s)).

Definition write_expire_time (t : time) : M unit :=
  fun s => (Return tt, mkState (_token s) t (sent s) (clock_reads s)).

End Effects.

(** The check of the message type shared by both [async_send_message]: the
    type as a string when it is supported. *)
Definition supported_type (data : dict) : outcome string :=
  let message_type := get_default data CONF_MESSAGE_TYPE (PStr MESSAGE_TYPE_TEXT) in
  match in_str_set message_type SUPPORTED_MESSAGE_TYPES with
  | Raise e => Raise e
  | Return false => Raise (WeWorkError (UnsupportedType message_type) PNone)
  | Return true =>
      match message_type with
      | PStr s => Return s
      | _ => Raise TypeError
      end
  end.

(** ** [WeWorkAppClient] *)

(** The fields of the client that are set once, by [__init__]. *)
Record app_config : Type := {
  _corp_id : string;
  _corp_secret : string;
  _agent_id : Z;
  _defaults : dict
}.

Module WeWorkAppClient.
Section Methods.

Context `{PyRuntime}.
Variable env : environment.
Variable self : app_config.

(** [self._token and time.monotonic() < self._token_expire_time - 30]: the
    clock is read only when the token is truthy. *)
Definition token_is_fresh : M bool :=
  token <- read_token ;;
  if truthy token then
    t <- now env ;;
    expire <- read_expire_time ;;
    ret (time_lt t (time_sub_int expire 30))
  else ret false.

(** [_refresh_token], the part before the request: the cached token when it
    is still fresh and the refresh is not forced. *)
Definition refresh_check (force : bool) : M (option pyval) :=
  token <- read_token ;;
  if truthy token && negb force then
    t <- now env ;;
    expire <- read_expire_time ;;
    if time_lt t (time_sub_int expire 30) then ret (Some token) else ret None
  else ret None.

(** [_refresh_token], the part after the request. *)
Definition refresh_complete (reply : http_outcome) : M pyval :=
  match reply with
  | HttpClientError detail => raise (WeWorkError (RefreshTransport detail) PNone)
  | HttpOtherError detail => raise (ForeignError detail)
  | HttpJson result =>
      errcode <- lift (body_get result "errcode" PNone) ;;
      if truthy errcode then
        errmsg <- lift (body_get result "errmsg" (PStr "unknown error")) ;;
        raise (WeWorkError (RefreshFailed errmsg) errcode)
      else
        access_token <- lift (body_get result "access_token" PNone) ;;
        expires_in <- lift (body_get result "expires_in" (PInt 7200)) ;;
        if negb (truthy access_token) then
          raise (WeWorkError MissingAccessToken PNone)
        else
          write_token access_token ;;;
          t <- now env ;;
          n <- lift (py_int expires_in) ;;
          match time_add_int t n with
          | None => raise OverflowError
          | Some expire =>
              write_expire_time expire ;;;
              ret access_token
          end
  end.

(** [_refresh_token(force)], for a caller that finds [_token_lock] free: the
    body runs from the acquisition to the release without another caller. *)
Definition _refresh_token (force : bool) : M pyval :=
  cached <- refresh_check force ;;
  match cached with
  | Some token => ret token
  | None =>
      reply <- exchange env (GetToken (_corp_id self) (_corp_secret self)) ;;
      refresh_complete reply
  end.

Definition _ensure_token : M pyval :=
  fresh <- token_is_fresh ;;
  if fresh then read_token else _refresh_token false.

Definition _do_send (payload : dict) (token : pyval) : M unit :=
  reply <- exchange env (PostMessage token payload) ;;
  match reply with
  | HttpClientError detail => raise (WeWorkError (SendTransport detail) PNone)
  | HttpOtherError detail => raise (ForeignError detail)
  | HttpJson result =>
      errcode <- lift (body_get result "errcode" PNone) ;;
      if truthy errcode then
        errmsg <- lift (body_get result "errmsg" (PStr "unknown error")) ;;
        raise (WeWorkError (SendFailed errmsg) errcode)
      else ret tt
  end.

(** [payload[k] = v if v] for a merged recipient. *)
Definition set_if (payload : dict) (k : string) (v : option string) : dict :=
  if nonempty_opt v then dict_set payload k (PStr (str_of v)) else payload.

Definition _build_payload (message_type : string) (data : dict)
  : outcome dict :=
  let message := get data CONF_MESSAGE in
  if PyStr.mem message_type [MESSAGE_TYPE_TEXT; MESSAGE_TYPE_MARKDOWN]
     && negb (truthy message)
  then Raise (WeWorkError ContentRequiredApp PNone)
  else
    let to_user :=
      _merge_recipient (get data CONF_TO_USER) (get (_defaults self) CONF_TO_USER) in
    let to_party :=
      _merge_recipient (get data CONF_TO_PARTY) (get (_defaults self) CONF_TO_PARTY) in
    let to_tag :=
      _merge_recipient (get data CONF_TO_TAG) (get (_defaults self) CONF_TO_TAG) in
    if negb (nonempty_opt to_user || nonempty_opt to_party || nonempty_opt to_tag)
    then Raise (WeWorkError RecipientRequired PNone)
    else
      let payload : dict :=
        [("agentid", PInt (_agent_id self));
         ("msgtype", PStr message_type);
         ("safe", PInt 0)] in
      let payload := set_if payload "touser" to_user in
      let payload := set_if payload "toparty" to_party in
      let payload := set_if payload "totag" to_tag in
      if String.eqb message_type MESSAGE_TYPE_TEXT then
        Return (dict_set payload MESSAGE_TYPE_TEXT (PDict [("content", message)]))
      else if String.eqb message_type MESSAGE_TYPE_MARKDOWN then
        Return (dict_set payload MESSAGE_TYPE_MARKDOWN
                         (PDict [("content", message)]))
      else if String.eqb message_type MESSAGE_TYPE_IMAGE then
        let media_id := get data CONF_IMAGE_MEDIA_ID in
        if negb (truthy media_id)
        then Raise (WeWorkError MediaIdRequired PNone)
        else Return (dict_set payload MESSAGE_TYPE_IMAGE
                              (PDict [("media_id", media_id)]))
      else Return payload.

Definition async_send_message (data : dict) : M unit :=
  message_type <- lift (supported_type data) ;;
  payload <- lift (_build_payload message_type data) ;;
  token <- _ensure_token ;;
  try_except (_do_send payload token)
    (fun msg errcode =>
       retryable <- lift (in_int_set errcode TOKEN_RETRYABLE_ERROR_CODES) ;;
       if negb retryable then raise (WeWorkError msg errcode)
       else
         token <- _refresh_token true ;;
         _do_send payload token).

End Methods.
End WeWorkAppClient.

(** ** [WeWorkBotClient] *)

Module WeWorkBotClient.

(** [item[k] = l if l] for a parsed mention list. *)
Definition set_list_if (item : dict) (k : string) (l : option (list string))
  : dict :=
  match l with
  | Some (x :: r) => dict_set item k (PList (map PStr (x :: r)))
  | _ => item
  end.

Definition _build_payload (message_type : string) (data : dict)
  : outcome dict :=
  let message := get data CONF_MESSAGE in
  if String.eqb message_type MESSAGE_TYPE_TEXT then
    if negb (truthy message)
    then Raise (WeWorkError ContentRequiredText PNone)
    else
      let item : dict := [("content", message)] in
      match _split_optional (get data CONF_MENTIONED_LIST) with
      | Raise e => Raise e
      | Return mentioned_list =>
          match _split_optional (get data CONF_MENTIONED_MOBILE_LIST) with
          | Raise e => Raise e
          | Return mentioned_mobile_list =>
              let item := set_list_if item "mentioned_list" mentioned_list in
              let item :=
                set_list_if item "mentioned_mobile_list" mentioned_mobile_list in
              Return (dict_set [("msgtype", PStr message_type)]
                               message_type (PDict item))
          end
      end
  else if String.eqb message_type MESSAGE_TYPE_MARKDOWN then
    if negb (truthy message)
    then Raise (WeWorkError ContentRequiredMarkdown PNone)
    else Return (dict_set [("msgtype", PStr message_type)]
                          message_type (PDict [("content", message)]))
  else if String.eqb message_type MESSAGE_TYPE_IMAGE then
    let base64_data := get data CONF_IMAGE_BASE64 in
    let md5_hash := get data CONF_IMAGE_MD5 in
    if negb (truthy base64_data) || negb (truthy md5_hash)
    then Raise (WeWorkError ImageDataRequired PNone)
    else Return (dict_set [("msgtype", PStr message_type)]
                          message_type
                          (PDict [("base64", base64_data); ("md5", md5_hash)]))
  else Raise (WeWorkError (UnsupportedType (PStr message_type)) PNone).

Section Methods.

Context `{PyRuntime}.
Variable env : environment.
Variable _webhook_key : string.

Definition async_send_message (data : dict) : M unit :=
  message_type <- lift (supported_type data) ;;
  payload <- lift (_build_payload message_type data) ;;
  reply <- exchange env (PostWebhook _webhook_key payload) ;;
  match reply with
  | HttpClientError detail => raise (WeWorkError (SendTransport detail) PNone)
  | HttpOtherError detail => raise (ForeignError detail)
  | HttpJson result =>
      errcode <- lift (body_get result "errcode" PNone) ;;
      if truthy errcode then
        errmsg <- lift (body_get result "errmsg" (PStr "unknown error")) ;;
        raise (WeWorkError (SendFailed errmsg) errcode)
      else ret tt
  end.

End Methods.
End WeWorkBotClient.

(** ** A runtime to compute with *)

(** Integer clock readings, and [int()] on a string in base 10: white space
    around the numeral is ignored, a sign may come first, and single
    underscores may stand between digits (the interpreter's limit on the
    number of digits aside).  The white space that [int()] ignores is not
    the one of [str.strip]: the separators U+001C .. U+001F are not part of
    it.  [float + int] converts the integer to a float first, which raises
    [OverflowError] for an integer of absolute value 2^1024 - 2^970 or
    more. *)
Module ZRuntime.

(** The characters that [int()] ignores around a numeral, for the code
    points below 256. *)
Definition int_space (c : ascii) : bool :=
  let n := nat_of_ascii c in
  (Nat.leb 9 n && Nat.leb n 13) || Nat.eqb n 32 || Nat.eqb n 133
  || Nat.eqb n 160.

Fixpoint int_lstrip (s : string) : string :=
  match s with
  | EmptyString => EmptyString
  | String c r => if int_space c then int_lstrip r else s
  end.

Fixpoint int_rstrip (s : string) : string :=
  match s with
  | EmptyString => EmptyString
  | String c r =>
      match int_rstrip r with
      | EmptyString => if int_space c then EmptyString else String c EmptyString
      | r' => String c r'
      end
  end.

(** The integers that convert to a float. *)
Definition float_range (n : Z) : bool :=
  Z.ltb (Z.abs n) (2 ^ 1024 - 2 ^ 970).

Definition digit (c : ascii) : option Z :=
  let n := nat_of_ascii c in
  if Nat.leb 48 n && Nat.leb n 57 then Some (Z.of_nat (n - 48)) else None.

(** [after_digit]: the character before was a digit. *)
Fixpoint digits (s : string) (acc : Z) (after_digit : bool) : option Z :=
  match s with
  | EmptyString => if after_digit then Some acc else None
  | String c r =>
      if Ascii.eqb c "_"%char then
        if after_digit then digits r acc false else None
      else
        match digit c with
        | Some d => digits r (10 * acc + d)%Z true
        | None => None
        end
  end.

Definition parse (s : string) : option Z :=
  match int_rstrip (int_lstrip s) with
  | String "+"%char r => digits r 0%Z false
  | String "-"%char r => option_map Z.opp (digits r 0%Z false)
  | t => digits t 0%Z false
  end.

#[export] Instance runtime : PyRuntime := {|
  time := Z;
  time_of_int := fun z => z;
  time_add_int := fun t n => if float_range n then Some (t + n)%Z else None;
  time_sub_int := fun t n => (t - n)%Z;
  time_lt := Z.ltb;
  int_of_str := parse
|}.

End ZRuntime.

(** ** Vocabulary of the properties *)

(** A field is missing from a dict when the dict has no truthy value under
    the key: the key is absent, or bound to [None] or to an empty string.
    This is the test [not d.get(k)] by which the code reports a field as
    missing or required. *)
Definition missing (d : dict) (k : string) : Prop := truthy (get d k) = false.

(** The body of a send response reports no error: it has no [errcode]
    field, or the field is the integer 0. *)
Definition errcode_absent (d : dict) : Prop := lookup d "errcode" = None.

Definition errcode_zero (d : dict) : Prop := lookup d "errcode" = Some (PInt 0).

(** The answers to a token request by which a refresh fails as the
    specification names them: a transport error, a truthy [errcode], or an
    object without an access token. *)
Definition reported_failure (reply : http_outcome) : Prop :=
  (exists detail, reply = HttpClientError detail) \/
  exists d, reply = HttpJson (PDict d) /\
            (truthy (get d "errcode") = true \/ missing d "access_token").

(** The answer to a token request confirms success: it is an object without
    a truthy [errcode] that carries an access token. *)
Definition confirms_success (reply : http_outcome) : Prop :=
  exists d, reply = HttpJson (PDict d) /\
            truthy (get d "errcode") = false /\ ~ missing d "access_token".

(** The tokens of a ['|']-separated list: the pieces between the bars,
    trimmed, the empty ones dropped. *)
Definition tokens (s : string) : list string :=
  filter PyStr.nonempty (map PyStr.strip (PyStr.split s)).

(** The strings of a list in the order of their first occurrence, each
    once. *)
Fixpoint first_seen (l : list string) : list string :=
  match l with
  | [] => []
  | x :: r => x :: filter (fun y => negb (String.eqb x y)) (first_seen r)
  end.

(** The recipient merge in the words of the specification: both strings
    split on ['|'], each piece trimmed, the override pieces before the
    default pieces, duplicates dropped in first-seen order, joined with
    ['|']. *)
Definition merge_as_specified (override default : string) : string :=
  PyStr.join
    (first_seen (map PyStr.strip (PyStr.split override ++ PyStr.split default))).

(** A recipient as the merge writes it: not empty, without a bar and
    without white space at either end. *)
Definition trimmed_token (t : string) : Prop :=
  PyStr.nonempty t = true /\ PyStr.split t = [t] /\
  PyStr.lstrip t = t /\ PyStr.rstrip t = t.

(** The tokens of a mention field of a call; a field that is not given has
    none. *)
Definition mention_tokens (v : pyval) : list string :=
  match v with PStr s => tokens s | _ => [] end.

(** The entry of a mention list in the body of a text message: no entry for
    an empty list. *)
Definition mention_entry (k : string) (l : list string) : dict :=
  match l with [] => [] | _ => [(k, PList (map PStr l))] end.

(** A field of a call holds a string or is not given. *)
Definition str_or_none (v : pyval) : Prop :=
  v = PNone \/ exists s, v = PStr s.

(** A payload contains the text body with the given content and mentioned
    list, next to whatever else the client mode puts into it. *)
Definition contains_text_with_mentions (payload : dict)
  (content : string) (mentioned : list string) : Prop :=
  get payload "msgtype" = PStr "text" /\
  exists item, get payload "text" = PDict item /\
               get item "content" = PStr content /\
               get item "mentioned_list" = PList (map PStr mentioned).

Section CacheVocabulary.

Context `{PyRuntime}.
Variable env : environment.
Variable self : app_config.

(** The cached token passes the freshness test at the n-th clock reading. *)
Definition fresh_at (s : state) (n : nat) : Prop :=
  truthy (_token s) = true /\
  time_lt (monotonic env n) (time_sub_int (_token_expire_time s) 30) = true.

(** The state after one more clock reading and nothing else. *)
Definition tick (s : state) : state :=
  mkState (_token s) (_token_expire_time s) (sent s) (S (clock_reads s)).

(** [_refresh_token] goes to the network: the check made under the lock
    does not return the cached token. *)
Definition fetches (force : bool) (s : state) : Prop :=
  fst (WeWorkAppClient.refresh_check env force s) = Return None.

(** The state in which the token request is made. *)
Definition at_fetch (force : bool) (s : state) : state :=
  snd (WeWorkAppClient.refresh_check env force s).

Definition token_request : request :=
  GetToken (_corp_id self) (_corp_secret self).

(** The state after one more request and nothing else. *)
Definition logged (r : request) (s : state) : state :=
  mkState (_token s) (_token_expire_time s) (r :: sent s) (clock_reads s).

(** An application-mode call gets as far as its first send: the message
    type is supported, the payload is built and a token is obtained. *)
Definition reaches_send (data : dict) (s : state)
  (payload : dict) (token : pyval) (s1 : state) : Prop :=
  exists message_type,
    supported_type data = Return message_type /\
    WeWorkAppClient._build_payload self message_type data = Return payload /\
    WeWorkAppClient._ensure_token env self s = (Return token, s1).

(** An application-mode call fails before its first send, in the check of
    the message type or in the building of the payload. *)
Definition build_fails (data : dict) (e : exn) : Prop :=
  supported_type data = Raise e \/
  exists message_type,
    supported_type data = Return message_type /\
    WeWorkAppClient._build_payload self message_type data = Raise e.

(** No recipient is left after the merge of the call's recipients with the
    defaults of the client. *)
Definition no_recipient (data : dict) : Prop :=
  nonempty_opt (_merge_recipient (get data CONF_TO_USER)
                                 (get (_defaults self) CONF_TO_USER)) = false /\
  nonempty_opt (_merge_recipient (get data CONF_TO_PARTY)
                                 (get (_defaults self) CONF_TO_PARTY)) = false /\
  nonempty_opt (_merge_recipient (get data CONF_TO_TAG)
                                 (get (_defaults self) CONF_TO_TAG)) = false.

End CacheVocabulary.

(** The number of send requests and of token requests in a log. *)
Definition sends (log : list request) : nat :=
  length (filter (fun r => match r with PostMessage _ _ => true | _ => false end)
                 log).

Definition refreshes (log : list request) : nat :=
  length (filter (fun r => match r with GetToken _ _ => true | _ => false end)
                 log).


(** ** Concurrent callers of the token cache *)

(** Callers of one client run as tasks of one event loop.  A task runs
    without interruption from one [await] to the next, so a caller of
    [_ensure_token], or of [_refresh_token(force=True)] on the retry path of
    [async_send_message], advances in at most three uninterrupted blocks:
    - from its start to its return with the cached token (for a caller of
      [_ensure_token] that finds it fresh), or into [_refresh_token] up to
      the acquisition of [_token_lock], and, when the lock is free and nobody
      waits for it, on to the token request;
    - from the moment it is given the lock to its return with the cached
      token or to the token request;
    - from the arrival of the response to its return, the lock being
      released on the way out.
    [asyncio.Lock] hands the lock to the waiting tasks in the order of their
    arrival, and a task that finds other tasks waiting waits behind them. *)
Module Concurrent.

(** Where a caller is.  [force] tells the callers of
    [_refresh_token(force=True)] from the callers of [_ensure_token], which
    enter [_refresh_token(force=False)]. *)
Inductive pc : Type :=
| Start (force : bool)
| Waiting (force : bool)
| Fetching (reply : http_outcome)
| Done (result : outcome pyval).

Record system `{PyRuntime} : Type := mkSystem {
  shared : state;
  locked : bool;
  waiters : list nat;
  pcs : list pc
}.
Arguments mkSystem {_} _ _ _ _.

Fixpoint set_nth {A} (i : nat) (x : A) (l : list A) : list A :=
  match l, i with
  | [], _ => []
  | _ :: r, O => x :: r
  | y :: r, S j => y :: set_nth j x r
  end.

Definition is_fetching (p : pc) : bool :=
  match p with Fetching _ => true | _ => false end.

Definition is_waiting (p : pc) : bool :=
  match p with Waiting _ => true | _ => false end.

Definition is_done (p : pc) : bool :=
  match p with Done _ => true | _ => false end.

(** The caller asked for a forced refresh. *)
Definition is_forced (p : pc) : bool :=
  match p with Start force | Waiting force => force | _ => false end.

(** The number of token requests that wait for their response. *)
Definition in_flight `{PyRuntime} (sys : system) : nat :=
  length (filter is_fetching (pcs sys)).

(** The number of callers that have returned. *)
Definition done_count `{PyRuntime} (sys : system) : nat :=
  length (filter is_done (pcs sys)).

Section Steps.

Context `{PyRuntime}.
Variable env : environment.
Variable self : app_config.

(** Task [i] holds the lock and runs [_refresh_token(force)] up to its
    return with the cached token or up to the token request. *)
Definition enter_lock (force : bool) (i : nat) (s : state)
  (queue : list nat) (tasks : list pc) : system :=
  match WeWorkAppClient.refresh_check env force s with
  | (Return (Some token), s1) =>
      mkSystem s1 false queue (set_nth i (Done (Return token)) tasks)
  | (Return None, s1) =>
      let r := GetToken (_corp_id self) (_corp_secret self) in
      mkSystem (mkState (_token s1) (_token_expire_time s1) (r :: sent s1)
                        (clock_reads s1))
               true queue
               (set_nth i (Fetching (http env (sent s1) r)) tasks)
  | (Raise e, s1) => mkSystem s1 false queue (set_nth i (Done (Raise e)) tasks)
  end.

(** Task [i] calls [_refresh_token(force)] in state [s]: it goes on under
    the lock when the lock is free and nobody waits, and queues up
    otherwise. *)
Definition acquire (force : bool) (i : nat) (s : state) (sys : system)
  : system :=
  match locked sys, waiters sys with
  | false, [] => enter_lock force i s [] (pcs sys)
  | _, _ =>
      mkSystem s (locked sys) (waiters sys ++ [i])
               (set_nth i (Waiting force) (pcs sys))
  end.

(** The next block of task [i], when the task can run. *)
Definition step (i : nat) (sys : system) : option system :=
  match nth_error (pcs sys) i with
  | Some (Start false) =>
      match WeWorkAppClient.token_is_fresh env (shared sys) with
      | (Return true, s1) =>
          Some (mkSystem s1 (locked sys) (waiters sys)
                         (set_nth i (Done (Return (_token s1))) (pcs sys)))
      | (Return false, s1) => Some (acquire false i s1 sys)
      | (Raise e, s1) =>
          Some (mkSystem s1 (locked sys) (waiters sys)
                         (set_nth i (Done (Raise e)) (pcs sys)))
      end
  | Some (Start true) => Some (acquire true i (shared sys) sys)
  | Some (Waiting force) =>
      match locked sys, waiters sys with
      | false, j :: queue =>
          if Nat.eqb i j
          then Some (enter_lock force i (shared sys) queue (pcs sys))
          else None
      | _, _ => None
      end
  | Some (Fetching reply) =>
      let (result, s1) := WeWorkAppClient.refresh_complete env reply (shared sys) in
      Some (mkSystem s1 false (waiters sys) (set_nth i (Done result) (pcs sys)))
  | Some (Done _) | None => None
  end.

(** The tasks run in the order of a schedule. *)
Fixpoint run (schedule : list nat) (sys : system) : option system :=
  match schedule with
  | [] => Some sys
  | i :: rest =>
      match step i sys with
      | Some sys' => run rest sys'
      | None => None
      end
  end.

(** Callers about to start on a client in state [s], one for each entry of
    [forces]. *)
Definition callers (forces : list bool) (s : state) : system :=
  mkSystem s false [] (map Start forces).

(** [count] callers of [_ensure_token]. *)
Definition ensure_callers (count : nat) : list bool := repeat false count.

Definition reachable (forces : list bool) (s : state) (sys : system) : Prop :=
  exists schedule, run schedule (callers forces s) = Some sys.

(** Task [i] has returned with [result]. *)
Definition returned (sys : system) (i : nat) (result : outcome pyval) : Prop :=
  nth_error (pcs sys) i = Some (Done result).

Definition all_done (sys : system) : Prop :=
  forallb is_done (pcs sys) = true.

End Steps.

(** *** Vocabulary of the properties of concurrent callers *)

Definition weight (b : bool) : nat := if b then 1 else 0.

Section Vocabulary.

Context `{PyRuntime}.
Variable env : environment.

(** The lock is held exactly while a token request is in flight. *)
Definition lock_held_by_fetch (sys : system) : Prop :=
  in_flight sys = weight (locked sys).

(** The queue of the lock holds the waiting callers, each once. *)
Definition queue_ok (sys : system) : Prop :=
  NoDup (waiters sys) /\
  forall j, In j (waiters sys) <->
            exists force, nth_error (pcs sys) j = Some (Waiting force).

(** How the queue changes with the block of task [i]: the task queues up,
    the queue stays, or the task leaves the front of the queue. *)
Definition queue_change (i : nat) (old p : pc) (sys sys' : system) : Prop :=
  (is_waiting old = false /\ is_waiting p = true /\
   waiters sys' = (waiters sys ++ [i])%list) \/
  (is_waiting old = false /\ is_waiting p = false /\
   waiters sys' = waiters sys) \/
  (is_waiting old = true /\ is_waiting p = false /\
   waiters sys = i :: waiters sys').

(** How the lock changes: it is not touched, it is taken while free and
    kept for a token request, or it is released on the response. *)
Definition lock_change (old p : pc) (sys sys' : system) : Prop :=
  (is_fetching old = false /\ is_fetching p = false /\
   locked sys' = locked sys) \/
  (is_fetching old = false /\ locked sys = false /\
   locked sys' = is_fetching p) \/
  (is_fetching old = true /\ is_fetching p = false /\ locked sys' = false).

(** The number of blocks a caller has still to run, at most. *)
Definition cost (p : pc) : nat :=
  match p with Start _ => 3 | Waiting _ => 2 | Fetching _ => 1 | Done _ => 0 end.

Definition remaining (sys : system) : nat := list_sum (map cost (pcs sys)).





Variable self : app_config.



End Vocabulary.

End Concurrent.

(** ** Concrete clients, caches and environments *)

Module Demo.
Import ZRuntime.

Definition client : app_config :=
  {| _corp_id := "corp"; _corp_secret := "secret"; _agent_id := 1000002;
     _defaults := [(CONF_TO_USER, PStr "ops")] |}.

(** A clock reading of this runtime. *)
Definition instant (z : Z) : @time runtime := z.

(** An empty cache, as [__init__] leaves it. *)
Definition empty_cache : state := mkState PNone (time_of_int 0) [] 0.

(** A cache holding token [old] until the instant 5000. *)
Definition warm_cache : state := mkState (PStr "old") (instant 5000) [] 0.

Definition token_reply (fields : dict) : http_outcome := HttpJson (PDict fields).

(** A provider that grants token [new] for 7200 seconds and accepts every
    message; the clock reads 100, 101, 102, ... *)
Definition healthy : environment :=
  {| http := fun _ r =>
       match r with
       | GetToken _ _ =>
           token_reply [("errcode", PInt 0); ("errmsg", PStr "ok");
                        ("access_token", PStr "new"); ("expires_in", PInt 7200)]
       | _ => HttpJson (PDict [("errcode", PInt 0); ("errmsg", PStr "ok")])
       end;
     monotonic := fun n => (100 + Z.of_nat n)%Z |}.

(** A token endpoint whose answer carries a token and a null [expires_in]. *)
Definition null_expiry : environment :=
  {| http := fun _ _ =>
       token_reply [("errcode", PInt 0); ("access_token", PStr "new");
                    ("expires_in", PNone)];
     monotonic := fun n => (100 + Z.of_nat n)%Z |}.

(** A call with a message and one recipient, and the payload the
    application client builds for it. *)
Definition alert : dict :=
  [(CONF_MESSAGE, PStr "hi"); (CONF_TO_USER, PStr "alice")].

Definition alert_payload : dict :=
  [("agentid", PInt 1000002); ("msgtype", PStr "text"); ("safe", PInt 0);
   ("touser", PStr "alice|ops"); ("text", PDict [("content", PStr "hi")])].

Definition rejected (errcode : Z) (errmsg : string) : http_outcome :=
  HttpJson (PDict [("errcode", PInt errcode); ("errmsg", PStr errmsg)]).

(** A provider for which token [old] has expired: a send with it is answered
    with 42001, any other send is accepted, and token [new] is granted. *)
Definition expired : environment :=
  {| http := fun _ r =>
       match r with
       | GetToken _ _ =>
           token_reply [("errcode", PInt 0); ("errmsg", PStr "ok");
                        ("access_token", PStr "new"); ("expires_in", PInt 7200)]
       | PostMessage (PStr "old") _ => rejected 42001 "access_token expired"
       | _ => HttpJson (PDict [("errcode", PInt 0); ("errmsg", PStr "ok")])
       end;
     monotonic := fun n => (100 + Z.of_nat n)%Z |}.

(** A provider that answers every send with 42001 and refuses to grant a
    token. *)
Definition refresh_denied : environment :=
  {| http := fun _ r =>
       match r with
       | GetToken _ _ => rejected 40013 "invalid corpid"
       | _ => rejected 42001 "access_token expired"
       end;
     monotonic := fun n => (100 + Z.of_nat n)%Z |}.

(** A provider whose answers carry no [errcode] field at all. *)
Definition silent : environment :=
  {| http := fun _ _ => HttpJson (PDict [("errmsg", PStr "ok")]);
     monotonic := fun n => (100 + Z.of_nat n)%Z |}.

(** The body by which the token endpoint grants token [new]. *)
Definition grant : dict :=
  [("errcode", PInt 0); ("errmsg", PStr "ok");
   ("access_token", PStr "new"); ("expires_in", PInt 7200)].


(** The state of [count] concurrent callers of [_ensure_token] on an empty
    cache after the blocks of a schedule have run. *)
Definition after (env : environment) (count : nat) (schedule : list nat)
  : Concurrent.system :=
  let start :=
    Concurrent.callers (Concurrent.ensure_callers count) empty_cache in
  match Concurrent.run env client schedule start with
  | Some sys => sys
  | None => start
  end.

(** The text message of the round-trip example of the specification. *)
Definition hi_with_mentions : dict :=
  [(CONF_MESSAGE_TYPE, PStr "text"); (CONF_MESSAGE, PStr "hi");
   (CONF_MENTIONED_LIST, PStr "u1|u2")].

End Demo.


(** ** More of [str] and of [const.py] *)

Module PyStrMore.

(** [c.lower()] on one character, for the code points below 256: the
    capitals are A-Z and the accented capitals U+00C0 .. U+00DE without the
    multiplication sign U+00D7. *)
Definition lower_char (c : ascii) : ascii :=
  let n := nat_of_ascii c in
  if (Nat.leb 65 n && Nat.leb n 90)
     || (Nat.leb 192 n && Nat.leb n 222 && negb (Nat.eqb n 215))
  then ascii_of_nat (n + 32) else c.

(** [s.lower()] *)
Fixpoint lower (s : string) : string :=
  match s with
  | EmptyString => EmptyString
  | String c r => String (lower_char c) (lower r)
  end.

End PyStrMore.

Definition DOMAIN := "wework_notify".
Definition CONF_ENTRY_TYPE := "entry_type".
Definition ENTRY_TYPE_APP := "app".
Definition ENTRY_TYPE_BOT := "bot".
Definition CONF_CORP_ID := "corp_id".
Definition CONF_CORP_SECRET := "corp_secret".
Definition CONF_AGENT_ID := "agent_id".
Definition CONF_WEBHOOK_KEY := "webhook_key".
Definition CONF_DEFAULT_TO_USER := "default_to_user".
Definition CONF_DEFAULT_TO_PARTY := "default_to_party".
Definition CONF_DEFAULT_TO_TAG := "default_to_tag".
Definition CONF_ENTRY_ID := "entry_id".
Definition CONF_ENTRY_TITLE := "entry_title".
(** [homeassistant.const.CONF_NAME] *)
Definition CONF_NAME := "name".

(** ** The host side: [__init__.py] and [config_flow.py] *)

(** The text of a [HomeAssistantError] raised by [__init__.py], kept
    structured; [ClientFailure msg] is [str(err)] for a [WeWorkError] with
    the text [msg]. *)
Inductive ha_text : Type :=
| NoEntryWithId (entry_id : pyval)
| NoEntryWithTitle (entry_title : pyval)
| MultipleEntries
| NoEntryReference
| RuntimeNotInitialized
| ClientFailure (msg : message).

(** The exceptions of the host side: its own errors, a missing key of a
    subscript [d[k]], the exceptions of [api.py] and of the builtins that
    pass through, and the [AbortFlow] by which a step of a config flow ends
    the flow.  [OutsideAnnotations] marks the one place where this
    development stops: a client whose fields do not have the types its
    constructor declares is not run, because what the HTTP library does with
    such values is not part of the repository. *)
Inductive host_exn : Type :=
| HomeAssistantError (text : ha_text)
| KeyError (key : string)
| Uncaught (e : exn)
| AbortFlow (reason : string)
| OutsideAnnotations.

Inductive host_outcome (A : Type) : Type :=
| HReturn (a : A)
| HRaise (e : host_exn).
Arguments HReturn {A} a.
Arguments HRaise {A} e.

Definition hbind {A B} (m : host_outcome A) (k : A -> host_outcome B)
  : host_outcome B :=
  match m with
  | HReturn a => k a
  | HRaise e => HRaise e
  end.

Declare Scope host_scope.
Delimit Scope host_scope with host.
Notation "x <~ m ;; k" := (hbind m (fun x => k))
  (at level 61, m at next level, right associativity) : host_scope.
Open Scope host_scope.

(** [d[k]] *)
Definition item (d : dict) (k : string) : host_outcome pyval :=
  match lookup d k with
  | Some v => HReturn v
  | None => HRaise (KeyError k)
  end.

(** [v.strip()]: only a string has the attribute. *)
Definition py_strip (v : pyval) : host_outcome string :=
  match v with
  | PStr s => HReturn (PyStr.strip s)
  | _ => HRaise (Uncaught AttributeError)
  end.

(** [v == s] for a string [s]. *)
Definition eq_str (v : pyval) (s : string) : bool :=
  match v with
  | PStr t => String.eqb t s
  | _ => false
  end.

(** [a or b] on objects. *)
Definition py_or (a b : pyval) : pyval := if truthy a then a else b.

(** A [ConfigEntry], as far as the integration reads it. *)
Record config_entry : Type := {
  entry_id : string;
  domain : string;
  title : string;
  data : dict;
  options : dict
}.

(** A client object as its constructor leaves it: the constructors store
    their arguments, whatever they are. *)
Inductive client : Type :=
| AppClient (corp_id corp_secret agent_id : pyval) (defaults : dict)
| BotClient (webhook_key : pyval).

(** [hass], as far as the integration reads and writes it: the config
    entries of all integrations, [hass.data[DOMAIN]] keyed by entry id, and
    whether the service [send_message] of the domain is registered. *)
Record hass : Type := {
  entries : list config_entry;
  domain_data : list (string * client);
  has_send_message : bool
}.

(** [d[k] = v] and [d.pop(k, None)] on [hass.data[DOMAIN]]. *)
Fixpoint runtime_set (d : list (string * client)) (k : string) (v : client)
  : list (string * client) :=
  match d with
  | [] => [(k, v)]
  | (k', v') :: r =>
      if String.eqb k k' then (k', v) :: r else (k', v') :: runtime_set r k v
  end.

Fixpoint runtime_get (d : list (string * client)) (k : string) : option client :=
  match d with
  | [] => None
  | (k', v) :: r => if String.eqb k k' then Some v else runtime_get r k
  end.

Definition runtime_pop (d : list (string * client)) (k : string)
  : list (string * client) :=
  filter (fun kv => negb (String.eqb k (fst kv))) d.

Module Integration.

(** [hass.config_entries.async_get_entry(entry_id)]: a lookup in a dict
    keyed by the entry ids, which are strings. *)
Definition async_get_entry (h : hass) (id : pyval)
  : outcome (option config_entry) :=
  match id with
  | PStr s => Return (find (fun e => String.eqb (entry_id e) s) (entries h))
  | PList _ | PDict _ => Raise TypeError
  | _ => Return None
  end.

(** [hass.config_entries.async_entries(DOMAIN)] *)
Definition async_entries (h : hass) : list config_entry :=
  filter (fun e => String.eqb (domain e) DOMAIN) (entries h).

Definition _get_defaults (entry : config_entry) : dict :=
  [(CONF_TO_USER,
    get_default (options entry) CONF_TO_USER (get (data entry) CONF_DEFAULT_TO_USER));
   (CONF_TO_PARTY,
    get_default (options entry) CONF_TO_PARTY (get (data entry) CONF_DEFAULT_TO_PARTY));
   (CONF_TO_TAG,
    get_default (options entry) CONF_TO_TAG (get (data entry) CONF_DEFAULT_TO_TAG))].

(** The comprehension of [_resolve_entry]: the entries whose title is the
    given one up to case.  [entry_title.lower()] is evaluated once per entry,
    so an object without that attribute raises only when there is an entry
    to compare with. *)
Definition title_matches (candidates : list config_entry) (entry_title : pyval)
  : outcome (list config_entry) :=
  match entry_title with
  | PStr t =>
      Return (filter (fun e => String.eqb (PyStrMore.lower (title e))
                                          (PyStrMore.lower t))
                     candidates)
  | _ => match candidates with
         | [] => Return []
         | _ => Raise AttributeError
         end
  end.

Definition _resolve_entry (h : hass) (call_data : dict)
  : host_outcome config_entry :=
  let id := get call_data CONF_ENTRY_ID in
  let entry_title := get call_data CONF_ENTRY_TITLE in
  if truthy id then
    match async_get_entry h id with
    | Raise e => HRaise (Uncaught e)
    | Return None => HRaise (HomeAssistantError (NoEntryWithId id))
    | Return (Some entry) => HReturn entry
    end
  else if truthy entry_title then
    match title_matches (async_entries h) entry_title with
    | Raise e => HRaise (Uncaught e)
    | Return [] => HRaise (HomeAssistantError (NoEntryWithTitle entry_title))
    | Return [entry] => HReturn entry
    | Return _ => HRaise (HomeAssistantError MultipleEntries)
    end
  else HRaise (HomeAssistantError NoEntryReference).

(** [v in (None, "")] *)
Definition none_or_empty (v : pyval) : bool :=
  match v with
  | PNone => true
  | PStr EmptyString => true
  | _ => false
  end.

(** One round of the loop of [_async_send_message] over the recipient
    keys. *)
Definition fill_default (defaults : dict) (payload : dict) (target_key : string)
  : dict :=
  if none_or_empty (get payload target_key) && truthy (get defaults target_key)
  then dict_set payload target_key (get defaults target_key)
  else payload.

Definition fill_defaults (payload defaults : dict) : dict :=
  fold_left (fill_default defaults) [CONF_TO_USER; CONF_TO_PARTY; CONF_TO_TAG]
            payload.

(** The client with the fields its constructor declares, when it has them. *)
Definition annotated (c : client) : option (app_config + string) :=
  match c with
  | AppClient (PStr corp_id) (PStr corp_secret) (PInt agent_id) defaults =>
      Some (inl {| _corp_id := corp_id; _corp_secret := corp_secret;
                   _agent_id := agent_id; _defaults := defaults |})
  | BotClient (PStr webhook_key) => Some (inr webhook_key)
  | _ => None
  end.

(** [try: ... except WeWorkError as err: raise HomeAssistantError(str(err))] *)
Definition as_host_error {A} (r : outcome A) : host_outcome A :=
  match r with
  | Return a => HReturn a
  | Raise (WeWorkError msg _) => HRaise (HomeAssistantError (ClientFailure msg))
  | Raise e => HRaise (Uncaught e)
  end.

Section Service.

Context `{PyRuntime}.
Variable env : environment.

(** [client.async_send_message(payload)] *)
Definition client_send (c : client) (payload : dict)
  : state -> host_outcome unit * state :=
  fun s =>
    match annotated c with
    | Some (inl config) =>
        let (r, s') := WeWorkAppClient.async_send_message env config payload s in
        (as_host_error r, s')
    | Some (inr webhook_key) =>
        let (r, s') := WeWorkBotClient.async_send_message env webhook_key payload s in
        (as_host_error r, s')
    | None => (HRaise OutsideAnnotations, s)
    end.

(** [_async_send_message(hass, call)]; the state is the one of the client
    the call resolves to, the only client the call touches. *)
Definition _async_send_message (h : hass) (call_data : dict)
  : state -> host_outcome unit * state :=
  fun s =>
    match _resolve_entry h call_data with
    | HRaise e => (HRaise e, s)
    | HReturn entry =>
        match runtime_get (domain_data h) (entry_id entry) with
        | None => (HRaise (HomeAssistantError RuntimeNotInitialized), s)
        | Some c =>
            let payload := fill_defaults call_data (_get_defaults entry) in
            client_send c payload s
        end
    end.

End Service.

(** The client that [async_setup_entry] constructs. *)
Definition new_client (entry : config_entry) : host_outcome client :=
  entry_type <~ item (data entry) CONF_ENTRY_TYPE ;;
  if eq_str entry_type ENTRY_TYPE_APP then
    let defaults := _get_defaults entry in
    corp_id <~ item (data entry) CONF_CORP_ID ;;
    corp_secret <~ item (data entry) CONF_CORP_SECRET ;;
    agent_id <~ item (data entry) CONF_AGENT_ID ;;
    HReturn (AppClient corp_id corp_secret agent_id defaults)
  else
    webhook_key <~ item (data entry) CONF_WEBHOOK_KEY ;;
    HReturn (BotClient webhook_key).

(** [async_setup_entry]: the client is stored under the entry id and the
    service is registered unless it is already. *)
Definition async_setup_entry (h : hass) (entry : config_entry)
  : host_outcome hass :=
  c <~ new_client entry ;;
  HReturn {| entries := entries h;
             domain_data := runtime_set (domain_data h) (entry_id entry) c;
             has_send_message :=
               if negb (has_send_message h) then true else has_send_message h |}.

(** [async_unload_entry]: the entry's client is dropped, and the service is
    removed when no client is left. *)
Definition async_unload_entry (h : hass) (entry : config_entry) : hass :=
  let left := runtime_pop (domain_data h) (entry_id entry) in
  {| entries := entries h;
     domain_data := left;
     has_send_message :=
       match left with
       | [] => if has_send_message h then false else has_send_message h
       | _ => has_send_message h
       end |}.

End Integration.

Module ConfigFlow.

(** The unique id of an entry, kept as the values its f-string is formatted
    from: ["app_{corp_id}_{agent_id}"] or ["bot_{webhook_key}"]. *)
Inductive unique_id : Type :=
| AppUniqueId (corp_id : string) (agent_id : pyval)
| BotUniqueId (webhook_key : string).

(** What a step returns: a form with the defaults of its schema, a new
    entry (or new options) with its title and data, or the end of the
    flow. *)
Inductive flow_result : Type :=
| ShowForm (step_id : string) (schema_defaults : dict)
| CreateEntry (entry_title : pyval) (entry_data : dict)
| Abort (reason : string).

(** The fields of a [WeWorkNotifyConfigFlow]; both are [None] at first. *)
Record flow : Type := {
  _name : pyval;
  _entry_type : pyval
}.

(** [if value := value.strip(): data[field] = value] over pairs of a field
    and a value. *)
Fixpoint store_stripped (fields : list (string * pyval)) (d : dict)
  : host_outcome dict :=
  match fields with
  | [] => HReturn d
  | (field, value) :: rest =>
      value <~ py_strip value ;;
      store_stripped rest
        (if PyStr.nonempty value then dict_set d field (PStr value) else d)
  end.

Section Steps.

(** [_abort_if_unique_id_configured]: whether an entry of the domain has
    the unique id already is known to the host. *)
Variable configured : unique_id -> bool.

Definition app_schema_defaults : dict :=
  [(CONF_CORP_ID, PStr ""); (CONF_CORP_SECRET, PStr "");
   (CONF_AGENT_ID, PInt 1000000); (CONF_DEFAULT_TO_USER, PStr "");
   (CONF_DEFAULT_TO_PARTY, PStr ""); (CONF_DEFAULT_TO_TAG, PStr "")].

Definition async_step_app (self : flow) (user_input : option dict)
  : host_outcome flow_result :=
  match user_input with
  | Some user_input =>
      corp_id <~ hbind (item user_input CONF_CORP_ID) py_strip ;;
      corp_secret <~ hbind (item user_input CONF_CORP_SECRET) py_strip ;;
      agent_id <~ item user_input CONF_AGENT_ID ;;
      if configured (AppUniqueId corp_id agent_id)
      then HRaise (AbortFlow "already_configured")
      else
        let entry_data : dict :=
          [(CONF_ENTRY_TYPE, PStr ENTRY_TYPE_APP);
           (CONF_CORP_ID, PStr corp_id);
           (CONF_CORP_SECRET, PStr corp_secret);
           (CONF_AGENT_ID, agent_id)] in
        entry_data <~ store_stripped
          [(CONF_DEFAULT_TO_USER,
            get_default user_input CONF_DEFAULT_TO_USER (PStr ""));
           (CONF_DEFAULT_TO_PARTY,
            get_default user_input CONF_DEFAULT_TO_PARTY (PStr ""));
           (CONF_DEFAULT_TO_TAG,
            get_default user_input CONF_DEFAULT_TO_TAG (PStr ""))]
          entry_data ;;
        HReturn (CreateEntry (py_or (_name self) (PStr "WeWork App")) entry_data)
  | None => HReturn (ShowForm "app" app_schema_defaults)
  end.

Definition async_step_bot (self : flow) (user_input : option dict)
  : host_outcome flow_result :=
  match user_input with
  | Some user_input =>
      webhook_key <~ hbind (item user_input CONF_WEBHOOK_KEY) py_strip ;;
      if configured (BotUniqueId webhook_key)
      then HRaise (AbortFlow "already_configured")
      else
        HReturn (CreateEntry (py_or (_name self) (PStr "WeWork Robot"))
                   [(CONF_ENTRY_TYPE, PStr ENTRY_TYPE_BOT);
                    (CONF_WEBHOOK_KEY, PStr webhook_key)])
  | None => HReturn (ShowForm "bot" [])
  end.

(** [async_step_user]: the two assignments to [self] happen one after the
    other, so the flow is returned next to the outcome. *)
Definition async_step_user (self : flow) (user_input : option dict)
  : host_outcome flow_result * flow :=
  match user_input with
  | Some user_input =>
      match lookup user_input CONF_NAME with
      | None => (HRaise (KeyError CONF_NAME), self)
      | Some name =>
          let self := {| _name := name; _entry_type := _entry_type self |} in
          match lookup user_input CONF_ENTRY_TYPE with
          | None => (HRaise (KeyError CONF_ENTRY_TYPE), self)
          | Some entry_type =>
              let self := {| _name := _name self; _entry_type := entry_type |} in
              if eq_str (_entry_type self) ENTRY_TYPE_APP
              then (async_step_app self None, self)
              else (async_step_bot self None, self)
          end
      end
  | None => (HReturn (ShowForm "user" []), self)
  end.

End Steps.

(** [WeWorkNotifyOptionsFlow.async_step_init] for the entry [_entry]. *)
Definition async_step_init (_entry : config_entry) (user_input : option dict)
  : host_outcome flow_result :=
  if negb (eq_str (get (data _entry) CONF_ENTRY_TYPE) ENTRY_TYPE_APP)
  then HReturn (Abort "no_app_options")
  else
    let current_user :=
      get_default (options _entry) CONF_TO_USER
        (get_default (data _entry) CONF_DEFAULT_TO_USER (PStr "")) in
    let current_party :=
      get_default (options _entry) CONF_TO_PARTY
        (get_default (data _entry) CONF_DEFAULT_TO_PARTY (PStr "")) in
    let current_tag :=
      get_default (options _entry) CONF_TO_TAG
        (get_default (data _entry) CONF_DEFAULT_TO_TAG (PStr "")) in
    match user_input with
    | Some user_input =>
        new_options <~ store_stripped
          [(CONF_TO_USER, get_default user_input CONF_TO_USER (PStr ""));
           (CONF_TO_PARTY, get_default user_input CONF_TO_PARTY (PStr ""));
           (CONF_TO_TAG, get_default user_input CONF_TO_TAG (PStr ""))]
          [] ;;
        HReturn (CreateEntry (PStr "") new_options)
    | None =>
        HReturn (ShowForm "init"
                   [(CONF_TO_USER, current_user);
                    (CONF_TO_PARTY, current_party);
                    (CONF_TO_TAG, current_tag)])
    end.

End ConfigFlow.

(** ** Vocabulary of the further properties *)

(** A message type of [SUPPORTED_MESSAGE_TYPES]. *)
Definition supported (message_type : string) : Prop :=
  In message_type SUPPORTED_MESSAGE_TYPES.

(** The entry of a merged recipient in a payload of the application client:
    none when no recipient is left. *)
Definition recipient_entry (k : string) (v : option string) : dict :=
  if nonempty_opt v then [(k, PStr (str_of v))] else [].

(** The body of a payload of the application client: the media id for an
    image, the message for a text or a markdown message. *)
Definition app_body (message_type : string) (data : dict) : dict :=
  if String.eqb message_type MESSAGE_TYPE_IMAGE
  then [("media_id", get data CONF_IMAGE_MEDIA_ID)]
  else [("content", get data CONF_MESSAGE)].

(** The recipients under key [k] that the application client sends to: the
    ones of the call merged with the default of the client. *)
Definition merged (self : app_config) (data : dict) (k : string)
  : option string :=
  _merge_recipient (get data k) (get (_defaults self) k).

(** A value that is truthy and not a string. *)
Definition truthy_non_string (v : pyval) : Prop :=
  truthy v = true /\ forall s, v <> PStr s.

(** The fields of a call that the application client reads, and the ones
    the robot client reads. *)
Definition app_fields : list string :=
  [CONF_MESSAGE_TYPE; CONF_MESSAGE; CONF_TO_USER; CONF_TO_PARTY; CONF_TO_TAG;
   CONF_IMAGE_MEDIA_ID].

Definition bot_fields : list string :=
  [CONF_MESSAGE_TYPE; CONF_MESSAGE; CONF_MENTIONED_LIST;
   CONF_MENTIONED_MOBILE_LIST; CONF_IMAGE_BASE64; CONF_IMAGE_MD5].

Section SendVocabulary.

Context `{PyRuntime}.
Variable env : environment.
Variable self : app_config.

(** The provider accepts a request made after the requests of [log]: it
    answers with a JSON object without a truthy [errcode]. *)
Definition accepted (log : list request) (r : request) : Prop :=
  exists d, http env log r = HttpJson (PDict d) /\
            truthy (get d "errcode") = false.

(** [payload] is what the application client builds for the call. *)
Definition built (data payload : dict) : Prop :=
  exists message_type,
    supported_type data = Return message_type /\
    WeWorkAppClient._build_payload self message_type data = Return payload.

(** The requests of one call of the application client, the most recent
    first: at most two sends and two token requests and nothing else, every
    send with a truthy token and with the payload built for the call. *)
Definition call_log (data : dict) (new : list request) : Prop :=
  sends new <= 2 /\ refreshes new <= 2 /\
  length new = sends new + refreshes new /\
  forall r, In r new ->
    r = GetToken (_corp_id self) (_corp_secret self) \/
    exists token payload,
      r = PostMessage token payload /\ truthy token = true /\
      built data payload.

End SendVocabulary.

Module ForcedCallers.
Import Concurrent.

(** [count] callers of [_refresh_token(force=True)]: the retry paths of as
    many calls of [async_send_message]. *)
Definition forced_callers (count : nat) : list bool := repeat true count.

(** No caller of the system came in through [_ensure_token]. *)
Definition all_forced `{PyRuntime} (sys : system) : Prop :=
  forall i p, nth_error (pcs sys) i = Some p ->
              p <> Start false /\ p <> Waiting false.

(** Callers of a forced refresh started with the log [log0]: every caller
    that has got the lock has made a token request of its own. *)
Definition each_requested `{PyRuntime} (log0 : list request) (sys : system)
  : Prop :=
  lock_held_by_fetch sys /\ all_forced sys /\
  refreshes (sent (shared sys)) =
    refreshes log0 + in_flight sys + done_count sys.

End ForcedCallers.

(** *** Vocabulary of the host side *)

(** The entry that the host creates, under the id [id], for the result
    [CreateEntry] of a config flow: the data of the result, no options. *)
Definition entry_created (id entry_title : string) (entry_data : dict)
  : config_entry :=
  {| entry_id := id; domain := DOMAIN; title := entry_title;
     data := entry_data; options := [] |}.

(** The entry after the host has stored the result [CreateEntry] of its
    options flow. *)
Definition with_options (entry : config_entry) (new_options : dict)
  : config_entry :=
  {| entry_id := entry_id entry; domain := domain entry; title := title entry;
     data := data entry; options := new_options |}.

(** What a form field that holds the text [typed] leaves in an entry: the
    trimmed text, or nothing when that is empty. *)
Definition kept (typed : pyval) : option string :=
  match typed with
  | PStr s => if PyStr.nonempty (PyStr.strip s) then Some (PyStr.strip s) else None
  | _ => None
  end.

Definition kept_value (typed : pyval) : pyval :=
  match kept typed with Some s => PStr s | None => PNone end.

(** The keys of the recipients of a call. *)
Definition recipient_keys : list string :=
  [CONF_TO_USER; CONF_TO_PARTY; CONF_TO_TAG].

(** The setting up and the unloading of entries, in some order; a setup that
    raises leaves [hass] as it was. *)
Inductive lifecycle : Type :=
| SetUp (entry : config_entry)
| Unload (entry : config_entry).

Definition lifecycle_step (h : hass) (op : lifecycle) : hass :=
  match op with
  | SetUp entry =>
      match Integration.async_setup_entry h entry with
      | HReturn h' => h'
      | HRaise _ => h
      end
  | Unload entry => Integration.async_unload_entry h entry
  end.

Definition lifecycle_run (ops : list lifecycle) (h : hass) : hass :=
  fold_left lifecycle_step ops h.

(** The entry ids that have a client. *)
Definition loaded (h : hass) : list string := map fst (domain_data h).

(** The value of a recipient default after the options form has been
    submitted with the text [typed] in its field: the trimmed text, or the
    default stored at setup when that is empty. *)
Definition kept_or (typed fallback : pyval) : pyval :=
  match kept typed with Some s => PStr s | None => fallback end.

(** The call of [async_send_message] on a client itself, without the
    service around it, for a client with the fields its constructor
    declares. *)
Definition direct_call `{PyRuntime} (env : environment) (c : client)
  (payload : dict) (s : state) : option (outcome unit * state) :=
  match Integration.annotated c with
  | Some (inl config) =>
      Some (WeWorkAppClient.async_send_message env config payload s)
  | Some (inr webhook_key) =>
      Some (WeWorkBotClient.async_send_message env webhook_key payload s)
  | None => None
  end.

(** ** Further concrete inputs *)

Module Samples.
Import ZRuntime.

(** A provider that grants token [new] and whose message endpoint cannot be
    reached. *)
Definition send_drops : environment :=
  {| http := fun _ r =>
       match r with
       | GetToken _ _ => Demo.token_reply Demo.grant
       | _ => HttpClientError "connection reset"
       end;
     monotonic := fun n => (100 + Z.of_nat n)%Z |}.

(** A text message whose mentioned list is a number. *)
Definition numeric_mention : dict :=
  [(CONF_MESSAGE, PStr "hi"); (CONF_MENTIONED_LIST, PInt 5)].

(** Two concurrent forced refreshes on a cache that holds token [old],
    after the blocks of a schedule have run. *)
Definition forced_after (env : environment) (count : nat) (schedule : list nat)
  : Concurrent.system :=
  let start :=
    Concurrent.callers (ForcedCallers.forced_callers count) Demo.warm_cache in
  match Concurrent.run env Demo.client schedule start with
  | Some sys => sys
  | None => start
  end.

(** A host on which no unique id is configured yet, and a flow whose first
    step has been answered with a name. *)
Definition nothing_configured : ConfigFlow.unique_id -> bool := fun _ => false.

Definition named (name : string) : ConfigFlow.flow :=
  {| ConfigFlow._name := PStr name;
     ConfigFlow._entry_type := PStr ENTRY_TYPE_APP |}.

(** The application form and the robot form as submitted. *)
Definition app_form : dict :=
  [(CONF_CORP_ID, PStr " ww123 "); (CONF_CORP_SECRET, PStr "s3cret");
   (CONF_AGENT_ID, PInt 1000002); (CONF_DEFAULT_TO_USER, PStr " ops|dev ");
   (CONF_DEFAULT_TO_PARTY, PStr ""); (CONF_DEFAULT_TO_TAG, PStr "  ")].

Definition app_data : dict :=
  [(CONF_ENTRY_TYPE, PStr "app"); (CONF_CORP_ID, PStr "ww123");
   (CONF_CORP_SECRET, PStr "s3cret"); (CONF_AGENT_ID, PInt 1000002);
   (CONF_DEFAULT_TO_USER, PStr "ops|dev")].

Definition bot_form : dict := [(CONF_WEBHOOK_KEY, PStr " key-1 ")].

Definition bot_data : dict :=
  [(CONF_ENTRY_TYPE, PStr "bot"); (CONF_WEBHOOK_KEY, PStr "key-1")].

Definition app_entry : config_entry := entry_created "e1" "Ops" app_data.

Definition bot_entry : config_entry := entry_created "e2" "Door" bot_data.

(** The options form submitted with an empty user field and a party. *)
Definition options_form : dict :=
  [(CONF_TO_USER, PStr ""); (CONF_TO_PARTY, PStr " 7 ")].

(** A host with the two entries, before any of them is set up. *)
Definition home : hass :=
  {| entries := [app_entry; bot_entry]; domain_data := [];
     has_send_message := false |}.

(** The host after both entries have been set up. *)
Definition running : hass :=
  lifecycle_run [SetUp app_entry; SetUp bot_entry] home.

(** A call that refers to its entry by title. *)
Definition by_title (entry_title : string) : dict :=
  [(CONF_ENTRY_TITLE, PStr entry_title); (CONF_MESSAGE, PStr "hi")].

(** An entry whose default user list names [ops] twice, and its client. *)
Definition repeated_entry : config_entry :=
  entry_created "e3" "Night"
    [(CONF_ENTRY_TYPE, PStr "app"); (CONF_CORP_ID, PStr "corp");
     (CONF_CORP_SECRET, PStr "secret"); (CONF_AGENT_ID, PInt 1000002);
     (CONF_DEFAULT_TO_USER, PStr "ops| dev |ops")].

Definition repeated_default : app_config :=
  {| _corp_id := "corp"; _corp_secret := "secret"; _agent_id := 1000002;
     _defaults := Integration._get_defaults repeated_entry |}.

End Samples.
(** * Properties *)

(** ** The token cache *)

Section TokenCache.

Context `{PyRuntime}.
Variable env : environment.
Variable self : app_config.

Lemma ensure_token_fresh (s : state) :
  fresh_at env s (clock_reads s) ->
  WeWorkAppClient._ensure_token env self s = (Return (_token s), tick s).
Proof.
  intros [Htok Hlt].
  unfold WeWorkAppClient._ensure_token, WeWorkAppClient.token_is_fresh,
    bind, read_token, read_expire_time, now, ret.
  cbn. rewrite Htok. cbn. rewrite Hlt. reflexivity.
Qed.

(** C3. When the cache holds a token and the clock reads less than the
    expiry instant minus 30 seconds, [_ensure_token] returns the cached
    token, makes no request and leaves the token and the expiry instant as
    they were (only the clock has been read once).  When the next reading is
    within the window too, a second call in succession returns the same
    token, and the log of requests is still the one before the first call. *)
Theorem ensure_token_cached_no_io (s : state) :
  fresh_at env s (clock_reads s) ->
  let (r1, s1) := WeWorkAppClient._ensure_token env self s in
  (r1 = Return (_token s) /\ sent s1 = sent s /\
   _token s1 = _token s /\ _token_expire_time s1 = _token_expire_time s) /\
  (fresh_at env s (S (clock_reads s)) ->
   let (r2, s2) := WeWorkAppClient._ensure_token env self s1 in
   r2 = Return (_token s) /\ sent s2 = sent s /\
   _token s2 = _token s /\ _token_expire_time s2 = _token_expire_time s).
Proof.
  intros Hfresh.
  rewrite (ensure_token_fresh s Hfresh).
  split; [repeat split; reflexivity |].
  intros Hnext.
  assert (Hfresh1 : fresh_at env (tick s) (clock_reads (tick s))) by exact Hnext.
  rewrite (ensure_token_fresh (tick s) Hfresh1).
  repeat split; reflexivity.
Qed.

Lemma refresh_check_state (force : bool) (s : state) :
  let s0 := at_fetch env force s in
  _token s0 = _token s /\ _token_expire_time s0 = _token_expire_time s /\
  sent s0 = sent s.
Proof.
  unfold at_fetch, WeWorkAppClient.refresh_check, bind, read_token,
    read_expire_time, now, ret. cbn.
  destruct (truthy (_token s) && negb force); cbn; [| auto].
  destruct (time_lt _ _); cbn; auto.
Qed.

Lemma refresh_check_forced (s : state) : fetches env true s /\ at_fetch env true s = s.
Proof.
  unfold fetches, at_fetch, WeWorkAppClient.refresh_check, bind, read_token, ret.
  cbn. rewrite andb_false_r. cbn. auto.
Qed.

Lemma refresh_token_fetch (force : bool) (s : state) :
  fetches env force s ->
  WeWorkAppClient._refresh_token env self force s =
  WeWorkAppClient.refresh_complete env
    (http env (sent s) (token_request self))
    (mkState (_token (at_fetch env force s)) (_token_expire_time (at_fetch env force s))
             (token_request self :: sent s) (clock_reads (at_fetch env force s))).
Proof.
  unfold fetches, at_fetch. intros Hf.
  unfold WeWorkAppClient._refresh_token, bind at 1.
  destruct (WeWorkAppClient.refresh_check env force s) as [r s0] eqn:Hc.
  cbn in Hf. subst r. cbn.
  pose proof (refresh_check_state force s) as Hst.
  unfold at_fetch in Hst. rewrite Hc in Hst. cbn in Hst.
  destruct Hst as (_ & _ & Hsent).
  unfold bind, exchange. cbn. rewrite Hsent. reflexivity.
Qed.

(** What the part of [_refresh_token] after the request does with a JSON
    object, case by case. *)
Lemma refresh_complete_object (d : dict) (s : state) :
  WeWorkAppClient.refresh_complete env (HttpJson (PDict d)) s =
  if truthy (get d "errcode") then
    (Raise (WeWorkError
              (RefreshFailed (get_default d "errmsg" (PStr "unknown error")))
              (get d "errcode")), s)
  else if truthy (get d "access_token") then
    let s1 := mkState (get d "access_token") (_token_expire_time s) (sent s)
                      (S (clock_reads s)) in
    match py_int (get_default d "expires_in" (PInt 7200)) with
    | Raise e => (Raise e, s1)
    | Return n =>
        match time_add_int (monotonic env (clock_reads s)) n with
        | None => (Raise OverflowError, s1)
        | Some expire =>
            (Return (get d "access_token"),
             mkState (get d "access_token") expire (sent s) (S (clock_reads s)))
        end
    end
  else (Raise (WeWorkError MissingAccessToken PNone), s).
Proof.
  unfold WeWorkAppClient.refresh_complete, bind, lift, raise, ret, body_get,
    write_token, write_expire_time, now, get.
  cbn.
  destruct (truthy (get_default d "errcode" PNone)); [reflexivity |].
  destruct (truthy (get_default d "access_token" PNone)); cbn; [| reflexivity].
  destruct (py_int (get_default d "expires_in" (PInt 7200))); cbn;
    [| reflexivity].
  destruct (time_add_int _ a); reflexivity.
Qed.

Lemma truthy_int (z : Z) : truthy (PInt z) = true <-> z <> 0%Z.
Proof.
  cbn. destruct (Z.eqb_spec z 0); cbn; split; intros; congruence.
Qed.

Lemma absent_missing (d : dict) (k : string) : lookup d k = None -> missing d k.
Proof.
  unfold missing, get, get_default. intros ->. reflexivity.
Qed.

(** C2. When [_refresh_token] goes to the network and the token endpoint
    answers with a JSON object, the call fails with a [WeWorkError] exactly
    when the object has a non-zero (truthy) [errcode] or no access token
    (the field is missing); it returns exactly when neither is the case and
    the expiry instant can be computed, and then the returned and the stored
    token are the one of the response and the stored expiry instant is the
    clock reading taken on completion plus [expires_in], with 7200 for an
    absent [expires_in]. *)
Theorem refresh_token_fetch_result (force : bool) (s : state) (d : dict) :
  fetches env force s ->
  http env (sent s) (token_request self) = HttpJson (PDict d) ->
  let (r, s') := WeWorkAppClient._refresh_token env self force s in
  let t := monotonic env (clock_reads (at_fetch env force s)) in
  let expires_in := get_default d "expires_in" (PInt 7200) in
  ((exists msg code, r = Raise (WeWorkError msg code)) <->
   (truthy (get d "errcode") = true \/ missing d "access_token")) /\
  (forall z, get d "errcode" = PInt z ->
             truthy (get d "errcode") = true <-> z <> 0%Z) /\
  (lookup d "expires_in" = None -> expires_in = PInt 7200) /\
  ((exists token, r = Return token) <->
   (truthy (get d "errcode") = false /\ ~ missing d "access_token" /\
    exists n expire,
      py_int expires_in = Return n /\ time_add_int t n = Some expire)) /\
  (forall token, r = Return token ->
     token = get d "access_token" /\ _token s' = token /\
     sent s' = token_request self :: sent s /\
     exists n, py_int expires_in = Return n /\
               time_add_int t n = Some (_token_expire_time s')).
Proof.
  intros Hf Hreply.
  rewrite (refresh_token_fetch force s Hf), Hreply, refresh_complete_object.
  unfold missing. cbn [clock_reads sent _token _token_expire_time].
  set (t := monotonic env (clock_reads (at_fetch env force s))).
  set (expires_in := get_default d "expires_in" (PInt 7200)).
  assert (Hint : forall z, get d "errcode" = PInt z ->
                           truthy (get d "errcode") = true <-> z <> 0%Z).
  { intros z ->. apply truthy_int. }
  assert (Hdef : lookup d "expires_in" = None -> expires_in = PInt 7200).
  { unfold expires_in, get_default. intros ->. reflexivity. }
  assert (Hval : forall e, py_int expires_in = Raise e ->
                           forall msg code, e <> WeWorkError msg code).
  { intros e He msg code. unfold py_int in He.
    destruct expires_in; try congruence.
    destruct (int_of_str s0); congruence. }
  destruct (truthy (get d "errcode")) eqn:Herr;
    [| destruct (truthy (get d "access_token")) eqn:Htok;
       [ destruct (py_int expires_in) as [n | e] eqn:Hn;
         [ destruct (time_add_int t n) as [expire |] eqn:Hadd |] |] ];
    (split; [| split; [exact Hint | split; [exact Hdef | split]]]).
  all: cbn [_token sent].
  all: repeat match goal with
         | |- _ <-> _ => split
         | |- forall _, _ => intro
         | H : exists _, _ |- _ => destruct H
         | H : _ /\ _ |- _ => destruct H
         | H : _ \/ _ |- _ => destruct H
         end.
  all: try discriminate; try congruence.
  all: try match goal with
           | H0 : Raise ?e = Raise (WeWorkError _ _), H1 : py_int _ = Raise ?e
             |- _ => injection H0 as H0; exfalso; eapply Hval; eauto; fail
           end.
  all: try (left; reflexivity); try (right; reflexivity).
  all: try match goal with
           | H0 : Return _ = Return ?token |- _ => injection H0 as <-
           end.
  all: cbn [_token_expire_time]; eauto 8.
  repeat split; [discriminate | eauto].
Qed.

(** The failures that [_refresh_token] reports itself (a transport error,
    a truthy [errcode], a missing access token) and a body that is not an
    object all leave the token and the expiry instant as they were. *)
Lemma refresh_reported_failures_keep_cache (force : bool) (s : state) :
  fetches env force s ->
  match http env (sent s) (token_request self) with
  | HttpJson (PDict d) =>
      truthy (get d "errcode") = true \/ missing d "access_token"
  | _ => True
  end ->
  let (r, s') := WeWorkAppClient._refresh_token env self force s in
  (exists e, r = Raise e) /\
  _token s' = _token s /\ _token_expire_time s' = _token_expire_time s.
Proof.
  intros Hf Hreply.
  rewrite (refresh_token_fetch force s Hf).
  destruct (refresh_check_state force s) as (Ht & He & _).
  destruct (http env (sent s) (token_request self)) as [result | detail | detail].
  - destruct result as [| b | z | str | l | d];
      try (cbn; rewrite Ht, He; eauto; fail).
    rewrite refresh_complete_object.
    destruct Hreply as [Herr | Hmiss].
    + rewrite Herr. cbn. rewrite Ht, He. eauto.
    + unfold missing in Hmiss. rewrite Hmiss.
      destruct (truthy (get d "errcode")); cbn; rewrite Ht, He; eauto.
  - cbn. rewrite Ht, He. eauto.
  - cbn. rewrite Ht, He. eauto.
Qed.

(** C6.  A refresh that fails by a transport error, by a truthy [errcode]
    of the token endpoint or by a response without an access token raises a
    [WeWorkError] and leaves the cached token and the expiry instant exactly
    as they were before the refresh began; so does a refresh after any
    other answer that does not confirm success.  The cache is updated only
    on confirmed success: when the token or the expiry instant after the
    call differs from the one before, the call has made the token request
    and the answer was an object without a truthy [errcode] that carries an
    access token. *)
Theorem failed_refresh_keeps_cache (force : bool) (s : state) :
  let reply := http env (sent s) (token_request self) in
  let (r, s') := WeWorkAppClient._refresh_token env self force s in
  (fetches env force s ->
   (reported_failure reply ->
    (exists msg code, r = Raise (WeWorkError msg code)) /\
    _token s' = _token s /\ _token_expire_time s' = _token_expire_time s) /\
   (~ confirms_success reply ->
    (exists e, r = Raise e) /\
    _token s' = _token s /\ _token_expire_time s' = _token_expire_time s)) /\
  (_token s' <> _token s \/ _token_expire_time s' <> _token_expire_time s ->
   fetches env force s /\ confirms_success reply).
Proof.
  intros reply.
  pose proof (refresh_check_state force s) as Hst. unfold at_fetch in Hst.
  destruct (WeWorkAppClient.refresh_check env force s) as [c s0] eqn:Hc.
  cbn in Hst. destruct Hst as (Ht0 & He0 & _).
  assert (Hkeep : forall (e : exn),
            WeWorkAppClient._refresh_token env self force s = (Raise e, s0) \/
            (exists token,
               WeWorkAppClient._refresh_token env self force s =
               (Return token, s0)) ->
            ~ fetches env force s ->
            let (r, s') := WeWorkAppClient._refresh_token env self force s in
            (fetches env force s ->
             (reported_failure reply ->
              (exists msg code, r = Raise (WeWorkError msg code)) /\
              _token s' = _token s /\
              _token_expire_time s' = _token_expire_time s) /\
             (~ confirms_success reply ->
              (exists e0, r = Raise e0) /\
              _token s' = _token s /\
              _token_expire_time s' = _token_expire_time s)) /\
            (_token s' <> _token s \/
             _token_expire_time s' <> _token_expire_time s ->
             fetches env force s /\ confirms_success reply)).
  { intros e Hcall Hnot.
    destruct Hcall as [-> | [token ->]];
      (split; [intros Hf; contradiction |
               intros [Hch | Hch]; exfalso; apply Hch; assumption]). }
  destruct c as [[token |] | e].
  - (* the cached token is returned *)
    apply (Hkeep AttributeError).
    + right. exists token.
      unfold WeWorkAppClient._refresh_token, bind. rewrite Hc. reflexivity.
    + unfold fetches. rewrite Hc. discriminate.
  - (* the token request is made *)
    assert (Hf : fetches env force s) by (unfold fetches; rewrite Hc; reflexivity).
    rewrite (refresh_token_fetch force s Hf).
    destruct (refresh_check_state force s) as (Ht & He & _).
    unfold reply, reported_failure, confirms_success, missing. clear reply Hkeep.
    destruct (http env (sent s) (token_request self))
      as [result | detail | detail].
    + destruct result as [| b | z | str | l | d].
      6:{ rewrite refresh_complete_object.
          destruct (truthy (get d "errcode")) eqn:Herr.
          { cbv beta iota. cbn [_token _token_expire_time].
            split; [intros _; split; [intros _ | intros _] |
                    intros [Hch | Hch]; exfalso; apply Hch; assumption];
              (split; [eauto | split; assumption]). }
          destruct (truthy (get d "access_token")) eqn:Htok.
          2:{ cbv beta iota. cbn [_token _token_expire_time].
              split; [intros _; split; [intros _ | intros _] |
                      intros [Hch | Hch]; exfalso; apply Hch; assumption];
                (split; [eauto | split; assumption]). }
          assert (Hconf : exists d0, HttpJson (PDict d) = HttpJson (PDict d0) /\
                            truthy (get d0 "errcode") = false /\
                            truthy (get d0 "access_token") <> false).
          { exists d. split; [reflexivity |]. split; [exact Herr |].
            rewrite Htok. discriminate. }
          assert (Hnot : ~ ((exists detail : string,
                               HttpJson (PDict d) = HttpClientError detail) \/
                            exists d0, HttpJson (PDict d) = HttpJson (PDict d0) /\
                              (truthy (get d0 "errcode") = true \/
                               truthy (get d0 "access_token") = false))).
          { intros [[detail Hd] | (d0 & Hd & Hcase)]; [discriminate |].
            injection Hd as <-. destruct Hcase; congruence. }
          cbv zeta.
          destruct (py_int _) as [n | e];
            [destruct (time_add_int _ n) |]; cbv beta iota;
            (split; [intros _; split; [intros Hrep; contradiction |
                                       intros Hno; contradiction] |
                     intros _; split; [exact Hf | exact Hconf]]). }
      all: cbn; rewrite Ht, He;
        (split; [intros _; split;
                   [intros [[detail Hd] | (d0 & Hd & _)]; discriminate |
                    intros _; split; [eauto | split; reflexivity]] |
                 intros [Hch | Hch]; exfalso; apply Hch; reflexivity]).
    + cbn. rewrite Ht, He.
      split; [intros _; split; intros _; (split; [eauto | split; reflexivity]) |
              intros [Hch | Hch]; exfalso; apply Hch; reflexivity].
    + cbn. rewrite Ht, He.
      split; [intros _; split;
                [intros [[detail0 Hd] | (d0 & Hd & _)]; discriminate |
                 intros _; split; [eauto | split; reflexivity]] |
              intros [Hch | Hch]; exfalso; apply Hch; reflexivity].
  - (* the check itself does not raise *)
    apply (Hkeep e).
    + left. unfold WeWorkAppClient._refresh_token, bind. rewrite Hc. reflexivity.
    + unfold fetches. rewrite Hc. discriminate.
Qed.

(** A response that passes both checks but whose [expires_in] cannot be
    converted makes [_refresh_token] fail after the token has been stored:
    the cache then holds the new token with the old expiry instant. *)
Lemma refresh_conversion_failure_keeps_new_token
  (force : bool) (s : state) (d : dict) (e : exn) :
  fetches env force s ->
  http env (sent s) (token_request self) = HttpJson (PDict d) ->
  truthy (get d "errcode") = false -> ~ missing d "access_token" ->
  py_int (get_default d "expires_in" (PInt 7200)) = Raise e ->
  WeWorkAppClient._refresh_token env self force s =
  (Raise e,
   mkState (get d "access_token") (_token_expire_time s)
           (token_request self :: sent s)
           (S (clock_reads (at_fetch env force s)))).
Proof.
  intros Hf Hreply Herr Htok Hint.
  rewrite (refresh_token_fetch force s Hf), Hreply, refresh_complete_object.
  rewrite Herr, Hint. unfold missing in Htok.
  destruct (truthy (get d "access_token")); [| congruence].
  destruct (refresh_check_state force s) as (_ & -> & _). reflexivity.
Qed.

End TokenCache.


(** ** The send protocol of the application client *)

Section SendProtocol.

Context `{PyRuntime}.
Variable env : environment.
Variable self : app_config.

(** [_do_send] makes one request and touches nothing else. *)
Lemma do_send_state (payload : dict) (token : pyval) (s : state) :
  snd (WeWorkAppClient._do_send env payload token s) =
  logged (PostMessage token payload) s.
Proof.
  unfold WeWorkAppClient._do_send, bind, exchange. cbn.
  destruct (http env (sent s) (PostMessage token payload))
    as [result | detail | detail]; cbn; try reflexivity.
  unfold lift, body_get.
  destruct result; cbn; try reflexivity.
  destruct (truthy _); reflexivity.
Qed.

(** What [_do_send] makes of a JSON object. *)
Lemma do_send_object (payload : dict) (token : pyval) (s : state) (d : dict) :
  http env (sent s) (PostMessage token payload) = HttpJson (PDict d) ->
  WeWorkAppClient._do_send env payload token s =
  (if truthy (get d "errcode")
   then Raise (WeWorkError
                 (SendFailed (get_default d "errmsg" (PStr "unknown error")))
                 (get d "errcode"))
   else Return tt,
   logged (PostMessage token payload) s).
Proof.
  intros Hreply.
  unfold WeWorkAppClient._do_send, bind, exchange. cbn. rewrite Hreply.
  unfold lift, body_get, get. cbn.
  destruct (truthy _); reflexivity.
Qed.

(** A forced refresh makes exactly one token request. *)
Lemma forced_refresh_log (s : state) :
  sent (snd (WeWorkAppClient._refresh_token env self true s)) =
  token_request self :: sent s.
Proof.
  destruct (refresh_check_forced env s) as [Hf Hs].
  rewrite (refresh_token_fetch env self true s Hf), Hs.
  destruct (http env (sent s) (token_request self)) as [result | detail | detail];
    try reflexivity.
  destruct result; try reflexivity.
  rewrite refresh_complete_object.
  destruct (truthy _); [reflexivity |].
  destruct (truthy _); [| reflexivity].
  cbn. destruct (py_int _); [| reflexivity].
  destruct (time_add_int _ _); reflexivity.
Qed.

(** The call up to the first send, then the handler of the [try]. *)
Lemma send_message_unfold (data : dict) (s : state)
  (payload : dict) (token : pyval) (s1 : state) :
  reaches_send env self data s payload token s1 ->
  WeWorkAppClient.async_send_message env self data s =
  try_except (WeWorkAppClient._do_send env payload token)
    (fun msg errcode =>
       retryable <- lift (in_int_set errcode TOKEN_RETRYABLE_ERROR_CODES) ;;
       if negb retryable then raise (WeWorkError msg errcode)
       else
         token <- WeWorkAppClient._refresh_token env self true ;;
         WeWorkAppClient._do_send env payload token) s1.
Proof.
  intros (mt & Hmt & Hpay & Htok).
  unfold WeWorkAppClient.async_send_message.
  unfold bind at 1. unfold lift at 1. rewrite Hmt.
  unfold bind at 1. unfold lift at 1. rewrite Hpay.
  unfold bind at 1. rewrite Htok. reflexivity.
Qed.

(** C1, as the code has it.  Let a call reach its first send and let that
    send fail with a [WeWorkError].  When the error code is in the retryable
    set, the client makes exactly one forced token request; when that
    refresh fails, its error is the result of the call and no send is
    retried; when it succeeds, exactly one send is retried with the new
    token, and whatever that send gives, a failure with a retryable code
    included, is the result of the call, so that the call has made the two
    sends and the one token request and nothing more.  When the error code is
    not in the set, the error of the first send is the result of the call and
    that send is the last request. *)
Theorem retry_once_after_token_error (data : dict) (s : state)
  (payload : dict) (token : pyval) (s1 s2 : state)
  (msg : message) (code : pyval) :
  reaches_send env self data s payload token s1 ->
  WeWorkAppClient._do_send env payload token s1 =
    (Raise (WeWorkError msg code), s2) ->
  let first := PostMessage token payload in
  let call := WeWorkAppClient.async_send_message env self data s in
  (in_int_set code TOKEN_RETRYABLE_ERROR_CODES = Return true ->
   let (r3, s3) := WeWorkAppClient._refresh_token env self true s2 in
   sent s3 = token_request self :: first :: sent s1 /\
   match r3 with
   | Raise e => call = (Raise e, s3)
   | Return token' =>
       let second := PostMessage token' payload in
       call = WeWorkAppClient._do_send env payload token' s3 /\
       sent (snd call) = second :: token_request self :: first :: sent s1 /\
       forall d, http env (sent s3) second = HttpJson (PDict d) ->
                 truthy (get d "errcode") = true ->
                 fst call =
                 Raise (WeWorkError
                          (SendFailed
                             (get_default d "errmsg" (PStr "unknown error")))
                          (get d "errcode"))
   end) /\
  (in_int_set code TOKEN_RETRYABLE_ERROR_CODES = Return false ->
   call = (Raise (WeWorkError msg code), s2) /\
   sent s2 = first :: sent s1).
Proof.
  intros Hreach Hfirst first call.
  assert (Hs2 : s2 = logged first s1).
  { pose proof (do_send_state payload token s1) as Hd.
    rewrite Hfirst in Hd. exact Hd. }
  assert (Hcall : call =
    (retryable <- lift (in_int_set code TOKEN_RETRYABLE_ERROR_CODES) ;;
     if negb retryable then raise (WeWorkError msg code)
     else
       token <- WeWorkAppClient._refresh_token env self true ;;
       WeWorkAppClient._do_send env payload token) s2).
  { unfold call. rewrite (send_message_unfold data s payload token s1 Hreach).
    unfold try_except. rewrite Hfirst. reflexivity. }
  split.
  - intros Hin.
    pose proof (forced_refresh_log s2) as Hlog.
    destruct (WeWorkAppClient._refresh_token env self true s2) as [r3 s3] eqn:Hr.
    cbn in Hlog.
    assert (Hlog3 : sent s3 = token_request self :: first :: sent s1).
    { rewrite Hlog, Hs2. reflexivity. }
    split; [exact Hlog3 |].
    assert (Hcall' : call =
      match r3 with
      | Return token' => WeWorkAppClient._do_send env payload token' s3
      | Raise e => (Raise e, s3)
      end).
    { rewrite Hcall. unfold bind at 1. unfold lift. rewrite Hin. cbn.
      unfold bind at 1. rewrite Hr. destruct r3; reflexivity. }
    destruct r3 as [token' | e]; [| exact Hcall'].
    split; [exact Hcall' |].
    split.
    + rewrite Hcall', do_send_state. cbn. rewrite Hlog3. reflexivity.
    + intros d Hd Herr. rewrite Hcall'.
      rewrite (do_send_object payload token' s3 d Hd), Herr. reflexivity.
  - intros Hout. split.
    + rewrite Hcall. unfold bind, lift. rewrite Hout. reflexivity.
    + rewrite Hs2. reflexivity.
Qed.

(** C8. When an application-mode call fails in the check of the message
    type or in the building of the payload, the call raises that error and
    the state is the one before the call: no token request and no send
    request has been made, the clock has not been read and the cache is
    untouched. *)
Theorem build_failure_before_any_io (data : dict) (s : state) (e : exn) :
  build_fails self data e ->
  WeWorkAppClient.async_send_message env self data s = (Raise e, s).
Proof.
  unfold WeWorkAppClient.async_send_message.
  intros [Hty | (mt & Hty & Hpay)];
    unfold bind at 1; unfold lift at 1; rewrite Hty; [reflexivity |].
  unfold bind at 1. unfold lift at 1. rewrite Hpay. reflexivity.
Qed.

(** The ways of failing that C8 names do make the call fail before its
    first request. *)
Lemma build_failure_causes (data : dict) :
  (forall v, get_default data CONF_MESSAGE_TYPE (PStr MESSAGE_TYPE_TEXT) = v ->
             in_str_set v SUPPORTED_MESSAGE_TYPES = Return false ->
             build_fails self data (WeWorkError (UnsupportedType v) PNone)) /\
  (forall mt, supported_type data = Return mt ->
              mt <> MESSAGE_TYPE_IMAGE ->
              missing data CONF_MESSAGE ->
              build_fails self data (WeWorkError ContentRequiredApp PNone)) /\
  (forall mt, supported_type data = Return mt ->
              (mt = MESSAGE_TYPE_IMAGE \/ ~ missing data CONF_MESSAGE) ->
              no_recipient self data ->
              build_fails self data (WeWorkError RecipientRequired PNone)) /\
  (supported_type data = Return MESSAGE_TYPE_IMAGE ->
   ~ no_recipient self data ->
   missing data CONF_IMAGE_MEDIA_ID ->
   build_fails self data (WeWorkError MediaIdRequired PNone)).
Proof.
  assert (Hsup : forall mt, supported_type data = Return mt ->
                 mt = MESSAGE_TYPE_TEXT \/ mt = MESSAGE_TYPE_MARKDOWN \/
                 mt = MESSAGE_TYPE_IMAGE).
  { intros mt. unfold supported_type.
    destruct (get_default data CONF_MESSAGE_TYPE (PStr MESSAGE_TYPE_TEXT));
      cbn; try discriminate.
    destruct (String.eqb_spec s MESSAGE_TYPE_TEXT) as [-> | _]; cbn;
      [intros [= <-]; auto |].
    destruct (String.eqb_spec s MESSAGE_TYPE_MARKDOWN) as [-> | _]; cbn;
      [intros [= <-]; auto |].
    destruct (String.eqb_spec s MESSAGE_TYPE_IMAGE) as [-> | _]; cbn;
      [intros [= <-]; auto | discriminate]. }
  repeat split.
  - intros v Hv Hin. left. unfold supported_type. rewrite Hv, Hin. reflexivity.
  - intros mt Hmt Hne Hmiss. right. exists mt. split; [exact Hmt |].
    unfold WeWorkAppClient._build_payload. unfold missing in Hmiss.
    rewrite Hmiss.
    destruct (Hsup mt Hmt) as [-> | [-> | ->]]; [reflexivity | reflexivity |].
    congruence.
  - intros mt Hmt Hmsg (Hu & Hp & Ht). right. exists mt. split; [exact Hmt |].
    unfold WeWorkAppClient._build_payload. rewrite Hu, Hp, Ht.
    destruct Hmsg as [-> | Hmsg]; [reflexivity |].
    unfold missing in Hmsg.
    destruct (truthy (get data CONF_MESSAGE)); [| congruence].
    rewrite andb_false_r. reflexivity.
  - intros Hmt Hrec Hmiss. right. exists MESSAGE_TYPE_IMAGE.
    split; [exact Hmt |].
    unfold WeWorkAppClient._build_payload. unfold missing in Hmiss.
    rewrite Hmiss. cbn [PyStr.mem].
    replace (nonempty_opt _ || nonempty_opt _ || nonempty_opt _) with true.
    + reflexivity.
    + symmetry. unfold no_recipient in Hrec.
      destruct (nonempty_opt (_merge_recipient (get data CONF_TO_USER) _));
        [reflexivity |].
      destruct (nonempty_opt (_merge_recipient (get data CONF_TO_PARTY) _));
        [reflexivity |].
      destruct (nonempty_opt (_merge_recipient (get data CONF_TO_TAG) _));
        [reflexivity |].
      exfalso. apply Hrec. auto.
Qed.

(** A send response without a truthy [errcode] ends the call with success. *)
Lemma app_send_accepted (data : dict) (s : state)
  (payload : dict) (token : pyval) (s1 : state) (d : dict) :
  reaches_send env self data s payload token s1 ->
  http env (sent s1) (PostMessage token payload) = HttpJson (PDict d) ->
  truthy (get d "errcode") = false ->
  WeWorkAppClient.async_send_message env self data s =
  (Return tt, logged (PostMessage token payload) s1).
Proof.
  intros Hreach Hreply Herr.
  rewrite (send_message_unfold data s payload token s1 Hreach).
  unfold try_except.
  rewrite (do_send_object payload token s1 d Hreply), Herr. reflexivity.
Qed.

End SendProtocol.

(** ** Responses without an error code *)

Section BothModes.

Context `{PyRuntime}.
Variable env : environment.
Variable self : app_config.
Variable _webhook_key : string.

Lemma no_errcode_falsy (d : dict) :
  errcode_absent d \/ errcode_zero d -> truthy (get d "errcode") = false.
Proof.
  unfold errcode_absent, errcode_zero, get, get_default.
  intros [-> | ->]; reflexivity.
Qed.

Lemma bot_send_object (data : dict) (s : state)
  (message_type : string) (payload d : dict) :
  supported_type data = Return message_type ->
  WeWorkBotClient._build_payload message_type data = Return payload ->
  http env (sent s) (PostWebhook _webhook_key payload) = HttpJson (PDict d) ->
  WeWorkBotClient.async_send_message env _webhook_key data s =
  (if truthy (get d "errcode")
   then Raise (WeWorkError
                 (SendFailed (get_default d "errmsg" (PStr "unknown error")))
                 (get d "errcode"))
   else Return tt,
   logged (PostWebhook _webhook_key payload) s).
Proof.
  intros Hmt Hpay Hreply.
  unfold WeWorkBotClient.async_send_message.
  unfold bind at 1. unfold lift at 1. rewrite Hmt.
  unfold bind at 1. unfold lift at 1. rewrite Hpay.
  unfold bind, exchange. cbn. rewrite Hreply.
  unfold lift, body_get, get. cbn.
  destruct (truthy _); reflexivity.
Qed.

(** C10. A send response that is a JSON object without any [errcode] field
    ends [async_send_message] with success, in the application client and in
    the robot client, exactly as a response whose [errcode] is 0 does: the
    call returns without raising, the send being its last request. *)
Theorem absent_errcode_is_success (d : dict) :
  errcode_absent d \/ errcode_zero d ->
  (forall data s payload token s1,
     reaches_send env self data s payload token s1 ->
     http env (sent s1) (PostMessage token payload) = HttpJson (PDict d) ->
     WeWorkAppClient.async_send_message env self data s =
     (Return tt, logged (PostMessage token payload) s1)) /\
  (forall data s message_type payload,
     supported_type data = Return message_type ->
     WeWorkBotClient._build_payload message_type data = Return payload ->
     http env (sent s) (PostWebhook _webhook_key payload) = HttpJson (PDict d) ->
     WeWorkBotClient.async_send_message env _webhook_key data s =
     (Return tt, logged (PostWebhook _webhook_key payload) s)).
Proof.
  intros Hd. pose proof (no_errcode_falsy d Hd) as Herr.
  split.
  - intros data s payload token s1 Hreach Hreply.
    exact (app_send_accepted env self data s payload token s1 d
                             Hreach Hreply Herr).
  - intros data s mt payload Hmt Hpay Hreply.
    rewrite (bot_send_object data s mt payload d Hmt Hpay Hreply), Herr.
    reflexivity.
Qed.

End BothModes.

(** ** The payload builders *)

Lemma split_items_tokens (items : list string) :
  split_items items = filter PyStr.nonempty (map PyStr.strip items).
Proof.
  induction items as [| item rest IH]; cbn; [reflexivity |].
  rewrite IH. reflexivity.
Qed.

Lemma lookup_dict_set (d : dict) (k : string) (v : pyval) :
  lookup (dict_set d k v) k = Some v.
Proof.
  induction d as [| [k' v'] r IH]; cbn.
  - rewrite String.eqb_refl. reflexivity.
  - destruct (String.eqb k k') eqn:Hk; cbn; rewrite Hk; [reflexivity | exact IH].
Qed.

Lemma get_dict_set (d : dict) (k : string) (v : pyval) :
  get (dict_set d k v) k = v.
Proof.
  unfold get, get_default. rewrite lookup_dict_set. reflexivity.
Qed.

(** [_split_optional] followed by the test [if mentioned_list:] adds the
    entry of the tokens of the field. *)
Lemma set_list_if_tokens (item : dict) (k : string) (v : pyval) :
  str_or_none v ->
  exists l, _split_optional v = Return l /\
            WeWorkBotClient.set_list_if item k l =
            match mention_tokens v with
            | [] => item
            | t :: r => dict_set item k (PList (map PStr (t :: r)))
            end.
Proof.
  intros [-> | [s ->]].
  - exists None. split; reflexivity.
  - unfold _split_optional. cbn [truthy mention_tokens].
    destruct s as [| c s']; cbn [PyStr.nonempty negb].
    + exists None. split; reflexivity.
    + exists (Some (split_items (PyStr.split (String c s')))).
      split; [reflexivity |].
      unfold tokens. rewrite <- split_items_tokens.
      cbn [WeWorkBotClient.set_list_if]. reflexivity.
Qed.

Section Payloads.

Variable self : app_config.

(** The text payload of the application client has the message as its only
    body field. *)
Lemma app_text_body (data payload : dict) :
  WeWorkAppClient._build_payload self MESSAGE_TYPE_TEXT data = Return payload ->
  get payload "text" = PDict [("content", get data CONF_MESSAGE)].
Proof.
  unfold WeWorkAppClient._build_payload.
  destruct (_ && negb (truthy (get data CONF_MESSAGE))); [discriminate |].
  destruct (negb _); [discriminate |].
  cbn [String.eqb Ascii.eqb MESSAGE_TYPE_TEXT Bool.eqb].
  intros [= <-]. apply get_dict_set.
Qed.

(** The text payload of the robot client. *)
Lemma bot_text_payload (data : dict) :
  ~ missing data CONF_MESSAGE ->
  str_or_none (get data CONF_MENTIONED_LIST) ->
  str_or_none (get data CONF_MENTIONED_MOBILE_LIST) ->
  WeWorkBotClient._build_payload MESSAGE_TYPE_TEXT data =
  Return
    [("msgtype", PStr "text");
     ("text",
      PDict (("content", get data CONF_MESSAGE)
             :: mention_entry "mentioned_list"
                  (mention_tokens (get data CONF_MENTIONED_LIST))
             ++ mention_entry "mentioned_mobile_list"
                  (mention_tokens (get data CONF_MENTIONED_MOBILE_LIST))))].
Proof.
  intros Hmsg Hl Hm.
  unfold WeWorkBotClient._build_payload. cbn [String.eqb Ascii.eqb MESSAGE_TYPE_TEXT Bool.eqb].
  unfold missing in Hmsg.
  destruct (truthy (get data CONF_MESSAGE)); [| congruence]. cbn [negb].
  destruct (set_list_if_tokens [("content", get data CONF_MESSAGE)]
              "mentioned_list" _ Hl) as (l & -> & Hset1).
  destruct (set_list_if_tokens
              (WeWorkBotClient.set_list_if [("content", get data CONF_MESSAGE)]
                 "mentioned_list" l)
              "mentioned_mobile_list" _ Hm) as (m & -> & Hset2).
  rewrite Hset2, Hset1.
  destruct (mention_tokens (get data CONF_MENTIONED_LIST));
    destruct (mention_tokens (get data CONF_MENTIONED_MOBILE_LIST));
    reflexivity.
Qed.

(** C5, as the code has it.  For a text message with a message and with
    mention fields that are strings or not given, the robot client builds
    the body [{"msgtype": "text", "text": {"content": message, ...}}] in
    which [mentioned_list] and [mentioned_mobile_list] are the tokens of the
    ['|']-separated fields of the call (trimmed, empty ones dropped), each
    entry left out when it has no token; for the example of the
    specification this is the body with content [hi] and mentioned list
    [u1], [u2].  The application client builds a text body that holds the
    content alone: it has no mention fields. *)
Theorem text_payload_mentions (data : dict) :
  ~ missing data CONF_MESSAGE ->
  str_or_none (get data CONF_MENTIONED_LIST) ->
  str_or_none (get data CONF_MENTIONED_MOBILE_LIST) ->
  WeWorkBotClient._build_payload MESSAGE_TYPE_TEXT data =
  Return
    [("msgtype", PStr "text");
     ("text",
      PDict (("content", get data CONF_MESSAGE)
             :: mention_entry "mentioned_list"
                  (mention_tokens (get data CONF_MENTIONED_LIST))
             ++ mention_entry "mentioned_mobile_list"
                  (mention_tokens (get data CONF_MENTIONED_MOBILE_LIST))))] /\
  WeWorkBotClient._build_payload MESSAGE_TYPE_TEXT Demo.hi_with_mentions =
  Return
    [("msgtype", PStr "text");
     ("text", PDict [("content", PStr "hi");
                     ("mentioned_list", PList [PStr "u1"; PStr "u2"])])] /\
  (forall payload,
     WeWorkAppClient._build_payload self MESSAGE_TYPE_TEXT data = Return payload ->
     get payload "text" = PDict [("content", get data CONF_MESSAGE)]).
Proof.
  intros Hmsg Hl Hm. split; [| split].
  - exact (bot_text_payload data Hmsg Hl Hm).
  - reflexivity.
  - intros payload. apply app_text_body.
Qed.

(** C7. Building a text payload fails with the validation error of the
    client when the message is missing (not given, or empty), in the
    application client and in the robot client.  Building an image payload
    in the robot client fails with a validation error when [image_base64] or
    [image_md5] is missing, and gives the image body when both are there. *)
Theorem required_fields_checked (data : dict) :
  (missing data CONF_MESSAGE ->
   WeWorkAppClient._build_payload self MESSAGE_TYPE_TEXT data =
     Raise (WeWorkError ContentRequiredApp PNone) /\
   WeWorkBotClient._build_payload MESSAGE_TYPE_TEXT data =
     Raise (WeWorkError ContentRequiredText PNone)) /\
  (missing data CONF_IMAGE_BASE64 \/ missing data CONF_IMAGE_MD5 ->
   WeWorkBotClient._build_payload MESSAGE_TYPE_IMAGE data =
     Raise (WeWorkError ImageDataRequired PNone)) /\
  (~ missing data CONF_IMAGE_BASE64 -> ~ missing data CONF_IMAGE_MD5 ->
   WeWorkBotClient._build_payload MESSAGE_TYPE_IMAGE data =
     Return [("msgtype", PStr "image");
             ("image", PDict [("base64", get data CONF_IMAGE_BASE64);
                              ("md5", get data CONF_IMAGE_MD5)])]).
Proof.
  unfold missing. split; [| split].
  - intros Hmsg.
    unfold WeWorkAppClient._build_payload, WeWorkBotClient._build_payload.
    rewrite Hmsg. split; reflexivity.
  - intros Hmiss. unfold WeWorkBotClient._build_payload.
    cbn [String.eqb Ascii.eqb MESSAGE_TYPE_IMAGE MESSAGE_TYPE_TEXT
         MESSAGE_TYPE_MARKDOWN Bool.eqb].
    destruct Hmiss as [-> | ->]; [reflexivity |].
    rewrite orb_true_r. reflexivity.
  - intros Hb Hm. unfold WeWorkBotClient._build_payload.
    cbn [String.eqb Ascii.eqb MESSAGE_TYPE_IMAGE MESSAGE_TYPE_TEXT
         MESSAGE_TYPE_MARKDOWN Bool.eqb].
    destruct (truthy (get data CONF_IMAGE_BASE64)); [| congruence].
    destruct (truthy (get data CONF_IMAGE_MD5)); [| congruence].
    reflexivity.
Qed.

End Payloads.

(** ** Lists *)

Module ListFacts.
Local Open Scope list_scope.

Lemma filter_comp {A} (f g : A -> bool) (l : list A) :
  filter f (filter g l) = filter (fun x => g x && f x) l.
Proof.
  induction l as [| x r IH]; cbn; [reflexivity |].
  destruct (g x); cbn; [destruct (f x) |]; rewrite IH; reflexivity.
Qed.

Lemma filter_all {A} (f : A -> bool) (l : list A) :
  (forall x, In x l -> f x = true) -> filter f l = l.
Proof.
  induction l as [| x r IH]; cbn; [reflexivity |].
  intros Hall. rewrite (Hall x) by auto. rewrite IH by auto. reflexivity.
Qed.

Lemma filter_none {A} (f : A -> bool) (l : list A) :
  (forall x, In x l -> f x = false) -> filter f l = [].
Proof.
  induction l as [| x r IH]; cbn; [reflexivity |].
  intros Hall. rewrite (Hall x) by auto. apply IH. auto.
Qed.

End ListFacts.

(** ** The recipient merge *)

Module StrFacts.
Import PyStr.
Local Open Scope list_scope.

Lemma bar_not_space : is_space bar = false.
Proof. reflexivity. Qed.

Lemma eqb_bar_space (c : ascii) : is_space c = true -> Ascii.eqb c bar = false.
Proof.
  intros Hc. destruct (Ascii.eqb_spec c bar) as [-> | _]; [| reflexivity].
  rewrite bar_not_space in Hc. discriminate.
Qed.

Lemma split_not_nil (s : string) : split s <> [].
Proof.
  destruct s as [| c r]; cbn; [discriminate |].
  destruct (Ascii.eqb c bar); [discriminate |].
  destruct (split r); discriminate.
Qed.

Lemma split_cons (s : string) : exists h t, split s = h :: t.
Proof.
  destruct (split s) as [| h t] eqn:Hs; [| eauto].
  exfalso. exact (split_not_nil s Hs).
Qed.

Lemma lstrip_idem (s : string) : lstrip (lstrip s) = lstrip s.
Proof.
  induction s as [| c r IH]; cbn; [reflexivity |].
  destruct (is_space c) eqn:Hc; [exact IH |].
  cbn. rewrite Hc. reflexivity.
Qed.

Lemma rstrip_cons (c : ascii) (r : string) :
  rstrip (String c r) =
  if nonempty (rstrip r) then String c (rstrip r)
  else if is_space c then EmptyString else String c EmptyString.
Proof.
  cbn. destruct (rstrip r); reflexivity.
Qed.

Lemma rstrip_idem (s : string) : rstrip (rstrip s) = rstrip s.
Proof.
  induction s as [| c r IH]; [reflexivity |].
  rewrite rstrip_cons.
  destruct (nonempty (rstrip r)) eqn:Hr.
  - rewrite rstrip_cons, IH, Hr. reflexivity.
  - destruct (is_space c) eqn:Hc; [reflexivity |].
    cbn. rewrite Hc. reflexivity.
Qed.

Lemma nonempty_false (s : string) : nonempty s = false -> s = EmptyString.
Proof. destruct s; [reflexivity | discriminate]. Qed.

(** Trimming on the left and on the right commute. *)
Lemma lstrip_rstrip (s : string) : lstrip (rstrip s) = rstrip (lstrip s).
Proof.
  induction s as [| c r IH]; [reflexivity |].
  rewrite rstrip_cons. cbn [lstrip].
  destruct (is_space c) eqn:Hc.
  - destruct (nonempty (rstrip r)) eqn:Hr.
    + cbn [lstrip]. rewrite Hc. exact IH.
    + rewrite <- IH. rewrite (nonempty_false _ Hr). reflexivity.
  - destruct (nonempty (rstrip r)) eqn:Hr.
    + cbn [lstrip]. rewrite Hc. rewrite rstrip_cons, Hr. reflexivity.
    + cbn [lstrip]. rewrite Hc. rewrite rstrip_cons, Hr, Hc. reflexivity.
Qed.

Lemma strip_lstrip (s : string) : strip (lstrip s) = strip s.
Proof. unfold strip. rewrite lstrip_idem. reflexivity. Qed.

Lemma strip_rstrip (s : string) : strip (rstrip s) = strip s.
Proof. unfold strip. rewrite lstrip_rstrip, rstrip_idem. reflexivity. Qed.

Lemma lstrip_strip (s : string) : lstrip (strip s) = strip s.
Proof. unfold strip. rewrite lstrip_rstrip, lstrip_idem. reflexivity. Qed.

Lemma rstrip_strip (s : string) : rstrip (strip s) = strip s.
Proof. unfold strip. apply rstrip_idem. Qed.

Lemma strip_idem (s : string) : strip (strip s) = strip s.
Proof. unfold strip at 1. rewrite lstrip_strip. apply rstrip_strip. Qed.

(** Only the empty string splits into the empty piece alone. *)
Lemma split_empty_piece (s : string) : split s = [EmptyString] -> s = EmptyString.
Proof.
  destruct s as [| c r]; [reflexivity |]. cbn.
  destruct (Ascii.eqb c bar).
  - intros Hs. injection Hs as Hs. exfalso. exact (split_not_nil r Hs).
  - destruct (split r); discriminate.
Qed.

(** Trimming on the left trims the first piece. *)
Lemma split_lstrip (s : string) :
  split (lstrip s) = lstrip (hd EmptyString (split s)) :: tl (split s).
Proof.
  induction s as [| c r IH]; [reflexivity |].
  cbn [lstrip split].
  destruct (is_space c) eqn:Hc.
  - rewrite (eqb_bar_space c Hc), IH.
    destruct (split_cons r) as (h & t & ->). cbn. rewrite Hc. reflexivity.
  - cbn [split]. destruct (Ascii.eqb c bar); [reflexivity |].
    destruct (split_cons r) as (h & t & ->). cbn. rewrite Hc. reflexivity.
Qed.

(** Trimming on the right trims the last piece. *)
Lemma split_rstrip (s : string) :
  split (rstrip s) =
  removelast (split s) ++ [rstrip (last (split s) EmptyString)].
Proof.
  induction s as [| c r IH]; [reflexivity |].
  rewrite rstrip_cons. cbn [split].
  destruct (split_cons r) as (h & t & Hr). rewrite Hr in *.
  destruct (nonempty (rstrip r)) eqn:Hne.
  - cbn [split]. rewrite IH.
    destruct (Ascii.eqb c bar); [reflexivity |].
    destruct t as [| t1 t']; [| reflexivity].
    cbn. cbn in IH.
    destruct (rstrip h) eqn:Hh; [| reflexivity].
    rewrite (split_empty_piece _ IH) in Hne. discriminate.
  - rewrite (nonempty_false _ Hne) in IH. cbn in IH.
    destruct t as [| t1 t'].
    + cbn in IH. injection IH as IH.
      destruct (Ascii.eqb c bar) eqn:Hbar.
      * destruct (is_space c) eqn:Hc.
        -- rewrite (eqb_bar_space c Hc) in Hbar. discriminate.
        -- cbn. rewrite Hbar, <- IH. reflexivity.
      * cbn. rewrite <- IH.
        destruct (is_space c); cbn; [reflexivity |].
        rewrite Hbar. reflexivity.
    + exfalso. cbn in IH.
      destruct t'; cbn in IH; [discriminate |].
      destruct (removelast _); discriminate.
Qed.

(** Trimming the whole string does not change the trimmed pieces. *)
Lemma strip_pieces (s : string) :
  map strip (split (strip s)) = map strip (split s).
Proof.
  unfold strip at 2. rewrite split_rstrip.
  rewrite map_app. cbn [map]. rewrite strip_rstrip.
  change [strip (last (split (lstrip s)) EmptyString)]
    with (map strip [last (split (lstrip s)) EmptyString]).
  rewrite <- map_app, <- app_removelast_last by apply split_not_nil.
  rewrite split_lstrip.
  destruct (split_cons s) as (h & t & ->). cbn [hd tl map].
  rewrite strip_lstrip. reflexivity.
Qed.

End StrFacts.

Module MergeFacts.
Import PyStr StrFacts ListFacts.
Local Open Scope list_scope.

Lemma mem_In (x : string) (l : list string) : mem x l = true <-> In x l.
Proof.
  induction l as [| y r IH]; cbn; [split; [discriminate | tauto] |].
  rewrite orb_true_iff, IH, String.eqb_eq. split; intros [E | E]; auto.
Qed.

Lemma mem_app (x : string) (a b : list string) :
  mem x (a ++ b) = mem x a || mem x b.
Proof.
  induction a as [| y r IH]; cbn; [reflexivity |].
  rewrite IH, orb_assoc. reflexivity.
Qed.

(** The loop of [_merge_recipient] appends to [existing] the tokens it has
    not yet seen, in the order of their first occurrence. *)
Lemma merge_loop_first_seen (parts existing : list string) :
  merge_loop parts existing =
  existing ++ filter (fun x => negb (mem x existing))
                     (first_seen (filter nonempty (map strip parts))).
Proof.
  revert existing.
  induction parts as [| part rest IH]; intros existing; cbn [merge_loop].
  - cbn. rewrite app_nil_r. reflexivity.
  - cbn [map filter].
    destruct (nonempty (strip part)) eqn:Hne; cbn [andb].
    + cbn [first_seen filter].
      destruct (mem (strip part) existing) eqn:Hmem; cbn [negb].
      * rewrite IH, filter_comp. f_equal. apply filter_ext. intros x.
        destruct (String.eqb_spec (strip part) x) as [<- | _]; cbn;
          [rewrite Hmem |]; reflexivity.
      * rewrite IH, <- app_assoc, filter_comp. cbn [app]. do 2 f_equal.
        apply filter_ext. intros x. rewrite mem_app. cbn [mem].
        rewrite orb_false_r, negb_orb, (String.eqb_sym x), andb_comm.
        reflexivity.
    + apply IH.
Qed.

Lemma In_first_seen (x : string) (l : list string) :
  In x (first_seen l) -> In x l.
Proof.
  induction l as [| y r IH]; cbn; [tauto |].
  intros [E | Hin]; [auto |].
  apply filter_In in Hin. right. apply IH. tauto.
Qed.

Lemma NoDup_first_seen (l : list string) : NoDup (first_seen l).
Proof.
  induction l as [| y r IH]; cbn; constructor.
  - intros Hin. apply filter_In in Hin. destruct Hin as [_ Hne].
    rewrite String.eqb_refl in Hne. discriminate.
  - apply NoDup_filter. exact IH.
Qed.

Lemma first_seen_NoDup (l : list string) : NoDup l -> first_seen l = l.
Proof.
  induction 1 as [| x r Hx Hr IH]; cbn; [reflexivity |].
  rewrite IH. f_equal. apply filter_all. intros y Hy.
  destruct (String.eqb_spec x y) as [-> | _]; [contradiction | reflexivity].
Qed.

Lemma first_seen_app (a b : list string) :
  first_seen (a ++ b) =
  first_seen a ++ filter (fun x => negb (mem x a)) (first_seen b).
Proof.
  induction a as [| y r IH]; cbn.
  - symmetry. apply filter_all. reflexivity.
  - rewrite IH, filter_app, filter_comp. do 2 f_equal.
    apply filter_ext. intros x. rewrite negb_orb, (String.eqb_sym x), andb_comm.
    reflexivity.
Qed.

(** Merging a duplicate-free list with itself gives the list back. *)
Lemma first_seen_twice (l : list string) :
  NoDup l -> first_seen (l ++ l) = l.
Proof.
  intros Hl. rewrite first_seen_app, (first_seen_NoDup l Hl).
  rewrite filter_none; [apply app_nil_r |].
  intros x Hx. apply mem_In in Hx. rewrite Hx. reflexivity.
Qed.

Lemma split_pieces_whole (s : string) :
  Forall (fun p => split p = [p]) (split s).
Proof.
  induction s as [| c r IH]; cbn [split]; [repeat constructor |].
  destruct (Ascii.eqb c bar) eqn:Hc; [constructor; [reflexivity | exact IH] |].
  destruct (split_cons r) as (h & t & Hr). rewrite Hr in *. cbn [push].
  inversion IH as [| ? ? Hh Ht]; subst.
  constructor; [| exact Ht].
  cbn [split]. rewrite Hc, Hh. reflexivity.
Qed.

Lemma lstrip_head (s : string) (c : ascii) (r : string) :
  lstrip s = String c r -> is_space c = false.
Proof.
  induction s as [| c' r' IH]; cbn; [discriminate |].
  destruct (is_space c') eqn:Hc; [exact IH |].
  intros [= <- _]. exact Hc.
Qed.

(** The trimmed pieces that are not empty are tokens. *)
Lemma token_of_piece (p : string) :
  split p = [p] -> nonempty (strip p) = true -> trimmed_token (strip p).
Proof.
  intros Hp Hne. repeat split.
  - exact Hne.
  - unfold strip. rewrite split_rstrip, split_lstrip, Hp. reflexivity.
  - apply lstrip_strip.
  - apply rstrip_strip.
Qed.

Lemma tokens_trimmed (s : string) : Forall trimmed_token (tokens s).
Proof.
  unfold tokens. apply Forall_forall. intros t Ht.
  apply filter_In in Ht. destruct Ht as [Ht Hne].
  apply in_map_iff in Ht. destruct Ht as (p & <- & Hp).
  apply token_of_piece; [| exact Hne].
  pose proof (split_pieces_whole s) as Hall.
  rewrite Forall_forall in Hall. exact (Hall p Hp).
Qed.

Lemma split_whole_app (p x : string) :
  split p = [p] -> split (p ++ String bar x)%string = p :: split x.
Proof.
  induction p as [| c p' IH]; cbn [String.append split]; [reflexivity |].
  destruct (Ascii.eqb c bar).
  - intros Hp. injection Hp as Hp _. discriminate.
  - destruct (split_cons p') as (h & t & Hs). rewrite Hs. cbn [push].
    intros Hp. injection Hp as -> ->.
    rewrite (IH Hs). reflexivity.
Qed.

Lemma join_cons (t u : string) (r : list string) :
  join (t :: u :: r) = (t ++ String bar (join (u :: r)))%string.
Proof. reflexivity. Qed.

(** Splitting undoes joining. *)
Lemma split_join (ts : list string) :
  ts <> [] -> Forall (fun t => split t = [t]) ts -> split (join ts) = ts.
Proof.
  induction ts as [| t r IH]; [congruence |].
  intros _ Hall. inversion Hall as [| ? ? Ht Hr]; subst.
  destruct r as [| u r']; [exact Ht |].
  rewrite join_cons, (split_whole_app _ _ Ht), IH; [reflexivity | discriminate | exact Hr].
Qed.

Lemma nonempty_app_r (a b : string) :
  nonempty b = true -> nonempty (a ++ b)%string = true.
Proof. destruct a; cbn; auto. Qed.

Lemma rstrip_app (a b : string) :
  nonempty (rstrip b) = true -> rstrip (a ++ b)%string = (a ++ rstrip b)%string.
Proof.
  intros Hb. induction a as [| c a' IH]; [reflexivity |].
  cbn [String.append]. rewrite rstrip_cons, IH, (nonempty_app_r _ _ Hb).
  reflexivity.
Qed.

Lemma rstrip_join (ts : list string) :
  Forall (fun t => rstrip t = t) ts -> rstrip (join ts) = join ts.
Proof.
  induction ts as [| t r IH]; [reflexivity |].
  intros Hall. inversion Hall as [| ? ? Ht Hr]; subst.
  destruct r as [| u r']; [exact Ht |].
  rewrite join_cons.
  assert (Hbar : rstrip (String bar (join (u :: r'))) = String bar (join (u :: r'))).
  { rewrite rstrip_cons, (IH Hr). destruct (nonempty _) eqn:Hn; [reflexivity |].
    rewrite (nonempty_false _ Hn). reflexivity. }
  rewrite rstrip_app; rewrite Hbar; reflexivity.
Qed.

Lemma lstrip_join (t : string) (r : list string) :
  nonempty t = true -> lstrip t = t -> lstrip (join (t :: r)) = join (t :: r).
Proof.
  intros Hne Ht. destruct t as [| c t']; [discriminate |].
  pose proof (lstrip_head _ _ _ Ht) as Hc.
  destruct r as [| u r']; [exact Ht |].
  rewrite join_cons. cbn [String.append lstrip]. rewrite Hc. reflexivity.
Qed.

Lemma nonempty_join (t : string) (r : list string) :
  nonempty t = true -> nonempty (join (t :: r)) = true.
Proof.
  intros Hne. destruct t as [| c t']; [discriminate |].
  destruct r; reflexivity.
Qed.

(** A joined list of distinct tokens merged with itself is unchanged. *)
Lemma merge_joined_tokens (ts : list string) :
  Forall trimmed_token ts -> NoDup ts ->
  _merge_recipient (PStr (join ts)) (PStr (join ts)) = Some (join ts).
Proof.
  intros Hall Hnd.
  destruct ts as [| t r]; [reflexivity |].
  assert (Hstrip : strip (join (t :: r)) = join (t :: r)).
  { inversion Hall as [| ? ? (Hne & _ & Hl & _) _]; subst.
    unfold strip. rewrite (lstrip_join t r Hne Hl). apply rstrip_join.
    eapply Forall_impl; [| exact Hall]. intros a (_ & _ & _ & Hr). exact Hr. }
  assert (Hne : nonempty (join (t :: r)) = true).
  { inversion Hall as [| ? ? (Hne & _) _]; subst. apply nonempty_join, Hne. }
  unfold _merge_recipient. cbn [strip_if_str nonempty_opt str_of].
  rewrite Hstrip, Hne. cbn [andb].
  rewrite merge_loop_first_seen. cbn [app mem negb].
  rewrite (filter_all (fun _ => true)) by reflexivity.
  rewrite split_join;
    [| discriminate
     | eapply Forall_impl; [| exact Hall]; intros a (_ & Hs & _); exact Hs].
  rewrite map_app, filter_app.
  assert (Hid : filter nonempty (map strip (t :: r)) = t :: r).
  { assert (Hmap : map strip (t :: r) = t :: r).
    { rewrite <- (map_id (t :: r)) at 2. apply map_ext_in. intros a Ha.
      rewrite Forall_forall in Hall.
      destruct (Hall a Ha) as (_ & _ & Hl & Hr).
      unfold strip. rewrite Hl. exact Hr. }
    rewrite Hmap. apply filter_all. intros a Ha.
    rewrite Forall_forall in Hall. apply (Hall a Ha). }
  rewrite Hid, (first_seen_twice _ Hnd). reflexivity.
Qed.

End MergeFacts.

Section RecipientMerge.
Import PyStr StrFacts ListFacts MergeFacts.
Local Open Scope list_scope.

Variables override default : string.

Lemma merge_both_given :
  nonempty (strip override) = true -> nonempty (strip default) = true ->
  _merge_recipient (PStr override) (PStr default) =
  Some (join (first_seen (tokens override ++ tokens default))).
Proof.
  intros Ho Hd. unfold _merge_recipient.
  cbn [strip_if_str nonempty_opt str_of]. rewrite Ho, Hd. cbn [andb].
  rewrite merge_loop_first_seen. cbn [app mem negb].
  rewrite (filter_all (fun _ => true)) by reflexivity.
  rewrite map_app, !strip_pieces, filter_app. reflexivity.
Qed.

(** C4, as the code has it.  When the override and the default are both
    non-empty after trimming, the merge is the join with ['|'] of the tokens
    of the override followed by those of the default (pieces between bars,
    trimmed, empty ones dropped), each token once, in first-seen order.
    When one of the two is empty after trimming, the merge is the other one
    trimmed, as it stands.  A merged list of the first kind, and the merge of
    any string with itself, is a fixed point: merging it with itself gives it
    back.  The merge of [a|b] and [b|c] is [a|b|c]. *)
Theorem merge_recipient_tokens :
  let merged := _merge_recipient (PStr override) (PStr default) in
  (nonempty (strip override) = true -> nonempty (strip default) = true ->
   let m := join (first_seen (tokens override ++ tokens default)) in
   merged = Some m /\ _merge_recipient (PStr m) (PStr m) = Some m) /\
  (nonempty (strip default) = false -> merged = Some (strip override)) /\
  (nonempty (strip override) = false -> merged = Some (strip default)) /\
  (exists m, _merge_recipient (PStr override) (PStr override) = Some m /\
             _merge_recipient (PStr m) (PStr m) = Some m) /\
  _merge_recipient (PStr "a|b") (PStr "b|c") = Some "a|b|c"%string.
Proof.
  assert (Hfix : forall a b,
            let m := join (first_seen (tokens a ++ tokens b)) in
            _merge_recipient (PStr m) (PStr m) = Some m).
  { intros a b m. apply merge_joined_tokens; [| apply NoDup_first_seen].
    apply Forall_forall. intros t Ht. apply In_first_seen in Ht.
    pose proof (tokens_trimmed a) as Ha. pose proof (tokens_trimmed b) as Hb.
    rewrite Forall_forall in Ha, Hb.
    apply in_app_or in Ht. destruct Ht; auto. }
  cbv zeta. split; [| split; [| split; [| split]]].
  - intros Ho Hd. split; [apply merge_both_given; assumption | apply Hfix].
  - intros Hd. unfold _merge_recipient, or_else.
    cbn [strip_if_str nonempty_opt str_of]. rewrite Hd, andb_false_r.
    destruct (nonempty (strip override)) eqn:Ho; [reflexivity |].
    rewrite (nonempty_false _ Ho), (nonempty_false _ Hd). reflexivity.
  - intros Ho. unfold _merge_recipient, or_else.
    cbn [strip_if_str nonempty_opt str_of]. rewrite Ho. reflexivity.
  - destruct (nonempty (strip override)) eqn:Ho.
    + exists (join (first_seen (tokens override ++ tokens override))).
      split; [| apply Hfix].
      unfold _merge_recipient.
      cbn [strip_if_str nonempty_opt str_of]. rewrite Ho. cbn [andb].
      rewrite merge_loop_first_seen. cbn [app mem negb].
      rewrite (filter_all (fun _ => true)) by reflexivity.
      rewrite map_app, !strip_pieces, filter_app. reflexivity.
    + exists EmptyString. split; [| reflexivity].
      unfold _merge_recipient, or_else.
      cbn [strip_if_str nonempty_opt str_of]. rewrite Ho.
      rewrite (nonempty_false _ Ho). reflexivity.
  - reflexivity.
Qed.

End RecipientMerge.

(** ** Concurrent callers *)

Module ConcurrentFacts.
Import Concurrent ListFacts.
Local Open Scope list_scope.

Lemma count_set_nth {A} (p : A -> bool) (l : list A) (i : nat) (old x : A) :
  nth_error l i = Some old ->
  length (filter p (set_nth i x l)) + weight (p old) =
  length (filter p l) + weight (p x).
Proof.
  revert i. induction l as [| y r IH]; intros [| j]; cbn; try discriminate.
  - intros [= ->]. destruct (p old), (p x); cbn; lia.
  - intros Hj. specialize (IH j Hj). destruct (p y); cbn; lia.
Qed.

Lemma nth_error_set_nth {A} (l : list A) (i j : nat) (x : A) :
  nth_error (set_nth i x l) j =
  if Nat.eqb i j then match nth_error l j with Some _ => Some x | None => None end
  else nth_error l j.
Proof.
  revert i j. induction l as [| y r IH]; intros [| i] [| j]; cbn;
    try reflexivity.
  - destruct (Nat.eqb i j); reflexivity.
  - apply IH.
Qed.

Section Shape.

Context `{PyRuntime}.
Variable env : environment.
Variable self : app_config.

Lemma cost_set_nth (l : list pc) (i : nat) (old x : pc) :
  nth_error l i = Some old ->
  list_sum (map cost (set_nth i x l)) + cost old =
  list_sum (map cost l) + cost x.
Proof.
  unfold list_sum.
  revert i. induction l as [| y r IH]; intros [| j];
    cbn [nth_error set_nth map fold_right]; try discriminate.
  - intros [= ->]. lia.
  - intros Hj. specialize (IH j Hj). lia.
Qed.

(** Under the lock a caller returns, releasing the lock, or makes its token
    request, keeping the lock. *)
Lemma enter_lock_shape (force : bool) (i : nat) (s : state)
  (queue : list nat) (tasks : list pc) :
  exists s' p,
    enter_lock env self force i s queue tasks =
      mkSystem s' (is_fetching p) queue (set_nth i p tasks) /\
    is_waiting p = false /\ is_forced p = false /\ cost p <= 1.
Proof.
  unfold enter_lock.
  destruct (WeWorkAppClient.refresh_check env force s) as [[[token |] | e] s1].
  - exists s1, (Done (Return token)). cbn. auto.
  - eexists _, (Fetching _). cbn. auto.
  - exists s1, (Done (Raise e)). cbn. auto.
Qed.

Lemma acquire_shape (force : bool) (i : nat) (s : state) (sys : system)
  (old : pc) :
  is_waiting old = false -> is_fetching old = false -> cost old = 3 ->
  exists p,
    pcs (acquire env self force i s sys) = set_nth i p (pcs sys) /\
    cost p < cost old /\ is_forced p = force && is_waiting p /\
    queue_change i old p sys (acquire env self force i s sys) /\
    lock_change old p sys (acquire env self force i s sys).
Proof.
  intros Hw Hf Hc. unfold acquire, queue_change, lock_change.
  destruct (locked sys) eqn:Hl; [| destruct (waiters sys) as [| j q] eqn:Hq].
  - exists (Waiting force). cbn. rewrite Hc, andb_true_r.
    split; [reflexivity | split; [lia | split; [reflexivity | split]]];
      left; auto.
  - destruct (enter_lock_shape force i s [] (pcs sys))
      as (s' & p & -> & Hpw & Hpf & Hpc).
    exists p. cbn. rewrite Hpw, Hpf, andb_false_r.
    split; [reflexivity | split; [lia | split; [reflexivity | split]]];
      right; left; auto.
  - exists (Waiting force). cbn. rewrite Hc, andb_true_r.
    split; [reflexivity | split; [lia | split; [reflexivity | split]]];
      left; auto.
Qed.

(** What a block of task [i] does to the tasks, to the queue and to the
    lock. *)
Lemma step_shape (i : nat) (sys sys' : system) :
  step env self i sys = Some sys' ->
  exists old p,
    nth_error (pcs sys) i = Some old /\
    pcs sys' = set_nth i p (pcs sys) /\ cost p < cost old /\
    (is_forced old = false -> is_forced p = false) /\
    queue_change i old p sys sys' /\ lock_change old p sys sys'.
Proof.
  unfold step.
  destruct (nth_error (pcs sys) i) as [[[|] | force | reply | result] |] eqn:Hi;
    try discriminate.
  - intros [= <-].
    destruct (acquire_shape true i (shared sys) sys (Start true)
                eq_refl eq_refl eq_refl) as (p & Hp & Hc & _ & Hq & Hl).
    exists (Start true), p.
    split; [reflexivity | split; [exact Hp | split; [exact Hc | split]]];
      [discriminate | auto].
  - destruct (WeWorkAppClient.token_is_fresh env (shared sys))
      as [[[|] | e] s1]; intros [= <-].
    + exists (Start false), (Done (Return (_token s1))). cbn.
      split; [reflexivity | split; [reflexivity | split; [lia | split]]];
        [reflexivity |].
      split; [right; left; auto | left; auto].
    + destruct (acquire_shape false i s1 sys (Start false)
                  eq_refl eq_refl eq_refl) as (p & Hp & Hc & Hforced & Hq & Hl).
      exists (Start false), p.
      split; [reflexivity | split; [exact Hp | split; [exact Hc | split]]];
        [intros _; exact Hforced | auto].
    + exists (Start false), (Done (Raise e)). cbn.
      split; [reflexivity | split; [reflexivity | split; [lia | split]]];
        [reflexivity |].
      split; [right; left; auto | left; auto].
  - destruct (locked sys) eqn:Hl; [discriminate |].
    destruct (waiters sys) as [| j queue] eqn:Hw; [discriminate |].
    destruct (Nat.eqb_spec i j) as [<- | _]; [| discriminate].
    destruct (enter_lock_shape force i (shared sys) queue (pcs sys))
      as (s' & p & -> & Hpw & Hpf & Hpc).
    intros [= <-]. exists (Waiting force), p. cbn.
    split; [reflexivity | split; [reflexivity | split; [lia | split]]];
      [intros _; exact Hpf |].
    split; [right; right; auto | right; left; auto].
  - destruct (WeWorkAppClient.refresh_complete env reply (shared sys))
      as [result s1].
    intros [= <-]. exists (Fetching reply), (Done result). cbn.
    split; [reflexivity | split; [reflexivity | split; [lia | split]]];
      [reflexivity |].
    split; [right; left; auto | right; right; auto].
Qed.

End Shape.

Section Invariants.

Context `{PyRuntime}.
Variable env : environment.
Variable self : app_config.

Lemma step_lock_held (i : nat) (sys sys' : system) :
  lock_held_by_fetch sys -> step env self i sys = Some sys' ->
  lock_held_by_fetch sys'.
Proof.
  unfold lock_held_by_fetch, in_flight. intros Hinv Hstep.
  destruct (step_shape env self i sys sys' Hstep)
    as (old & p & Hi & -> & _ & _ & _ & Hlock).
  pose proof (count_set_nth is_fetching (pcs sys) i old p Hi) as Hc.
  destruct Hlock as [(Ho & Hp & ->) | [(Ho & Hl & ->) | (Ho & Hp & ->)]];
    rewrite Ho in Hc; try rewrite Hp in Hc; cbn [weight] in Hc.
  - lia.
  - rewrite Hl in Hinv. cbn [weight] in Hinv. lia.
  - destruct (locked sys); cbn [weight] in *; lia.
Qed.

Lemma callers_lock_held (forces : list bool) (s : state) :
  lock_held_by_fetch (callers forces s).
Proof.
  unfold lock_held_by_fetch, in_flight, callers. cbn.
  induction forces as [| f r IH]; [reflexivity | exact IH].
Qed.

Lemma run_invariant (P : system -> Prop) :
  (forall i sys sys', P sys -> step env self i sys = Some sys' -> P sys') ->
  forall schedule sys sys',
    P sys -> run env self schedule sys = Some sys' -> P sys'.
Proof.
  intros Hstep. induction schedule as [| i rest IH]; cbn; intros sys sys' HP.
  - intros [= <-]. exact HP.
  - destruct (step env self i sys) as [sys1 |] eqn:Hs; [| discriminate].
    apply IH. exact (Hstep i sys sys1 HP Hs).
Qed.

(** At most one token request is in flight, whatever the callers and the
    schedule. *)
Lemma one_request_in_flight (forces : list bool) (s : state) (sys : system) :
  reachable env self forces s sys -> in_flight sys <= 1.
Proof.
  intros [schedule Hrun].
  assert (Hinv : lock_held_by_fetch sys).
  { exact (run_invariant lock_held_by_fetch step_lock_held schedule _ _
             (callers_lock_held forces s) Hrun). }
  unfold lock_held_by_fetch in Hinv. rewrite Hinv.
  destruct (locked sys); cbn; lia.
Qed.

End Invariants.

Section Progress.

Context `{PyRuntime}.
Variable env : environment.
Variable self : app_config.

(** Every step brings the callers nearer to their return. *)
Lemma step_remaining (i : nat) (sys sys' : system) :
  step env self i sys = Some sys' -> remaining sys' < remaining sys.
Proof.
  intros Hstep.
  destruct (step_shape env self i sys sys' Hstep)
    as (old & p & Hi & Hpcs & Hcost & _).
  unfold remaining. rewrite Hpcs.
  pose proof (cost_set_nth (pcs sys) i old p Hi). lia.
Qed.

Lemma waiting_iff (p : pc) :
  is_waiting p = true <-> exists force, p = Waiting force.
Proof.
  destruct p; cbn; split; try discriminate; eauto; intros [f Hf]; discriminate.
Qed.

Lemma step_queue_ok (i : nat) (sys sys' : system) :
  queue_ok sys -> step env self i sys = Some sys' -> queue_ok sys'.
Proof.
  intros [Hnd Hq] Hstep.
  destruct (step_shape env self i sys sys' Hstep)
    as (old & p & Hi & Hpcs & _ & _ & Hcase & _).
  unfold queue_ok. rewrite Hpcs.
  assert (Hset : forall j, nth_error (set_nth i p (pcs sys)) j =
                           if Nat.eqb i j then Some p else nth_error (pcs sys) j).
  { intros j. rewrite nth_error_set_nth.
    destruct (Nat.eqb_spec i j) as [<- | _]; [rewrite Hi |]; reflexivity. }
  assert (Hold : In i (waiters sys) <-> is_waiting old = true).
  { rewrite Hq, Hi, waiting_iff. split; intros [f Hf]; exists f; congruence. }
  assert (Hnew : (exists force, Some p = Some (Waiting force)) <->
                 is_waiting p = true).
  { rewrite waiting_iff. split; intros [f Hf]; exists f; congruence. }
  destruct Hcase as [(Ho & Hp & Hw) | [(Ho & Hp & Hw) | (Ho & Hp & Hw)]].
  - assert (Hnotin : ~ In i (waiters sys)) by (rewrite Hold, Ho; discriminate).
    rewrite Hw. split.
    + clear - Hnd Hnotin. induction (waiters sys) as [| a r IH]; cbn.
      * constructor; [tauto | constructor].
      * inversion Hnd; subst. constructor.
        -- rewrite in_app_iff. cbn. intros [Ha | [-> | []]]; [tauto |].
           apply Hnotin. left. reflexivity.
        -- apply IH; [assumption |]. intros Hin. apply Hnotin. right. exact Hin.
    + intros j. rewrite Hset, in_app_iff. cbn.
      destruct (Nat.eqb_spec i j) as [<- | Hne].
      * rewrite Hnew, Hp. tauto.
      * rewrite Hq. split; [intros [Hj | [Hj | []]]; [exact Hj | contradiction]
                           | auto].
  - rewrite Hw. split; [exact Hnd |].
    intros j. rewrite Hset.
    destruct (Nat.eqb_spec i j) as [<- | Hne]; [| apply Hq].
    rewrite Hold, Hnew, Ho, Hp. tauto.
  - rewrite Hw in Hnd, Hq. inversion Hnd as [| ? ? Hnotin Hnd']; subst.
    split; [exact Hnd' |].
    intros j. rewrite Hset.
    destruct (Nat.eqb_spec i j) as [<- | Hne].
    + rewrite Hnew, Hp. split; [contradiction | discriminate].
    + rewrite <- Hq. cbn. split; [auto | intros [E | Hj]; [contradiction | exact Hj]].
Qed.

Lemma callers_queue_ok (forces : list bool) (s : state) :
  queue_ok (callers forces s).
Proof.
  split; [constructor |].
  intros j. cbn. split; [tauto |].
  intros [force Hj]. apply nth_error_In in Hj. apply in_map_iff in Hj.
  destruct Hj as (f & Hf & _). discriminate.
Qed.

Lemma forallb_false_nth {A} (f : A -> bool) (l : list A) :
  forallb f l = false -> exists i x, nth_error l i = Some x /\ f x = false.
Proof.
  induction l as [| y r IH]; cbn; [discriminate |].
  destruct (f y) eqn:Hy; cbn.
  - intros Hr. destruct (IH Hr) as (i & x & Hi & Hx). exists (S i), x. auto.
  - intros _. exists 0, y. auto.
Qed.

Lemma some_fetching (l : list pc) :
  length (filter is_fetching l) = 1 ->
  exists k reply, nth_error l k = Some (Fetching reply).
Proof.
  intros Hlen.
  destruct (filter is_fetching l) as [| p r] eqn:Hf; [discriminate |].
  assert (Hin : In p (filter is_fetching l)) by (rewrite Hf; left; reflexivity).
  apply filter_In in Hin. destruct Hin as [Hin Hp].
  destruct p; try discriminate.
  destruct (In_nth_error _ _ Hin) as [k Hk]. eauto.
Qed.

Lemma step_start (i : nat) (sys : system) (force : bool) :
  nth_error (pcs sys) i = Some (Start force) ->
  exists sys', step env self i sys = Some sys'.
Proof.
  intros Hi. unfold step. rewrite Hi.
  destruct force; [eauto |].
  destruct (WeWorkAppClient.token_is_fresh env (shared sys)) as [[[|] | e] s1];
    eauto.
Qed.

Lemma step_fetching (i : nat) (sys : system) (reply : http_outcome) :
  nth_error (pcs sys) i = Some (Fetching reply) ->
  exists sys', step env self i sys = Some sys'.
Proof.
  intros Hi. unfold step. rewrite Hi.
  destruct (WeWorkAppClient.refresh_complete env reply (shared sys)). eauto.
Qed.

(** No deadlock: as long as a caller has not returned, some caller can
    run. *)
Lemma progress (sys : system) :
  lock_held_by_fetch sys -> queue_ok sys ->
  all_done sys \/ exists i sys', step env self i sys = Some sys'.
Proof.
  intros Hlock [Hnd Hq]. unfold all_done.
  destruct (forallb is_done (pcs sys)) eqn:Hall; [left; reflexivity | right].
  destruct (forallb_false_nth _ _ Hall) as (i & p & Hi & Hp).
  destruct p as [force | force | reply | result]; [| | | discriminate].
  - exists i. exact (step_start i sys force Hi).
  - destruct (locked sys) eqn:Hl.
    + unfold lock_held_by_fetch, in_flight in Hlock. rewrite Hl in Hlock.
      destruct (some_fetching _ Hlock) as (k & reply & Hk).
      exists k. exact (step_fetching k sys reply Hk).
    + destruct (waiters sys) as [| j queue] eqn:Hw.
      * exfalso. apply (proj2 (Hq i)). eauto.
      * destruct (proj1 (Hq j) (or_introl eq_refl)) as [fj Hj].
        exists j. unfold step. rewrite Hj, Hl, Hw, Nat.eqb_refl. eauto.
  - exists i. exact (step_fetching i sys reply Hi).
Qed.


(** From a state that the callers can be in, some schedule lets all of them
    return. *)
Lemma completion (sys : system) :
  lock_held_by_fetch sys -> queue_ok sys ->
  exists schedule final,
    run env self schedule sys = Some final /\ all_done final.
Proof.
  remember (remaining sys) as m eqn:Hm.
  revert sys Hm. induction m as [m IH] using lt_wf_ind.
  intros sys Hm Hlock Hqueue.
  destruct (progress sys Hlock Hqueue) as [Hdone | (i & sys' & Hstep)].
  - exists [], sys. split; [reflexivity | exact Hdone].
  - pose proof (step_remaining i sys sys' Hstep) as Hlt.
    destruct (IH (remaining sys') ltac:(lia) sys' eq_refl
                 (step_lock_held env self i sys sys' Hlock Hstep)
                 (step_queue_ok i sys sys' Hqueue Hstep))
      as (schedule & final & Hrun & Hdone).
    exists (i :: schedule), final. cbn. rewrite Hstep. auto.
Qed.

Lemma length_set_nth {A} (i : nat) (x : A) (l : list A) :
  length (set_nth i x l) = length l.
Proof.
  revert i. induction l as [| y r IH]; intros [| j]; cbn; auto.
Qed.

Lemma run_length (schedule : list nat) (sys sys' : system) :
  run env self schedule sys = Some sys' -> length (pcs sys') = length (pcs sys).
Proof.
  revert sys. induction schedule as [| i rest IH]; intros sys; cbn.
  - intros [= <-]. reflexivity.
  - destruct (step env self i sys) as [sys1 |] eqn:Hs; [| discriminate].
    intros Hrun. rewrite (IH sys1 Hrun).
    destruct (step_shape env self i sys sys1 Hs) as (old & p & _ & -> & _).
    apply length_set_nth.
Qed.

Lemma all_done_returned (sys : system) (i : nat) :
  all_done sys -> i < length (pcs sys) -> exists result, returned sys i result.
Proof.
  unfold all_done, returned. intros Hall Hi.
  destruct (nth_error (pcs sys) i) as [p |] eqn:Hp.
  - rewrite forallb_forall in Hall.
    specialize (Hall p (nth_error_In _ _ Hp)).
    destruct p; try discriminate. eauto.
  - apply nth_error_None in Hp. lia.
Qed.

End Progress.

Section GrantedToken.

Context `{PyRuntime}.
Variable env : environment.
Variable self : app_config.

(** The token endpoint answers every token request with the object [d],
    which grants a token for [n] seconds, and a token stored at any clock
    reading is within its validity window at every clock reading. *)
Variable d : dict.
Variable n : Z.
Hypothesis granted :
  forall log, http env log (token_request self) = HttpJson (PDict d).
Hypothesis no_error : truthy (get d "errcode") = false.
Hypothesis has_token : truthy (get d "access_token") = true.
Hypothesis lifetime :
  py_int (get_default d "expires_in" (PInt 7200)) = Return n.
Hypothesis window :
  forall k, exists expire,
    time_add_int (monotonic env k) n = Some expire /\
    forall j, time_lt (monotonic env j) (time_sub_int expire 30) = true.

Section Counting.

Variable log0 : list request.






Lemma refreshes_cons_token (log : list request) :
  refreshes (token_request self :: log) = S (refreshes log).
Proof. reflexivity. Qed.


Ltac at_task i j Hi :=
  rewrite nth_error_set_nth;
  destruct (Nat.eqb_spec i j) as [<- | _]; [rewrite Hi |].




End Counting.




End GrantedToken.

Section RefusedToken.

Context `{PyRuntime}.
Variable env : environment.
Variable self : app_config.

(** The token endpoint answers every token request with the object [d],
    which reports an error. *)
Variable d : dict.
Hypothesis refusal :
  forall log, http env log (token_request self) = HttpJson (PDict d).
Hypothesis is_error : truthy (get d "errcode") = true.

Variable log0 : list request.


Ltac at_task i j Hi :=
  rewrite nth_error_set_nth;
  destruct (Nat.eqb_spec i j) as [<- | _]; [rewrite Hi |].

Ltac counts tasks i old p Hi :=
  pose proof (count_set_nth is_fetching tasks i old p Hi);
  pose proof (count_set_nth is_done tasks i old p Hi).




End RefusedToken.

Lemma done_count_all `{PyRuntime} (sys : system) :
  all_done sys -> done_count sys = length (pcs sys).
Proof.
  unfold all_done, done_count.
  induction (pcs sys) as [| p r IH]; cbn; [reflexivity |].
  destruct (is_done p); cbn; [| discriminate].
  intros Hr. rewrite (IH Hr). reflexivity.
Qed.



End ConcurrentFacts.

(** ** Recipient and mention lists, read back *)

Module TokenFacts.
Import PyStr StrFacts ListFacts MergeFacts.
Local Open Scope list_scope.

Lemma strip_trimmed (t : string) : trimmed_token t -> strip t = t.
Proof.
  intros (_ & _ & Hl & Hr). unfold strip. rewrite Hl. exact Hr.
Qed.

Lemma map_strip_trimmed (ts : list string) :
  Forall trimmed_token ts -> map strip ts = ts.
Proof.
  induction 1 as [| t r Ht _ IH]; cbn; [reflexivity |].
  rewrite (strip_trimmed t Ht), IH. reflexivity.
Qed.

Lemma filter_nonempty_trimmed (ts : list string) :
  Forall trimmed_token ts -> filter nonempty ts = ts.
Proof.
  intros Hall. apply filter_all. intros t Ht.
  rewrite Forall_forall in Hall. exact (proj1 (Hall t Ht)).
Qed.

Lemma trimmed_whole (ts : list string) :
  Forall trimmed_token ts -> Forall (fun t => split t = [t]) ts.
Proof.
  intros Hall. eapply Forall_impl; [| exact Hall].
  intros t (_ & Hs & _). exact Hs.
Qed.

(** The tokens of a joined list of tokens are the list. *)
Lemma tokens_join (ts : list string) :
  Forall trimmed_token ts -> tokens (join ts) = ts.
Proof.
  intros Hall. unfold tokens.
  destruct ts as [| t r]; [reflexivity |].
  rewrite split_join by (discriminate || exact (trimmed_whole _ Hall)).
  rewrite (map_strip_trimmed _ Hall). exact (filter_nonempty_trimmed _ Hall).
Qed.

Lemma first_seen_In (x : string) (l : list string) :
  In x l -> In x (first_seen l).
Proof.
  induction l as [| y r IH]; cbn; [tauto |].
  intros [-> | Hin]; [left; reflexivity |].
  destruct (String.eqb_spec y x) as [-> | Hne]; [left; reflexivity |].
  right. apply filter_In. split; [exact (IH Hin) |].
  destruct (String.eqb_spec y x); [contradiction | reflexivity].
Qed.

Lemma first_seen_trimmed (l : list string) :
  Forall trimmed_token l -> Forall trimmed_token (first_seen l).
Proof.
  intros Hall. rewrite Forall_forall in *.
  intros x Hx. apply Hall. exact (In_first_seen x l Hx).
Qed.

End TokenFacts.

Section MentionLists.
Import PyStr StrFacts ListFacts MergeFacts TokenFacts.
Local Open Scope list_scope.

(** X1. What [_split_optional] makes of a field, case by case: [None]
    exactly for a falsy field (not given, [None], the empty string); for a
    string that is not empty the list of its tokens, each of them not empty,
    without a bar and without white space at its ends (the list itself may
    be empty, as for the field ["|"]); an [AttributeError] for any other
    truthy object. *)
Theorem split_optional_cases (value : pyval) :
  match _split_optional value with
  | Return None => truthy value = false
  | Return (Some items) =>
      exists s, value = PStr s /\ nonempty s = true /\
                items = tokens s /\ Forall trimmed_token items
  | Raise e =>
      e = AttributeError /\ truthy value = true /\ forall s, value <> PStr s
  end.
Proof.
  unfold _split_optional.
  destruct (truthy value) eqn:Ht; cbn [negb]; [| reflexivity].
  destruct value as [| b | z | str | l | d].
  - discriminate.
  - split; [reflexivity | split; [reflexivity | intros s0; discriminate]].
  - split; [reflexivity | split; [reflexivity | intros s0; discriminate]].
  - exists str. split; [reflexivity |]. split; [exact Ht |].
    rewrite split_items_tokens. split; [reflexivity |].
    apply tokens_trimmed.
  - split; [reflexivity | split; [reflexivity | intros s0; discriminate]].
  - split; [reflexivity | split; [reflexivity | intros s0; discriminate]].
Qed.

(** X2. Joining and splitting are inverse on lists of tokens: for a list
    that is not empty and whose items are trimmed tokens, [_split_optional]
    of the items joined with ['|'] is that list; so a list that
    [_split_optional] returned is returned again for its joined form. *)
Theorem split_optional_join (ts : list string) :
  ts <> [] -> Forall trimmed_token ts ->
  _split_optional (PStr (join ts)) = Return (Some ts) /\
  forall value, _split_optional value = Return (Some ts) ->
                _split_optional (PStr (join ts)) = _split_optional value.
Proof.
  intros Hne Hall.
  assert (Hgoal : _split_optional (PStr (join ts)) = Return (Some ts)).
  { unfold _split_optional. cbn [truthy].
    destruct ts as [| t r]; [congruence |].
    rewrite nonempty_join by (inversion Hall as [| ? ? Ht _]; exact (proj1 Ht)).
    cbn [negb].
    rewrite split_join by (discriminate || exact (trimmed_whole _ Hall)).
    rewrite split_items_tokens, (map_strip_trimmed _ Hall).
    rewrite (filter_nonempty_trimmed _ Hall). reflexivity. }
  split; [exact Hgoal |].
  intros value Hv. rewrite Hv. exact Hgoal.
Qed.

End MentionLists.

Section MergedRecipients.
Import PyStr StrFacts ListFacts MergeFacts TokenFacts.
Local Open Scope list_scope.

(** X3. When both recipient strings are given, the merged string read back
    as a list of tokens has no duplicate, holds exactly the tokens of the
    override and of the default, and starts with the tokens of the override
    in the order of their first occurrence. *)
Theorem merge_recipient_read_back (override default : string) :
  nonempty (strip override) = true -> nonempty (strip default) = true ->
  exists m,
    _merge_recipient (PStr override) (PStr default) = Some m /\
    NoDup (tokens m) /\
    (forall t, In t (tokens m) <-> In t (tokens override) \/ In t (tokens default)) /\
    exists rest, tokens m = first_seen (tokens override) ++ rest.
Proof.
  intros Ho Hd.
  exists (join (first_seen (tokens override ++ tokens default))).
  split; [exact (merge_both_given override default Ho Hd) |].
  assert (Hall : Forall trimmed_token
                   (first_seen (tokens override ++ tokens default))).
  { apply first_seen_trimmed. apply Forall_app.
    split; apply tokens_trimmed. }
  rewrite (tokens_join _ Hall).
  split; [apply NoDup_first_seen |].
  split.
  - intros t. rewrite <- in_app_iff. split.
    + apply In_first_seen.
    + apply first_seen_In.
  - rewrite first_seen_app. eexists. reflexivity.
Qed.

End MergedRecipients.

(** ** The payload builders, further *)

Module DictFacts.
Local Open Scope list_scope.

Lemma lookup_dict_set_other (d : dict) (k k' : string) (v : pyval) :
  k <> k' -> lookup (dict_set d k v) k' = lookup d k'.
Proof.
  intros Hne. induction d as [| [k0 v0] r IH]; cbn.
  - destruct (String.eqb_spec k' k); [congruence | reflexivity].
  - destruct (String.eqb_spec k k0) as [-> | Hk]; cbn.
    + destruct (String.eqb_spec k' k0); [congruence | reflexivity].
    + destruct (String.eqb k' k0); [reflexivity | exact IH].
Qed.

Lemma get_default_dict_set_other (d : dict) (k k' : string) (v dflt : pyval) :
  k <> k' -> get_default (dict_set d k v) k' dflt = get_default d k' dflt.
Proof.
  intros Hne. unfold get_default. rewrite lookup_dict_set_other by exact Hne.
  reflexivity.
Qed.

Lemma get_dict_set_other (d : dict) (k k' : string) (v : pyval) :
  k <> k' -> get (dict_set d k v) k' = get d k'.
Proof.
  apply get_default_dict_set_other.
Qed.

End DictFacts.

Lemma supported_type_supported (data : dict) (message_type : string) :
  supported_type data = Return message_type -> supported message_type.
Proof.
  unfold supported_type, supported.
  destruct (get_default data CONF_MESSAGE_TYPE (PStr MESSAGE_TYPE_TEXT));
    cbn; try discriminate.
  destruct (String.eqb_spec s MESSAGE_TYPE_TEXT) as [-> | _]; cbn;
    [intros [= <-]; auto |].
  destruct (String.eqb_spec s MESSAGE_TYPE_MARKDOWN) as [-> | _]; cbn;
    [intros [= <-]; auto |].
  destruct (String.eqb_spec s MESSAGE_TYPE_IMAGE) as [-> | _]; cbn;
    [intros [= <-]; auto | discriminate].
Qed.

Lemma supported_cases (message_type : string) :
  supported message_type ->
  message_type = MESSAGE_TYPE_TEXT \/ message_type = MESSAGE_TYPE_MARKDOWN \/
  message_type = MESSAGE_TYPE_IMAGE.
Proof.
  unfold supported. cbn. intuition.
Qed.

Section AppPayload.
Import DictFacts.
Local Open Scope list_scope.

Variable self : app_config.

Lemma no_recipient_merged (data : dict) :
  no_recipient self data <->
  nonempty_opt (merged self data CONF_TO_USER)
  || nonempty_opt (merged self data CONF_TO_PARTY)
  || nonempty_opt (merged self data CONF_TO_TAG) = false.
Proof.
  unfold no_recipient, merged.
  destruct (nonempty_opt (_merge_recipient (get data CONF_TO_USER) _));
    destruct (nonempty_opt (_merge_recipient (get data CONF_TO_PARTY) _));
    destruct (nonempty_opt (_merge_recipient (get data CONF_TO_TAG) _));
    cbn; intuition congruence.
Qed.

(** X4. For a supported message type the application client's builder
    fails only with one of its three validation errors, none of which
    carries an error code, and each for its own cause: the message is
    missing (text, markdown), no recipient is left after the merge with the
    defaults, or the media id is missing (image).  It builds a payload
    exactly when none of the causes is there. *)
Theorem app_payload_validation (message_type : string) (data : dict) :
  supported message_type ->
  (forall e,
     WeWorkAppClient._build_payload self message_type data = Raise e ->
     (e = WeWorkError ContentRequiredApp PNone /\
      message_type <> MESSAGE_TYPE_IMAGE /\ missing data CONF_MESSAGE) \/
     (e = WeWorkError RecipientRequired PNone /\ no_recipient self data) \/
     (e = WeWorkError MediaIdRequired PNone /\
      message_type = MESSAGE_TYPE_IMAGE /\ missing data CONF_IMAGE_MEDIA_ID)) /\
  ((exists payload,
      WeWorkAppClient._build_payload self message_type data = Return payload) <->
   (message_type <> MESSAGE_TYPE_IMAGE -> ~ missing data CONF_MESSAGE) /\
   ~ no_recipient self data /\
   (message_type = MESSAGE_TYPE_IMAGE -> ~ missing data CONF_IMAGE_MEDIA_ID)).
Proof.
  intros Hsup. rewrite no_recipient_merged.
  unfold WeWorkAppClient._build_payload, missing.
  fold (merged self data CONF_TO_USER) (merged self data CONF_TO_PARTY)
       (merged self data CONF_TO_TAG).
  destruct (nonempty_opt (merged self data CONF_TO_USER)
            || nonempty_opt (merged self data CONF_TO_PARTY)
            || nonempty_opt (merged self data CONF_TO_TAG)) eqn:Hrec;
    destruct (truthy (get data CONF_MESSAGE)) eqn:Hmsg;
    destruct (truthy (get data CONF_IMAGE_MEDIA_ID)) eqn:Hmedia;
    destruct (supported_cases _ Hsup) as [-> | [-> | ->]];
    cbn.
  all: split; [intros e He | split; [intros [payload Hp] | intros (Hm & Hr & Hi)]].
  all: try discriminate.
  all: try (injection He as <-).
  all: try solve [ left; split; [reflexivity | split; [discriminate | reflexivity]]
                 | right; left; split;
                   [reflexivity | apply no_recipient_merged; exact Hrec]
                 | right; right; split; [reflexivity | split; reflexivity] ].
  all: try solve [ eexists; reflexivity ].
  all: try solve [ split; [| split]; intros; try discriminate;
                   exfalso; auto ].
  all: try solve [ exfalso; apply Hr; reflexivity
                 | exfalso; apply Hm; [discriminate | reflexivity]
                 | exfalso; apply Hi; reflexivity ].
Qed.

(** X5. The payload that the application client builds for a supported
    message type: the agent id, the message type and [safe = 0], then one
    entry for each of [touser], [toparty], [totag] that has a recipient left
    after the merge (at least one of them), then, under the key named by the
    message type, the body with the message or the media id of the call,
    unchanged. *)
Theorem app_payload_layout (message_type : string) (data payload : dict) :
  supported message_type ->
  WeWorkAppClient._build_payload self message_type data = Return payload ->
  payload =
    [("agentid", PInt (_agent_id self)); ("msgtype", PStr message_type);
     ("safe", PInt 0)]
    ++ recipient_entry "touser" (merged self data CONF_TO_USER)
    ++ recipient_entry "toparty" (merged self data CONF_TO_PARTY)
    ++ recipient_entry "totag" (merged self data CONF_TO_TAG)
    ++ [(message_type, PDict (app_body message_type data))] /\
  recipient_entry "touser" (merged self data CONF_TO_USER)
    ++ recipient_entry "toparty" (merged self data CONF_TO_PARTY)
    ++ recipient_entry "totag" (merged self data CONF_TO_TAG) <> [].
Proof.
  intros Hsup.
  unfold WeWorkAppClient._build_payload, WeWorkAppClient.set_if,
    recipient_entry, app_body.
  fold (merged self data CONF_TO_USER) (merged self data CONF_TO_PARTY)
       (merged self data CONF_TO_TAG).
  destruct (nonempty_opt (merged self data CONF_TO_USER));
    destruct (nonempty_opt (merged self data CONF_TO_PARTY));
    destruct (nonempty_opt (merged self data CONF_TO_TAG));
    destruct (truthy (get data CONF_MESSAGE));
    destruct (truthy (get data CONF_IMAGE_MEDIA_ID));
    destruct (supported_cases _ Hsup) as [-> | [-> | ->]];
    cbn; intros Hp; try discriminate; injection Hp as <-;
    (split; [reflexivity | discriminate]).
Qed.

End AppPayload.

Section OtherFields.
Import DictFacts.
Local Open Scope list_scope.

Variables (data : dict) (k : string) (v : pyval).

Lemma supported_type_other :
  k <> CONF_MESSAGE_TYPE ->
  supported_type (dict_set data k v) = supported_type data.
Proof.
  intros Hk. unfold supported_type.
  rewrite get_default_dict_set_other by exact Hk. reflexivity.
Qed.

Lemma app_build_other (self : app_config) (message_type : string) :
  ~ In k app_fields ->
  WeWorkAppClient._build_payload self message_type (dict_set data k v) =
  WeWorkAppClient._build_payload self message_type data.
Proof.
  intros Hk. unfold WeWorkAppClient._build_payload.
  rewrite !get_dict_set_other
    by (intros ->; apply Hk; unfold app_fields; cbn; auto 10).
  reflexivity.
Qed.

Lemma bot_build_other (message_type : string) :
  ~ In k bot_fields ->
  WeWorkBotClient._build_payload message_type (dict_set data k v) =
  WeWorkBotClient._build_payload message_type data.
Proof.
  intros Hk. unfold WeWorkBotClient._build_payload.
  rewrite !get_dict_set_other
    by (intros ->; apply Hk; unfold bot_fields; cbn; auto 10).
  reflexivity.
Qed.

End OtherFields.

Section ReadFields.
Local Open Scope list_scope.

Context `{PyRuntime}.
Variable env : environment.
Variable self : app_config.
Variable _webhook_key : string.

Lemma bot_send_other (data : dict) (k : string) (v : pyval) (s : state) :
  ~ In k bot_fields ->
  WeWorkBotClient.async_send_message env _webhook_key (dict_set data k v) s =
  WeWorkBotClient.async_send_message env _webhook_key data s.
Proof.
  intros Hk. unfold WeWorkBotClient.async_send_message.
  rewrite supported_type_other
    by (intros ->; apply Hk; unfold bot_fields; cbn; auto).
  unfold bind, lift. destruct (supported_type data) as [mt | e];
    [| reflexivity].
  rewrite (bot_build_other data k v mt Hk). reflexivity.
Qed.

(** X6. A call is answered from the fields its client reads and from no
    other: setting or replacing any other field of the call changes neither
    the outcome nor the requests made.  The application client reads the
    message type, the message, the three recipient fields and the media id;
    the robot client reads the message type, the message, the two mention
    fields and the two image fields, so that recipients given to the robot
    client have no effect. *)
Theorem other_fields_ignored (data : dict) (k : string) (v : pyval) (s : state) :
  (~ In k app_fields ->
   WeWorkAppClient.async_send_message env self (dict_set data k v) s =
   WeWorkAppClient.async_send_message env self data s) /\
  (~ In k bot_fields ->
   WeWorkBotClient.async_send_message env _webhook_key (dict_set data k v) s =
   WeWorkBotClient.async_send_message env _webhook_key data s).
Proof.
  split; intros Hk.
  - unfold WeWorkAppClient.async_send_message.
    rewrite supported_type_other
      by (intros ->; apply Hk; unfold app_fields; cbn; auto).
    unfold bind, lift. destruct (supported_type data) as [mt | e];
      [| reflexivity].
    rewrite (app_build_other data k v self mt Hk). reflexivity.
  - exact (bot_send_other data k v s Hk).
Qed.

(** X7. Edges of the robot client's builder.  A markdown payload holds the
    message and nothing else, whatever mention fields the call has; a
    message type outside the supported ones is refused by the builder
    itself; and for a text message a mention field that is truthy and not a
    string makes the whole call fail with an [AttributeError], not a
    [WeWorkError], before any request. *)
Theorem bot_payload_edges (data : dict) (message_type : string) (s : state) :
  (WeWorkBotClient._build_payload MESSAGE_TYPE_MARKDOWN data =
   if truthy (get data CONF_MESSAGE)
   then Return [("msgtype", PStr "markdown");
                ("markdown", PDict [("content", get data CONF_MESSAGE)])]
   else Raise (WeWorkError ContentRequiredMarkdown PNone)) /\
  (~ supported message_type ->
   WeWorkBotClient._build_payload message_type data =
   Raise (WeWorkError (UnsupportedType (PStr message_type)) PNone)) /\
  (supported_type data = Return MESSAGE_TYPE_TEXT ->
   ~ missing data CONF_MESSAGE ->
   truthy_non_string (get data CONF_MENTIONED_LIST) \/
   truthy_non_string (get data CONF_MENTIONED_MOBILE_LIST) ->
   WeWorkBotClient.async_send_message env _webhook_key data s =
   (Raise AttributeError, s)).
Proof.
  split; [| split].
  - unfold WeWorkBotClient._build_payload. cbn.
    destruct (truthy (get data CONF_MESSAGE)); reflexivity.
  - intros Hsup. unfold WeWorkBotClient._build_payload.
    destruct (String.eqb_spec message_type MESSAGE_TYPE_TEXT) as [-> | _];
      [exfalso; apply Hsup; unfold supported; cbn; auto |].
    destruct (String.eqb_spec message_type MESSAGE_TYPE_MARKDOWN) as [-> | _];
      [exfalso; apply Hsup; unfold supported; cbn; auto |].
    destruct (String.eqb_spec message_type MESSAGE_TYPE_IMAGE) as [-> | _];
      [exfalso; apply Hsup; unfold supported; cbn; auto |].
    reflexivity.
  - intros Hty Hmsg Hbad.
    assert (Hsplit : forall w, truthy_non_string w ->
                               _split_optional w = Raise AttributeError).
    { intros w [Ht Hs]. unfold _split_optional. rewrite Ht. cbn [negb].
      destruct w; try reflexivity. exfalso. exact (Hs s0 eq_refl). }
    assert (Hbuild : WeWorkBotClient._build_payload MESSAGE_TYPE_TEXT data =
                     Raise AttributeError).
    { unfold WeWorkBotClient._build_payload. cbn [String.eqb Ascii.eqb
        MESSAGE_TYPE_TEXT Bool.eqb].
      unfold missing in Hmsg.
      destruct (truthy (get data CONF_MESSAGE)); [| congruence]. cbn [negb].
      destruct Hbad as [Hl | Hm].
      - rewrite (Hsplit _ Hl). reflexivity.
      - rewrite (Hsplit _ Hm).
        destruct (_split_optional (get data CONF_MENTIONED_LIST))
          as [l | e] eqn:Hfirst; [reflexivity |].
        revert Hfirst. unfold _split_optional.
        destruct (negb _); [discriminate |].
        destruct (get data CONF_MENTIONED_LIST); try discriminate;
          intros [= <-]; reflexivity. }
    unfold WeWorkBotClient.async_send_message.
    unfold bind at 1. unfold lift at 1. rewrite Hty.
    unfold bind at 1. unfold lift at 1. rewrite Hbuild. reflexivity.
Qed.

(** X8. The robot client makes at most one request per call and never more:
    when the message type is supported and the payload builds, exactly one
    post to the webhook with that payload, whatever the answer is (an answer
    with an error code of the retryable set included); when not, no request
    at all and the error of the check or of the builder as the result.  In
    both cases the token cache is untouched and the clock is not read. *)
Theorem bot_send_single_request (data : dict) (s : state) :
  let (r, s') := WeWorkBotClient.async_send_message env _webhook_key data s in
  _token s' = _token s /\ _token_expire_time s' = _token_expire_time s /\
  clock_reads s' = clock_reads s /\
  ((exists message_type payload,
      supported_type data = Return message_type /\
      WeWorkBotClient._build_payload message_type data = Return payload /\
      sent s' = PostWebhook _webhook_key payload :: sent s) \/
   (sent s' = sent s /\
    exists e, r = Raise e /\
      (supported_type data = Raise e \/
       exists message_type,
         supported_type data = Return message_type /\
         WeWorkBotClient._build_payload message_type data = Raise e))).
Proof.
  unfold WeWorkBotClient.async_send_message.
  unfold bind at 1. unfold lift at 1.
  destruct (supported_type data) as [mt | e] eqn:Hty.
  2:{ repeat (split; [reflexivity |]). right. split; [reflexivity |].
      exists e. split; [reflexivity | left; reflexivity]. }
  unfold bind at 1. unfold lift at 1.
  destruct (WeWorkBotClient._build_payload mt data) as [payload | e] eqn:Hpay.
  2:{ repeat (split; [reflexivity |]). right. split; [reflexivity |].
      exists e. split; [reflexivity |]. right. exists mt. auto. }
  unfold bind, exchange. cbn.
  assert (Hleft : exists message_type payload0,
            Return mt = Return message_type /\
            WeWorkBotClient._build_payload message_type data = Return payload0 /\
            PostWebhook _webhook_key payload :: sent s =
            PostWebhook _webhook_key payload0 :: sent s).
  { exists mt, payload. auto. }
  destruct (http env (sent s) (PostWebhook _webhook_key payload))
    as [result | detail | detail]; cbn; [| auto 6 | auto 6].
  unfold lift, body_get.
  destruct result; cbn; auto 6.
  destruct (truthy _); cbn; auto 6.
Qed.

End ReadFields.

(** ** The token cache and the send protocol, further *)

Section CacheShape.
Local Open Scope list_scope.

Context `{PyRuntime}.
Variable env : environment.
Variable self : app_config.

(** What the part of [_refresh_token] after the request can do to the
    cache. *)
Lemma refresh_complete_shape (reply : http_outcome) (s : state) :
  let (r, s') := WeWorkAppClient.refresh_complete env reply s in
  sent s' = sent s /\
  (_token s' = _token s \/ truthy (_token s') = true) /\
  (forall token, r = Return token -> _token s' = token /\ truthy token = true).
Proof.
  destruct reply as [result | detail | detail];
    [| cbn; split; [reflexivity | split; [auto | discriminate]] ..].
  destruct result as [| b | z | str | l | d];
    try (cbn; split; [reflexivity | split; [auto | discriminate]]).
  rewrite refresh_complete_object.
  destruct (truthy (get d "errcode"));
    [split; [reflexivity | split; [auto | discriminate]] |].
  destruct (truthy (get d "access_token")) eqn:Htok;
    [| split; [reflexivity | split; [auto | discriminate]]].
  cbn zeta.
  destruct (py_int _) as [n | e];
    [| split; [reflexivity | split; [right; exact Htok | discriminate]]].
  destruct (time_add_int _ n) as [expire |];
    [| split; [reflexivity | split; [right; exact Htok | discriminate]]].
  split; [reflexivity |]. split; [right; exact Htok |].
  intros token [= <-]. split; [reflexivity | exact Htok].
Qed.

(** [_refresh_token] makes at most one request, the token request; the
    token it leaves in the cache is the old one or a truthy one; the token
    it returns is truthy and is the one in the cache. *)
Lemma refresh_token_shape (force : bool) (s : state) :
  let (r, s') := WeWorkAppClient._refresh_token env self force s in
  (sent s' = sent s \/ sent s' = token_request self :: sent s) /\
  (_token s' = _token s \/ truthy (_token s') = true) /\
  (forall token, r = Return token -> _token s' = token /\ truthy token = true).
Proof.
  destruct (WeWorkAppClient.refresh_check env force s) as [c s0] eqn:Hc.
  pose proof (refresh_check_state env force s) as Hst.
  unfold at_fetch in Hst. rewrite Hc in Hst. cbn in Hst.
  destruct Hst as (Ht0 & He0 & Hs0).
  unfold WeWorkAppClient._refresh_token, bind. rewrite Hc.
  destruct c as [[token |] | e].
  - (* the cached token *)
    assert (Hcached : token = _token s /\ truthy (_token s) = true).
    { revert Hc. unfold WeWorkAppClient.refresh_check, bind, read_token,
        read_expire_time, now, ret. cbn.
      destruct (truthy (_token s)); cbn; [| discriminate].
      destruct (negb force); cbn; [| discriminate].
      destruct (time_lt _ _); cbn; [| discriminate].
      intros [= <- _]. auto. }
    destruct Hcached as [-> Htr]. cbn.
    split; [left; exact Hs0 |]. split; [left; exact Ht0 |].
    intros token [= <-]. split; [exact Ht0 | exact Htr].
  - unfold exchange. cbn.
    pose proof (refresh_complete_shape
                  (http env (sent s0) (token_request self))
                  (mkState (_token s0) (_token_expire_time s0)
                           (token_request self :: sent s0) (clock_reads s0)))
      as Hshape.
    fold (token_request self).
    destruct (WeWorkAppClient.refresh_complete env _ _) as [r s'].
    cbn in Hshape. destruct Hshape as (Hs & Ht & Hr).
    split; [right; rewrite Hs, Hs0; reflexivity |].
    split; [rewrite <- Ht0; exact Ht | exact Hr].
  - exfalso. revert Hc.
    unfold WeWorkAppClient.refresh_check, bind, read_token,
      read_expire_time, now, ret. cbn.
    destruct (truthy (_token s) && negb force); cbn; [| discriminate].
    destruct (time_lt _ _); discriminate.
Qed.

Lemma ensure_token_shape (s : state) :
  let (r, s') := WeWorkAppClient._ensure_token env self s in
  (sent s' = sent s \/ sent s' = token_request self :: sent s) /\
  (_token s' = _token s \/ truthy (_token s') = true) /\
  (forall token, r = Return token -> _token s' = token /\ truthy token = true).
Proof.
  unfold WeWorkAppClient._ensure_token, WeWorkAppClient.token_is_fresh,
    bind at 1 2, read_token at 1, ret.
  destruct (truthy (_token s)) eqn:Htr.
  - unfold bind, now, read_expire_time. cbn.
    destruct (time_lt _ _).
    + cbn. split; [auto |]. split; [auto |].
      intros token [= <-]. auto.
    + exact (refresh_token_shape false
               (mkState (_token s) (_token_expire_time s) (sent s)
                        (S (clock_reads s)))).
  - exact (refresh_token_shape false s).
Qed.

(** X9. The tokens that [_refresh_token] and [_ensure_token] hand out come
    from the cache and are never empty: a returned token is truthy and is
    the token the cache holds after the call.  Neither call makes more than
    one request, and neither leaves an empty token where there was none:
    the cached token after the call is the one before it or a truthy one. *)
Theorem returned_token_is_cached (force : bool) (s : state) :
  (let (r, s') := WeWorkAppClient._refresh_token env self force s in
   (sent s' = sent s \/ sent s' = token_request self :: sent s) /\
   (_token s' = _token s \/ truthy (_token s') = true) /\
   (forall token, r = Return token -> _token s' = token /\ truthy token = true)) /\
  (let (r, s') := WeWorkAppClient._ensure_token env self s in
   (sent s' = sent s \/ sent s' = token_request self :: sent s) /\
   (_token s' = _token s \/ truthy (_token s') = true) /\
   (forall token, r = Return token -> _token s' = token /\ truthy token = true)).
Proof.
  split; [apply refresh_token_shape | apply ensure_token_shape].
Qed.

(** X10. With an empty cache, or with a cached token that fails the
    freshness test at the reading of [_ensure_token] and at the next one,
    [_ensure_token] makes exactly one token request, and the answer to it
    decides the result as in [_refresh_token]. *)
Theorem ensure_token_stale_fetches (s : state) :
  truthy (_token s) = false \/
  (time_lt (monotonic env (clock_reads s))
           (time_sub_int (_token_expire_time s) 30) = false /\
   time_lt (monotonic env (S (clock_reads s)))
           (time_sub_int (_token_expire_time s) 30) = false) ->
  WeWorkAppClient._ensure_token env self s =
  WeWorkAppClient.refresh_complete env
    (http env (sent s) (token_request self))
    (mkState (_token s) (_token_expire_time s) (token_request self :: sent s)
             (if truthy (_token s) then S (S (clock_reads s))
              else clock_reads s)) /\
  sent (snd (WeWorkAppClient._ensure_token env self s)) =
  token_request self :: sent s.
Proof.
  intros Hstale.
  assert (Heq : WeWorkAppClient._ensure_token env self s =
    WeWorkAppClient.refresh_complete env
      (http env (sent s) (token_request self))
      (mkState (_token s) (_token_expire_time s) (token_request self :: sent s)
               (if truthy (_token s) then S (S (clock_reads s))
                else clock_reads s))).
  { unfold WeWorkAppClient._ensure_token, WeWorkAppClient.token_is_fresh,
      WeWorkAppClient._refresh_token, WeWorkAppClient.refresh_check,
      bind, read_token, read_expire_time, now, ret, exchange, token_request.
    cbn.
    destruct (truthy (_token s)) eqn:Htr; cbn.
    - destruct Hstale as [Hf | [H1 H2]]; [discriminate |].
      rewrite H1. cbn. rewrite Htr. cbn. rewrite H2. reflexivity.
    - rewrite Htr. reflexivity. }
  split; [exact Heq |].
  rewrite Heq.
  pose proof (refresh_complete_shape
                (http env (sent s) (token_request self))
                (mkState (_token s) (_token_expire_time s)
                         (token_request self :: sent s)
                         (if truthy (_token s) then S (S (clock_reads s))
                          else clock_reads s))) as Hshape.
  destruct (WeWorkAppClient.refresh_complete env _ _) as [r s'].
  exact (proj1 Hshape).
Qed.

(** X11. A token that a refresh has returned is served from the cache
    afterwards: when [_refresh_token] returns a token and the next clock
    reading passes the freshness test against the expiry instant the refresh
    has left, [_ensure_token] returns that token without a request. *)
Theorem refreshed_token_served_from_cache
  (force : bool) (s s' : state) (token : pyval) :
  WeWorkAppClient._refresh_token env self force s = (Return token, s') ->
  time_lt (monotonic env (clock_reads s'))
          (time_sub_int (_token_expire_time s') 30) = true ->
  WeWorkAppClient._ensure_token env self s' = (Return token, tick s').
Proof.
  intros Hr Hlt.
  pose proof (refresh_token_shape force s) as Hshape.
  rewrite Hr in Hshape. destruct Hshape as (_ & _ & Hret).
  destruct (Hret token eq_refl) as [Htok Htr].
  rewrite <- Htok.
  apply ensure_token_fresh. split; [rewrite Htok; exact Htr | exact Hlt].
Qed.

(** X12. The failures that [_refresh_token] reports itself.  When the
    token request fails in transport, the error is a [WeWorkError] without
    an error code; when the answer carries a truthy [errcode], the error
    carries that code and the [errmsg] of the answer ([unknown error] when
    there is none); when it carries neither an error nor an access token,
    the error says so.  In each case the token and the expiry instant of
    the cache are the ones before the call, and the token request is the
    one request made. *)
Theorem refresh_failure_reported (force : bool) (s : state) :
  fetches env force s ->
  let (r, s') := WeWorkAppClient._refresh_token env self force s in
  match http env (sent s) (token_request self) with
  | HttpClientError detail =>
      r = Raise (WeWorkError (RefreshTransport detail) PNone) /\
      _token s' = _token s /\ _token_expire_time s' = _token_expire_time s /\
      sent s' = token_request self :: sent s
  | HttpJson (PDict d) =>
      (truthy (get d "errcode") = true ->
       r = Raise (WeWorkError
                    (RefreshFailed (get_default d "errmsg" (PStr "unknown error")))
                    (get d "errcode")) /\
       _token s' = _token s /\ _token_expire_time s' = _token_expire_time s /\
       sent s' = token_request self :: sent s) /\
      (truthy (get d "errcode") = false -> missing d "access_token" ->
       r = Raise (WeWorkError MissingAccessToken PNone) /\
       _token s' = _token s /\ _token_expire_time s' = _token_expire_time s /\
       sent s' = token_request self :: sent s)
  | _ => True
  end.
Proof.
  intros Hf.
  rewrite (refresh_token_fetch env self force s Hf).
  destruct (refresh_check_state env force s) as (Ht & He & _).
  destruct (http env (sent s) (token_request self)) as [result | detail | detail].
  - destruct result as [| b | z | str | l | d];
      try (destruct (WeWorkAppClient.refresh_complete env _ _); exact I).
    rewrite refresh_complete_object. unfold missing.
    destruct (truthy (get d "errcode")).
    + cbv beta iota. split; [intros _ | discriminate].
      cbn. rewrite Ht, He. auto.
    + destruct (truthy (get d "access_token")) eqn:Htok.
      * cbv beta iota zeta.
        destruct (py_int _) as [n | e];
          [destruct (time_add_int _ n) |]; cbv beta iota;
          (split; [discriminate | intros _ Hmiss; discriminate]).
      * cbv beta iota. split; [discriminate | intros _ _].
        cbn. rewrite Ht, He. auto.
  - cbn. rewrite Ht, He. auto.
  - destruct (WeWorkAppClient.refresh_complete env _ _); exact I.
Qed.

End CacheShape.

Section SendBounds.
Local Open Scope list_scope.

Context `{PyRuntime}.
Variable env : environment.
Variable self : app_config.

Lemma do_send_return (payload : dict) (token : pyval) (s s' : state) :
  WeWorkAppClient._do_send env payload token s = (Return tt, s') ->
  accepted env (sent s) (PostMessage token payload).
Proof.
  unfold WeWorkAppClient._do_send, bind, exchange, accepted. cbn.
  destruct (http env (sent s) (PostMessage token payload))
    as [result | detail | detail]; cbn; try discriminate.
  unfold lift, body_get.
  destruct result as [| b | z | str | l | d]; cbn; try discriminate.
  fold (get d "errcode").
  destruct (truthy (get d "errcode")) eqn:Herr; cbn; [discriminate |].
  intros _. exists d. auto.
Qed.

Lemma call_log_intro (data : dict) (new : list request) :
  sends new <= 2 -> refreshes new <= 2 ->
  length new = sends new + refreshes new ->
  Forall (fun r =>
            r = GetToken (_corp_id self) (_corp_secret self) \/
            exists token payload,
              r = PostMessage token payload /\ truthy token = true /\
              built self data payload) new ->
  call_log self data new.
Proof.
  intros Hs Hr Hl Hall. unfold call_log.
  split; [exact Hs |]. split; [exact Hr |]. split; [exact Hl |].
  apply Forall_forall. exact Hall.
Qed.

(** X13. One call of the application client makes at most two sends and at
    most two token requests and no other request, each send with a truthy
    token and with the payload built for the call; the requests made before
    the call stay in the log.  The call reports success only when its last
    request is a send that the provider has accepted. *)
Theorem app_send_requests_bounded (data : dict) (s : state) :
  let (r, s') := WeWorkAppClient.async_send_message env self data s in
  exists new,
    sent s' = new ++ sent s /\
    call_log self data new /\
    (r = Return tt ->
     exists token payload rest,
       new = PostMessage token payload :: rest /\
       accepted env (rest ++ sent s) (PostMessage token payload)).
Proof.
  unfold WeWorkAppClient.async_send_message.
  unfold bind at 1. unfold lift at 1.
  destruct (supported_type data) as [mt | e] eqn:Hty.
  2:{ exists []. split; [reflexivity |].
      split; [apply call_log_intro; cbn; auto | discriminate]. }
  unfold bind at 1. unfold lift at 1.
  destruct (WeWorkAppClient._build_payload self mt data) as [payload | e] eqn:Hpay.
  2:{ exists []. split; [reflexivity |].
      split; [apply call_log_intro; cbn; auto | discriminate]. }
  assert (Hbuilt : built self data payload) by (exists mt; auto).
  unfold bind at 1.
  pose proof (ensure_token_shape env self s) as Hens.
  destruct (WeWorkAppClient._ensure_token env self s) as [[token | e] s1] eqn:He.
  2:{ destruct Hens as ([Hs1 | Hs1] & _ & _).
      - exists []. split; [exact Hs1 |].
        split; [apply call_log_intro; cbn; auto | discriminate].
      - exists [token_request self]. split; [exact Hs1 |].
        split; [apply call_log_intro; cbn; auto | discriminate]. }
  destruct Hens as (Hs1 & _ & Hret).
  destruct (Hret token eq_refl) as [_ Htr].
  assert (Hfetch : exists fetch,
            sent s1 = fetch ++ sent s /\
            (fetch = [] \/ fetch = [token_request self])).
  { destruct Hs1 as [Hs1 | Hs1];
      [exists [] | exists [token_request self]]; auto. }
  destruct Hfetch as (fetch & Hs1' & Hfetch).
  assert (Hsend : forall tok, truthy tok = true ->
            PostMessage tok payload = GetToken (_corp_id self) (_corp_secret self) \/
            exists token0 payload0,
              PostMessage tok payload = PostMessage token0 payload0 /\
              truthy token0 = true /\ built self data payload0).
  { intros tok Htok. right. exists tok, payload. auto. }
  unfold try_except.
  pose proof (do_send_state env payload token s1) as Hst.
  pose proof (do_send_return payload token s1) as Hacc.
  destruct (WeWorkAppClient._do_send env payload token s1) as [[[] | e] s2].
  { cbn in Hst. subst s2. cbn [sent logged].
    exists (PostMessage token payload :: fetch).
    split; [rewrite Hs1'; reflexivity |]. split.
    - destruct Hfetch as [-> | ->]; apply call_log_intro;
        unfold token_request; cbn; auto.
    - intros _. exists token, payload, fetch. split; [reflexivity |].
      rewrite <- Hs1'. exact (Hacc _ eq_refl). }
  clear Hacc. cbn in Hst. subst s2.
  assert (Hone : exists new,
            sent (logged (PostMessage token payload) s1) = new ++ sent s /\
            call_log self data new).
  { exists (PostMessage token payload :: fetch).
    split; [cbn; rewrite Hs1'; reflexivity |].
    destruct Hfetch as [-> | ->]; apply call_log_intro;
      unfold token_request; cbn; auto. }
  destruct e as [msg code | | | | | detail];
    try (destruct Hone as (new & Hnew & Hlog); exists new;
         split; [exact Hnew | split; [exact Hlog | discriminate]]).
  unfold bind at 1. unfold lift at 1.
  destruct (in_int_set code TOKEN_RETRYABLE_ERROR_CODES) as [[|] | e];
    try (destruct Hone as (new & Hnew & Hlog); exists new;
         split; [exact Hnew | split; [exact Hlog | discriminate]]).
  clear Hone. cbn [negb]. unfold bind at 1.
  pose proof (forced_refresh_log env self (logged (PostMessage token payload) s1))
    as Hlog3.
  pose proof (refresh_token_shape env self true
                (logged (PostMessage token payload) s1)) as Hshape.
  destruct (WeWorkAppClient._refresh_token env self true _) as [[token' | e] s3].
  2:{ cbn in Hlog3. exists (token_request self :: PostMessage token payload :: fetch).
      split; [rewrite Hlog3, Hs1'; reflexivity |]. split; [| discriminate].
      destruct Hfetch as [-> | ->]; apply call_log_intro;
        unfold token_request; cbn; auto. }
  cbn in Hlog3. destruct Hshape as (_ & _ & Hret3).
  destruct (Hret3 token' eq_refl) as [_ Htr'].
  pose proof (do_send_state env payload token' s3) as Hst4.
  pose proof (do_send_return payload token' s3) as Hacc4.
  destruct (WeWorkAppClient._do_send env payload token' s3) as [r4 s4].
  cbn in Hst4. subst s4. cbn [sent logged].
  exists (PostMessage token' payload :: token_request self
          :: PostMessage token payload :: fetch).
  split; [rewrite Hlog3, Hs1'; reflexivity |]. split.
  - destruct Hfetch as [-> | ->]; apply call_log_intro;
      unfold token_request; cbn; auto 6.
  - intros ->. exists token', payload,
      (token_request self :: PostMessage token payload :: fetch).
    split; [reflexivity |].
    replace ((token_request self :: PostMessage token payload :: fetch) ++ sent s)
      with (sent s3) by (rewrite Hlog3, Hs1'; reflexivity).
    exact (Hacc4 _ eq_refl).
Qed.

End SendBounds.

Section SendOutcomes.
Local Open Scope list_scope.

Context `{PyRuntime}.
Variable env : environment.
Variable self : app_config.

(** X14. A transport failure ends the call of the application client at
    once, without a refresh and without a second send.  For the first send:
    an [aiohttp.ClientError] becomes a [WeWorkError] without an error code;
    an exception of another class (a timeout) and the [AttributeError] for a
    body that is not an object pass as they are, so they are not
    [WeWorkError]s.  For the token request of a call that finds the cache
    empty: a [ClientError] becomes a [WeWorkError] without an error code and
    no send is made. *)
Theorem transport_failure_ends_call (data : dict) (s : state) :
  (forall payload token s1,
     reaches_send env self data s payload token s1 ->
     let first := PostMessage token payload in
     let call := WeWorkAppClient.async_send_message env self data s in
     match http env (sent s1) first with
     | HttpClientError detail =>
         call = (Raise (WeWorkError (SendTransport detail) PNone),
                 logged first s1)
     | HttpOtherError detail => call = (Raise (ForeignError detail), logged first s1)
     | HttpJson (PDict _) => True
     | HttpJson _ => call = (Raise AttributeError, logged first s1)
     end) /\
  (forall payload detail,
     built self data payload ->
     truthy (_token s) = false ->
     http env (sent s) (token_request self) = HttpClientError detail ->
     WeWorkAppClient.async_send_message env self data s =
     (Raise (WeWorkError (RefreshTransport detail) PNone),
      logged (token_request self) s)).
Proof.
  split.
  - intros payload token s1 Hreach first call. unfold call.
    rewrite (send_message_unfold env self data s payload token s1 Hreach).
    unfold try_except, WeWorkAppClient._do_send, bind at 1, exchange. cbn.
    fold first.
    destruct (http env (sent s1) first) as [result | detail | detail]; cbn;
      [| reflexivity ..].
    destruct result; first [exact I | reflexivity].
  - intros payload detail (mt & Hty & Hpay) Hempty Hreply.
    unfold WeWorkAppClient.async_send_message.
    unfold bind at 1. unfold lift at 1. rewrite Hty.
    unfold bind at 1. unfold lift at 1. rewrite Hpay.
    unfold bind at 1.
    unfold WeWorkAppClient._ensure_token, WeWorkAppClient.token_is_fresh,
      WeWorkAppClient._refresh_token, WeWorkAppClient.refresh_check,
      bind, read_token, ret, exchange. cbn.
    rewrite Hempty. cbn. rewrite Hempty. cbn.
    fold (token_request self). rewrite Hreply. reflexivity.
Qed.

(** X15. The retry recovers the call.  When the first send is refused with
    a retryable error code, the token endpoint then grants a token and the
    second send, made with that token, is accepted, the call returns without
    an error; the cache then holds the granted token with its expiry
    instant, and the log holds the two sends with the token request between
    them. *)
Theorem retry_recovers (data : dict) (s : state)
  (payload : dict) (token : pyval) (s1 : state)
  (refusal grant : dict) (n : Z) (expire : time) :
  reaches_send env self data s payload token s1 ->
  let first := PostMessage token payload in
  let second := PostMessage (get grant "access_token") payload in
  http env (sent s1) first = HttpJson (PDict refusal) ->
  truthy (get refusal "errcode") = true ->
  in_int_set (get refusal "errcode") TOKEN_RETRYABLE_ERROR_CODES = Return true ->
  http env (first :: sent s1) (token_request self) = HttpJson (PDict grant) ->
  truthy (get grant "errcode") = false ->
  truthy (get grant "access_token") = true ->
  py_int (get_default grant "expires_in" (PInt 7200)) = Return n ->
  time_add_int (monotonic env (clock_reads s1)) n = Some expire ->
  accepted env (token_request self :: first :: sent s1) second ->
  WeWorkAppClient.async_send_message env self data s =
  (Return tt,
   mkState (get grant "access_token") expire
           (second :: token_request self :: first :: sent s1)
           (S (clock_reads s1))).
Proof.
  intros Hreach first second Hrefused Hcode Hretry Hgrant Hok Htok Hint Hadd
    (d & Hreply & Herr).
  subst first second.
  rewrite (send_message_unfold env self data s payload token s1 Hreach).
  unfold try_except.
  rewrite (do_send_object env payload token s1 refusal Hrefused), Hcode.
  unfold bind at 1. unfold lift at 1. rewrite Hretry. cbn [negb].
  unfold bind at 1.
  destruct (refresh_check_forced env (logged (PostMessage token payload) s1))
    as [Hf Hat].
  rewrite (refresh_token_fetch env self true _ Hf), Hat.
  cbn [sent logged _token _token_expire_time clock_reads].
  rewrite Hgrant, refresh_complete_object, Hok, Htok.
  cbn [clock_reads]. rewrite Hint, Hadd.
  rewrite (do_send_object env payload (get grant "access_token") _ d);
    [| exact Hreply].
  rewrite Herr. reflexivity.
Qed.

End SendOutcomes.

(** ** Concurrent callers, further *)

Module ForcedFacts.
Import Concurrent ConcurrentFacts ListFacts ForcedCallers.
Local Open Scope list_scope.

Section Forced.

Context `{PyRuntime}.
Variable env : environment.
Variable self : app_config.
Variable log0 : list request.

Ltac at_task i j Hi :=
  rewrite nth_error_set_nth;
  destruct (Nat.eqb_spec i j) as [<- | _]; [rewrite Hi |].

Ltac counts tasks i old p Hi :=
  pose proof (count_set_nth is_fetching tasks i old p Hi);
  pose proof (count_set_nth is_done tasks i old p Hi).

Lemma enter_lock_forced (i : nat) (s : state) (queue : list nat)
  (tasks : list pc) :
  enter_lock env self true i s queue tasks =
  mkSystem (logged (token_request self) s) true queue
           (set_nth i (Fetching (http env (sent s) (token_request self))) tasks).
Proof.
  unfold enter_lock.
  destruct (refresh_check_forced env s) as [Hf Hat].
  unfold fetches, at_fetch in *.
  destruct (WeWorkAppClient.refresh_check env true s) as [r s1].
  cbn in Hf, Hat. subst r s1. reflexivity.
Qed.

Lemma set_all_forced (s s' : state) (l l' : bool) (q q' : list nat)
  (tasks : list pc) (i : nat) (p : pc) :
  all_forced (mkSystem s l q tasks) ->
  p <> Start false -> p <> Waiting false ->
  all_forced (mkSystem s' l' q' (set_nth i p tasks)).
Proof.
  unfold all_forced. cbn [pcs]. intros Hall Hp1 Hp2 j p0.
  rewrite nth_error_set_nth.
  destruct (Nat.eqb i j); [| apply Hall].
  destruct (nth_error tasks j); [| discriminate].
  intros [= <-]. auto.
Qed.

Lemma enter_lock_requested (i : nat) (s : state) (l : bool)
  (queue queue0 : list nat) (tasks : list pc) (old : pc) :
  each_requested log0 (mkSystem s l queue0 tasks) ->
  nth_error tasks i = Some old ->
  is_fetching old = false -> is_done old = false ->
  lock_held_by_fetch (enter_lock env self true i s queue tasks) ->
  each_requested log0 (enter_lock env self true i s queue tasks).
Proof.
  intros (_ & Hall & Hcount) Hi Hf Hd Hheld.
  split; [exact Hheld |].
  rewrite enter_lock_forced in *.
  split; [eapply set_all_forced; [exact Hall | discriminate ..] |].
  unfold in_flight, done_count in *. cbn [pcs shared sent logged] in *.
  counts tasks i old (Fetching (http env (sent s) (token_request self))) Hi.
  rewrite Hf, Hd in *. cbn [is_fetching is_done weight] in *.
  rewrite (refreshes_cons_token self). lia.
Qed.

Lemma step_requested (i : nat) (sys sys' : system) :
  each_requested log0 sys -> step env self i sys = Some sys' ->
  each_requested log0 sys'.
Proof.
  intros Hinv Hstep.
  pose proof (step_lock_held env self i sys sys' (proj1 Hinv) Hstep) as Hheld.
  destruct sys as [s l q tasks].
  pose proof Hinv as (Hlock & Hall & Hcount).
  unfold step in Hstep. cbn [pcs shared locked waiters] in *.
  destruct (nth_error tasks i) as [[[|] | force | reply | result] |] eqn:Hi;
    try discriminate.
  - (* a caller starts *)
    injection Hstep as <-. unfold acquire in *. cbn [locked waiters pcs] in *.
    assert (Hqueue : forall l' q',
              lock_held_by_fetch
                (mkSystem s l' q' (set_nth i (Waiting true) tasks)) ->
              each_requested log0
                (mkSystem s l' q' (set_nth i (Waiting true) tasks))).
    { intros l' q' Hh. split; [exact Hh |].
      split; [eapply set_all_forced; [exact Hall | discriminate ..] |].
      unfold in_flight, done_count in *. cbn [pcs shared] in *.
      counts tasks i (Start true) (Waiting true) Hi.
      cbn [is_fetching is_done weight] in *. lia. }
    destruct l; [| destruct q as [| j q']].
    + apply Hqueue. exact Hheld.
    + exact (enter_lock_requested i s false [] [] tasks (Start true) Hinv Hi
                                  eq_refl eq_refl Hheld).
    + apply Hqueue. exact Hheld.
  - destruct (Hall i _ Hi) as [Habs _]. congruence.
  - (* a waiting caller is given the lock *)
    assert (Hforce : force = true).
    { destruct force; [reflexivity |].
      destruct (Hall i _ Hi) as [_ Habs]. congruence. }
    subst force.
    destruct l; [discriminate |].
    destruct q as [| j q']; [discriminate |].
    destruct (Nat.eqb i j); [| discriminate].
    injection Hstep as <-.
    exact (enter_lock_requested i s false q' (j :: q') tasks (Waiting true)
                                Hinv Hi eq_refl eq_refl Hheld).
  - (* the response arrives *)
    pose proof (refresh_complete_shape env reply s) as Hshape.
    destruct (WeWorkAppClient.refresh_complete env reply s) as [result s1].
    destruct Hshape as (Hsent & _ & _).
    injection Hstep as <-.
    split; [exact Hheld |].
    split; [eapply set_all_forced; [exact Hall | discriminate ..] |].
    unfold in_flight, done_count in *. cbn [pcs shared] in *.
    counts tasks i (Fetching reply) (Done result) Hi.
    cbn [is_fetching is_done weight] in *. rewrite Hsent. lia.
Qed.

End Forced.

Lemma run_remaining `{PyRuntime} (env : environment) (self : app_config)
  (schedule : list nat) :
  forall sys sys',
    run env self schedule sys = Some sys' ->
    remaining sys' + length schedule <= remaining sys.
Proof.
  induction schedule as [| i rest IH]; cbn; intros sys sys' Hrun.
  - injection Hrun as <-. lia.
  - destruct (step env self i sys) as [sys1 |] eqn:Hstep; [| discriminate].
    pose proof (step_remaining env self i sys sys1 Hstep).
    pose proof (IH sys1 sys' Hrun). lia.
Qed.

Lemma remaining_callers `{PyRuntime} (forces : list bool) (s : state) :
  remaining (callers forces s) = 3 * length forces.
Proof.
  unfold remaining, list_sum. cbn [pcs callers].
  induction forces as [| f r IH]; [reflexivity |].
  cbn [map fold_right cost length]. rewrite IH. lia.
Qed.

(** X16. Forced refreshes are never shared.  When [count] callers ask for
    a forced refresh at the same time, as the retry paths of concurrent
    sends do, every one of them makes a token request of its own, whatever
    the cache holds and whatever the token endpoint answers: in every state
    they can reach, the token requests made are those of the callers that
    have returned and the one that may be in flight, at most one being in
    flight at a time, and when all have returned [count] token requests have
    been made. *)
Theorem forced_callers_each_request `{PyRuntime}
  (env : environment) (self : app_config)
  (count : nat) (s0 : state) (sys : system) :
  reachable env self (forced_callers count) s0 sys ->
  refreshes (sent (shared sys)) =
    refreshes (sent s0) + in_flight sys + done_count sys /\
  in_flight sys <= 1 /\
  (all_done sys -> refreshes (sent (shared sys)) = refreshes (sent s0) + count).
Proof.
  intros Hreach.
  assert (Hstart : each_requested (sent s0) (callers (forced_callers count) s0)).
  { assert (Hpcs : forall i p,
              nth_error (map Start (forced_callers count)) i = Some p ->
              p = Start true).
    { intros i p Hi. apply nth_error_In in Hi. apply in_map_iff in Hi.
      destruct Hi as (f & <- & Hf). apply repeat_spec in Hf. subst f.
      reflexivity. }
    split; [apply callers_lock_held |]. split.
    - intros i p Hi. cbn [pcs callers] in Hi. apply Hpcs in Hi. subst p.
      split; discriminate.
    - unfold in_flight, done_count. cbn [pcs callers shared].
      rewrite !(filter_none _ (map Start (forced_callers count)));
        [cbn; lia | |];
        intros p Hp; apply in_map_iff in Hp; destruct Hp as (f & <- & _);
        reflexivity. }
  pose proof Hreach as [schedule Hrun].
  pose proof (run_invariant env self (each_requested (sent s0))
                (step_requested env self (sent s0))
                schedule _ _ Hstart Hrun)
    as (Hlock & _ & Hcount).
  split; [exact Hcount |].
  split; [exact (one_request_in_flight env self _ _ _ Hreach) |].
  intros Hall. rewrite Hcount, (done_count_all sys Hall).
  rewrite (run_length env self schedule _ _ Hrun). cbn [pcs callers].
  unfold forced_callers. rewrite length_map, repeat_length.
  assert (Hzero : in_flight sys = 0).
  { unfold in_flight. apply length_zero_iff_nil. apply filter_none.
    intros p Hp. unfold all_done in Hall. rewrite forallb_forall in Hall.
    specialize (Hall p Hp). destruct p; cbn in *; congruence. }
  lia.
Qed.

(** X17. The callers of the token cache never block one another for good.
    Whatever the callers (of [_ensure_token] or of a forced refresh), the
    cache, the answers of the token endpoint and the order in which the
    callers have run so far, they can run on until every one of them has
    returned; and no caller runs more than three blocks, so that no order of
    running is longer than three times the number of callers. *)
Theorem callers_always_finish `{PyRuntime}
  (env : environment) (self : app_config)
  (forces : list bool) (s0 : state) (sys : system) :
  reachable env self forces s0 sys ->
  (exists schedule final,
     run env self schedule sys = Some final /\ all_done final /\
     forall i, i < length forces -> exists result, returned final i result) /\
  (forall schedule sys',
     run env self schedule sys = Some sys' ->
     length schedule <= 3 * length forces).
Proof.
  intros [done Hdone].
  pose proof (run_invariant env self lock_held_by_fetch
                (step_lock_held env self) done _ _
                (callers_lock_held forces s0) Hdone) as Hlock.
  pose proof (run_invariant env self queue_ok
                (step_queue_ok env self) done _ _
                (callers_queue_ok forces s0) Hdone) as Hqueue.
  split.
  - destruct (completion env self sys Hlock Hqueue)
      as (schedule & final & Hrun & Hall).
    exists schedule, final. split; [exact Hrun |]. split; [exact Hall |].
    intros i Hi. apply (all_done_returned final i Hall).
    rewrite (run_length env self schedule _ _ Hrun).
    rewrite (run_length env self done _ _ Hdone). cbn [pcs callers].
    rewrite length_map. exact Hi.
  - intros schedule sys' Hrun.
    pose proof (run_remaining env self schedule sys sys' Hrun).
    pose proof (run_remaining env self done _ sys Hdone).
    rewrite remaining_callers in *. lia.
Qed.

End ForcedFacts.

(** ** The config flow and the options flow *)

Section Flows.
Import ConfigFlow Integration.
Local Open Scope list_scope.

Lemma store_stripped_one (field : string) (value : pyval)
  (rest : list (string * pyval)) (d d' : dict) :
  store_stripped ((field, value) :: rest) d = HReturn d' ->
  exists s, value = PStr s /\
    store_stripped rest
      (if PyStr.nonempty (PyStr.strip s)
       then dict_set d field (PStr (PyStr.strip s)) else d) = HReturn d'.
Proof.
  cbn [store_stripped]. destruct value; cbn; try discriminate.
  intros Hrest. exists s. auto.
Qed.

Lemma item_get (d : dict) (k : string) (v : pyval) :
  item d k = HReturn v -> get d k = v.
Proof.
  unfold item, get, get_default. destruct (lookup d k); [| discriminate].
  intros [= <-]. reflexivity.
Qed.

(** X18. Options take precedence over the defaults of the setup, and an
    option submitted empty does not clear a default: after the options form
    of an application entry has been submitted, each recipient default of
    the entry is the trimmed text of its field when that is not empty, and
    the default stored at setup (or none) when it is. *)
Theorem cleared_option_falls_back (entry : config_entry)
  (user_input new_options : dict) (entry_title : pyval) :
  async_step_init entry (Some user_input) =
    HReturn (CreateEntry entry_title new_options) ->
  let defaults := _get_defaults (with_options entry new_options) in
  get defaults CONF_TO_USER =
    kept_or (get_default user_input CONF_TO_USER (PStr ""))
            (get (data entry) CONF_DEFAULT_TO_USER) /\
  get defaults CONF_TO_PARTY =
    kept_or (get_default user_input CONF_TO_PARTY (PStr ""))
            (get (data entry) CONF_DEFAULT_TO_PARTY) /\
  get defaults CONF_TO_TAG =
    kept_or (get_default user_input CONF_TO_TAG (PStr ""))
            (get (data entry) CONF_DEFAULT_TO_TAG).
Proof.
  unfold async_step_init.
  destruct (negb (eq_str _ _)); [discriminate |].
  destruct (store_stripped _ []) as [opts | e] eqn:Hstore; [| discriminate].
  cbn [hbind]. intros [= _ <-].
  apply store_stripped_one in Hstore. destruct Hstore as (u & Hu & Hstore).
  apply store_stripped_one in Hstore. destruct Hstore as (p & Hp & Hstore).
  apply store_stripped_one in Hstore. destruct Hstore as (t & Ht & Hstore).
  cbn [store_stripped] in Hstore. injection Hstore as <-.
  rewrite Hu, Hp, Ht. unfold kept_or, kept.
  destruct (PyStr.nonempty (PyStr.strip u));
    destruct (PyStr.nonempty (PyStr.strip p));
    destruct (PyStr.nonempty (PyStr.strip t));
    cbn; auto.
Qed.

(** X19. What is typed into the application form is what the client works
    with.  [async_step_app] creates an entry only for a pair of trimmed corp
    id and agent id that is not configured yet, titled by the name of the
    flow (or [WeWork App] for an empty name); for that entry
    [async_setup_entry] constructs an application client whose corp id and
    secret are the trimmed texts of the form, whose agent id is the one of
    the form, and whose recipient defaults are the trimmed texts of the
    default fields, a field that is empty after trimming giving no
    default. *)
Theorem app_flow_entry_client (configured : unique_id -> bool) (self : flow)
  (user_input : dict) (entry_title : pyval) (entry_data : dict)
  (id name : string) :
  async_step_app configured self (Some user_input) =
    HReturn (CreateEntry entry_title entry_data) ->
  exists corp_id corp_secret,
    get user_input CONF_CORP_ID = PStr corp_id /\
    get user_input CONF_CORP_SECRET = PStr corp_secret /\
    configured (AppUniqueId (PyStr.strip corp_id)
                            (get user_input CONF_AGENT_ID)) = false /\
    entry_title = py_or (_name self) (PStr "WeWork App") /\
    new_client (entry_created id name entry_data) =
    HReturn
      (AppClient (PStr (PyStr.strip corp_id)) (PStr (PyStr.strip corp_secret))
         (get user_input CONF_AGENT_ID)
         [(CONF_TO_USER,
           kept_value (get_default user_input CONF_DEFAULT_TO_USER (PStr "")));
          (CONF_TO_PARTY,
           kept_value (get_default user_input CONF_DEFAULT_TO_PARTY (PStr "")));
          (CONF_TO_TAG,
           kept_value (get_default user_input CONF_DEFAULT_TO_TAG (PStr "")))]).
Proof.
  unfold async_step_app.
  destruct (item user_input CONF_CORP_ID) as [v1 | e] eqn:H1; [| discriminate].
  cbn [hbind]. destruct v1 as [| | | corp_id | |]; try discriminate.
  cbn [py_strip hbind].
  destruct (item user_input CONF_CORP_SECRET) as [v2 | e] eqn:H2;
    [| discriminate].
  cbn [hbind]. destruct v2 as [| | | corp_secret | |]; try discriminate.
  cbn [py_strip hbind].
  destruct (item user_input CONF_AGENT_ID) as [agent_id | e] eqn:H3;
    [| discriminate].
  cbn [hbind]. destruct (configured _) eqn:Hconf; [discriminate |].
  destruct (store_stripped _ _) as [stored | e] eqn:Hstore; [| discriminate].
  cbn [hbind]. intros [= <- <-].
  exists corp_id, corp_secret.
  split; [exact (item_get _ _ _ H1) |]. split; [exact (item_get _ _ _ H2) |].
  rewrite (item_get _ _ _ H3).
  split; [exact Hconf |]. split; [reflexivity |].
  apply store_stripped_one in Hstore. destruct Hstore as (u & Hu & Hstore).
  apply store_stripped_one in Hstore. destruct Hstore as (p & Hp & Hstore).
  apply store_stripped_one in Hstore. destruct Hstore as (t & Ht & Hstore).
  cbn [store_stripped] in Hstore. injection Hstore as <-.
  rewrite Hu, Hp, Ht. unfold kept_value, kept.
  destruct (PyStr.nonempty (PyStr.strip u));
    destruct (PyStr.nonempty (PyStr.strip p));
    destruct (PyStr.nonempty (PyStr.strip t));
    reflexivity.
Qed.

(** X20. [async_step_bot] creates an entry only for a trimmed webhook key
    that is not configured yet, titled by the name of the flow (or
    [WeWork Robot] for an empty name); for that entry [async_setup_entry]
    constructs a robot client whose webhook key is the trimmed text of the
    form, and the options flow of the entry ends at once: a robot entry has
    no options, whatever is submitted. *)
Theorem bot_flow_entry_client (configured : unique_id -> bool) (self : flow)
  (user_input : dict) (entry_title : pyval) (entry_data : dict)
  (id name : string) :
  async_step_bot configured self (Some user_input) =
    HReturn (CreateEntry entry_title entry_data) ->
  exists webhook_key,
    get user_input CONF_WEBHOOK_KEY = PStr webhook_key /\
    configured (BotUniqueId (PyStr.strip webhook_key)) = false /\
    entry_title = py_or (_name self) (PStr "WeWork Robot") /\
    new_client (entry_created id name entry_data) =
      HReturn (BotClient (PStr (PyStr.strip webhook_key))) /\
    forall submitted,
      async_step_init (entry_created id name entry_data) submitted =
      HReturn (Abort "no_app_options").
Proof.
  unfold async_step_bot.
  destruct (item user_input CONF_WEBHOOK_KEY) as [v | e] eqn:Hk;
    [| discriminate].
  cbn [hbind]. destruct v as [| | | webhook_key | |]; try discriminate.
  cbn [py_strip hbind]. destruct (configured _) eqn:Hconf; [discriminate |].
  intros [= <- <-]. exists webhook_key.
  split; [exact (item_get _ _ _ Hk) |]. split; [exact Hconf |].
  split; [reflexivity |]. split; reflexivity.
Qed.

End Flows.

(** ** The service [send_message] *)

Section ResolveEntry.
Import Integration PyStrMore.
Local Open Scope list_scope.

Lemma lower_nonempty (t t' : string) :
  lower t = lower t' -> PyStr.nonempty t = PyStr.nonempty t'.
Proof.
  destruct t, t'; cbn; congruence.
Qed.

(** X21. [_resolve_entry] returns only an entry that the call refers to.
    With an entry id in the call, the entry returned is the config entry
    with that id, of whatever integration, and the title in the call plays
    no part.  Without one, it is an entry of this integration whose title is
    the one in the call up to case, and the only such entry. *)
Theorem resolve_entry_sound (h : hass) (call_data : dict)
  (entry : config_entry) :
  _resolve_entry h call_data = HReturn entry ->
  In entry (entries h) /\
  if truthy (get call_data CONF_ENTRY_ID)
  then get call_data CONF_ENTRY_ID = PStr (entry_id entry)
  else domain entry = DOMAIN /\
       exists t,
         get call_data CONF_ENTRY_TITLE = PStr t /\
         lower (title entry) = lower t /\
         forall other,
           In other (async_entries h) ->
           lower (title other) = lower t -> other = entry.
Proof.
  unfold _resolve_entry.
  destruct (truthy (get call_data CONF_ENTRY_ID)) eqn:Hid.
  - unfold async_get_entry.
    destruct (get call_data CONF_ENTRY_ID) as [| b | z | s | l | d];
      try discriminate.
    destruct (find _ (entries h)) as [found |] eqn:Hfind; [| discriminate].
    intros [= <-]. apply find_some in Hfind. destruct Hfind as [Hin Heq].
    apply String.eqb_eq in Heq. subst s. auto.
  - destruct (truthy (get call_data CONF_ENTRY_TITLE)) eqn:Htitle;
      [| discriminate].
    unfold title_matches.
    destruct (get call_data CONF_ENTRY_TITLE) as [| b | z | t | l | d];
      try (destruct (async_entries h); discriminate).
    destruct (filter _ (async_entries h)) as [| first [| second rest]] eqn:Hf;
      try discriminate.
    intros [= <-].
    assert (Hin : In first (filter
                    (fun e => String.eqb (lower (title e)) (lower t))
                    (async_entries h))) by (rewrite Hf; left; reflexivity).
    apply filter_In in Hin. destruct Hin as [Hin Heq].
    apply String.eqb_eq in Heq.
    unfold async_entries in Hin. apply filter_In in Hin.
    destruct Hin as [Hin Hdom]. apply String.eqb_eq in Hdom.
    split; [exact Hin |]. split; [exact Hdom |].
    exists t. split; [reflexivity |]. split; [exact Heq |].
    intros other Hother Hlow.
    assert (Hin' : In other (filter
                     (fun e => String.eqb (lower (title e)) (lower t))
                     (async_entries h))).
    { apply filter_In. split; [exact Hother |]. apply String.eqb_eq.
      exact Hlow. }
    rewrite Hf in Hin'. destruct Hin' as [-> | []]. reflexivity.
Qed.

(** X22. How a call refers to its entry.  An entry id in the call takes
    precedence: the title given next to it changes nothing.  A title is
    compared without regard to case: two calls without an entry id whose
    titles are equal up to case resolve to the same entry.  A call with
    neither is refused. *)
Theorem resolve_entry_reference (h : hass) (call_data : dict) :
  (truthy (get call_data CONF_ENTRY_ID) = true ->
   forall v,
     _resolve_entry h (dict_set call_data CONF_ENTRY_TITLE v) =
     _resolve_entry h call_data) /\
  (forall other_call t t' entry,
     truthy (get call_data CONF_ENTRY_ID) = false ->
     truthy (get other_call CONF_ENTRY_ID) = false ->
     get call_data CONF_ENTRY_TITLE = PStr t ->
     get other_call CONF_ENTRY_TITLE = PStr t' ->
     lower t = lower t' ->
     _resolve_entry h call_data = HReturn entry ->
     _resolve_entry h other_call = HReturn entry) /\
  (truthy (get call_data CONF_ENTRY_ID) = false ->
   truthy (get call_data CONF_ENTRY_TITLE) = false ->
   _resolve_entry h call_data = HRaise (HomeAssistantError NoEntryReference)).
Proof.
  split; [| split].
  - intros Hid v. unfold _resolve_entry.
    rewrite DictFacts.get_dict_set_other by discriminate.
    rewrite Hid. reflexivity.
  - intros other_call t t' entry Hid Hid' Ht Ht' Hlow.
    unfold _resolve_entry. rewrite Hid, Hid', Ht, Ht'. cbn [truthy].
    rewrite (lower_nonempty t t' Hlow).
    destruct (PyStr.nonempty t'); [| discriminate].
    unfold title_matches. rewrite Hlow.
    destruct (filter _ (async_entries h)) as [| first [| second rest]];
      (discriminate || auto).
  - intros Hid Htitle. unfold _resolve_entry. rewrite Hid, Htitle. reflexivity.
Qed.

End ResolveEntry.

Section Prefill.
Import Integration DictFacts MergeFacts ListFacts.
Local Open Scope list_scope.

Lemma get_fill_default (defaults payload : dict) (target_key k : string) :
  get (fill_default defaults payload target_key) k =
  if String.eqb target_key k && none_or_empty (get payload target_key)
     && truthy (get defaults target_key)
  then get defaults target_key
  else get payload k.
Proof.
  unfold fill_default.
  destruct (none_or_empty (get payload target_key)
            && truthy (get defaults target_key)) eqn:Hc.
  - destruct (String.eqb_spec target_key k) as [<- | Hne]; cbn [andb].
    + rewrite Hc. apply get_dict_set.
    + apply get_dict_set_other. exact Hne.
  - destruct (String.eqb target_key k); cbn [andb]; [rewrite Hc |];
      reflexivity.
Qed.

Lemma fill_defaults_key (payload defaults : dict) (k : string) :
  get (fill_defaults payload defaults) k =
  if PyStr.mem k recipient_keys && none_or_empty (get payload k)
     && truthy (get defaults k)
  then get defaults k
  else get payload k.
Proof.
  unfold fill_defaults, recipient_keys. cbn [fold_left PyStr.mem].
  rewrite !get_fill_default.
  destruct (String.eqb_spec k CONF_TO_USER) as [-> | Hu].
  { cbn. destruct (none_or_empty (get payload CONF_TO_USER)
                   && truthy (get defaults CONF_TO_USER)); reflexivity. }
  destruct (String.eqb_spec k CONF_TO_PARTY) as [-> | Hp].
  { cbn. destruct (none_or_empty (get payload CONF_TO_PARTY)
                   && truthy (get defaults CONF_TO_PARTY)); reflexivity. }
  destruct (String.eqb_spec k CONF_TO_TAG) as [-> | Ht].
  { cbn. destruct (none_or_empty (get payload CONF_TO_TAG)
                   && truthy (get defaults CONF_TO_TAG)); reflexivity. }
  cbn [orb andb].
  destruct (String.eqb_spec CONF_TO_TAG k) as [E | _]; [congruence |].
  destruct (String.eqb_spec CONF_TO_PARTY k) as [E | _]; [congruence |].
  destruct (String.eqb_spec CONF_TO_USER k) as [E | _]; [congruence |].
  reflexivity.
Qed.

Lemma truthy_not_empty (v : pyval) :
  truthy v = true -> none_or_empty v = false.
Proof.
  destruct v as [| b | z | s | l | d]; try reflexivity; [discriminate |].
  destruct s; [discriminate | reflexivity].
Qed.

Lemma fill_default_filled (payload defaults : dict) (k : string) :
  In k recipient_keys ->
  fill_default defaults (fill_defaults payload defaults) k =
  fill_defaults payload defaults.
Proof.
  intros Hk. unfold fill_default at 1.
  rewrite fill_defaults_key.
  rewrite (proj2 (mem_In k recipient_keys) Hk). cbn [andb].
  destruct (none_or_empty (get payload k) && truthy (get defaults k)) eqn:Hc.
  - apply andb_true_iff in Hc. destruct Hc as [_ Ht].
    rewrite (truthy_not_empty _ Ht). reflexivity.
  - rewrite Hc. reflexivity.
Qed.

(** X23. The service fills in a recipient of the call from the defaults of
    the entry only where the call has none: a recipient field that is given
    and not empty is left as it is, a field that is not given, [None] or
    the empty string takes the default when that is truthy, and no other
    field of the call is touched.  Filling in a second time changes
    nothing. *)
Theorem fill_defaults_get (payload defaults : dict) (k : string) :
  get (fill_defaults payload defaults) k =
  (if PyStr.mem k recipient_keys && none_or_empty (get payload k)
      && truthy (get defaults k)
   then get defaults k
   else get payload k) /\
  fill_defaults (fill_defaults payload defaults) defaults =
  fill_defaults payload defaults.
Proof.
  split; [apply fill_defaults_key |].
  unfold fill_defaults at 1. cbn [fold_left].
  rewrite !fill_default_filled by (unfold recipient_keys; cbn; auto).
  reflexivity.
Qed.

Lemma strip_nonempty (s : string) :
  PyStr.nonempty (PyStr.strip s) = true -> PyStr.nonempty s = true.
Proof.
  destruct s; [discriminate | reflexivity].
Qed.

Lemma first_seen_double (l : list string) :
  first_seen (l ++ l) = first_seen l.
Proof.
  rewrite first_seen_app.
  rewrite (filter_none _ (first_seen l)); [apply app_nil_r |].
  intros x Hx. apply In_first_seen in Hx.
  apply mem_In in Hx. rewrite Hx. reflexivity.
Qed.

(** X24. The recipients of a call that goes through the service, for a
    client whose defaults are those of the entry, as [async_setup_entry]
    constructs it.  When the call gives no recipient under a key and the
    entry has a default for it, the client is handed the default as the
    recipient of the call and merges it with the same default: the message
    goes to the tokens of the default, each once, while the client called
    without the service would send to the trimmed default as it is written.
    When the call gives a recipient that is not empty, the service changes
    nothing. *)
Theorem service_default_recipients (entry : config_entry) (self : app_config)
  (call_data : dict) (k : string) :
  _defaults self = _get_defaults entry ->
  In k recipient_keys ->
  (forall default,
     none_or_empty (get call_data k) = true ->
     get (_get_defaults entry) k = PStr default ->
     PyStr.nonempty (PyStr.strip default) = true ->
     merged self (fill_defaults call_data (_get_defaults entry)) k =
       Some (PyStr.join (first_seen (tokens default))) /\
     merged self call_data k = Some (PyStr.strip default)) /\
  (none_or_empty (get call_data k) = false ->
   merged self (fill_defaults call_data (_get_defaults entry)) k =
   merged self call_data k).
Proof.
  intros Hsame Hk.
  assert (Hmem : PyStr.mem k recipient_keys = true) by (apply mem_In; exact Hk).
  split.
  - intros default Hnone Hdef Hne.
    unfold merged. rewrite Hsame, fill_defaults_key, Hmem, Hnone, Hdef.
    cbn [andb truthy]. rewrite (strip_nonempty _ Hne).
    rewrite (merge_both_given default default Hne Hne), first_seen_double.
    split; [reflexivity |].
    unfold _merge_recipient.
    destruct (get call_data k) as [| b | z | s | l | d]; try discriminate.
    + reflexivity.
    + destruct s; [reflexivity | discriminate].
  - intros Hgiven. unfold merged.
    rewrite fill_defaults_key, Hmem, Hgiven. reflexivity.
Qed.

End Prefill.

Section ServiceErrors.
Import Integration.
Local Open Scope list_scope.

Context `{PyRuntime}.
Variable env : environment.

Lemma resolve_entry_raise (h : hass) (call_data : dict) (e : host_exn) :
  _resolve_entry h call_data = HRaise e ->
  (exists text, e = HomeAssistantError text /\
                forall msg, text <> ClientFailure msg) \/
  e = Uncaught TypeError \/ e = Uncaught AttributeError.
Proof.
  assert (Hown : forall text,
            (forall msg, text <> ClientFailure msg) ->
            HRaise (A := config_entry) (HomeAssistantError text) = HRaise e ->
            (exists text0, e = HomeAssistantError text0 /\
                           forall msg, text0 <> ClientFailure msg) \/
            e = Uncaught TypeError \/ e = Uncaught AttributeError).
  { intros text Htext [= <-]. left. exists text. auto. }
  assert (Hother : forall e',
            e' = TypeError \/ e' = AttributeError ->
            HRaise (A := config_entry) (Uncaught e') = HRaise e ->
            (exists text0, e = HomeAssistantError text0 /\
                           forall msg, text0 <> ClientFailure msg) \/
            e = Uncaught TypeError \/ e = Uncaught AttributeError).
  { intros e' [-> | ->] [= <-]; auto. }
  unfold _resolve_entry.
  destruct (truthy (get call_data CONF_ENTRY_ID)).
  - unfold async_get_entry.
    destruct (get call_data CONF_ENTRY_ID) as [| b | z | s | l | d];
      try (apply Hown; intros msg; discriminate);
      try (apply Hother; auto).
    destruct (find _ (entries h)); [discriminate |].
    apply Hown; intros msg; discriminate.
  - destruct (truthy (get call_data CONF_ENTRY_TITLE));
      [| apply Hown; intros msg; discriminate].
    unfold title_matches.
    destruct (get call_data CONF_ENTRY_TITLE) as [| b | z | t | l | d];
      try (destruct (async_entries h);
           [apply Hown; intros msg; discriminate | apply Hother; auto]).
    destruct (filter _ (async_entries h)) as [| first [| second rest]];
      try discriminate; apply Hown; intros msg; discriminate.
Qed.

Lemma as_host_error_shape {A} (r : outcome A) :
  match as_host_error r with
  | HReturn _ => True
  | HRaise (HomeAssistantError text) => exists msg, text = ClientFailure msg
  | HRaise (Uncaught e) => forall msg code, e <> WeWorkError msg code
  | HRaise _ => False
  end.
Proof.
  destruct r as [a | e]; [exact I |].
  destruct e; cbn; eauto; discriminate.
Qed.

(** X25. Errors of the service.  Whatever the client does is what the
    service does, with one change: a [WeWorkError] of the client leaves the
    service as a [HomeAssistantError] that carries the same message (the
    error code is dropped); a client that returns makes the service return,
    and any other exception of the client passes as it is, always with the
    state the client has left.  So the service never raises a [WeWorkError]
    itself.  A [HomeAssistantError] that does not come from the client (no
    entry, several entries, no client for the entry) is raised before the
    client is called: no request has been made and the cache is
    untouched. *)
Theorem service_errors (h : hass) (call_data : dict) (s : state) :
  let (r, s') := _async_send_message env h call_data s in
  (forall entry c client_result client_state,
     _resolve_entry h call_data = HReturn entry ->
     runtime_get (domain_data h) (entry_id entry) = Some c ->
     direct_call env c (fill_defaults call_data (_get_defaults entry)) s =
       Some (client_result, client_state) ->
     s' = client_state /\
     match client_result with
     | Return _ => r = HReturn tt
     | Raise (WeWorkError msg _) =>
         r = HRaise (HomeAssistantError (ClientFailure msg))
     | Raise e => r = HRaise (Uncaught e)
     end) /\
  (forall msg code, r <> HRaise (Uncaught (WeWorkError msg code))) /\
  (forall text,
     r = HRaise (HomeAssistantError text) ->
     (exists msg, text = ClientFailure msg) \/ s' = s).
Proof.
  unfold _async_send_message, direct_call.
  destruct (_resolve_entry h call_data) as [entry | e] eqn:Hres.
  2:{ apply resolve_entry_raise in Hres.
      destruct Hres as [(text & -> & _) | [-> | ->]];
        (split; [intros entry0 c0 cr cs Heq; discriminate Heq |
                 split; [discriminate | auto]]). }
  destruct (runtime_get (domain_data h) (entry_id entry)) as [c |] eqn:Hrt.
  2:{ split; [intros entry0 c0 cr cs [= <-] Hn; congruence |
              split; [discriminate | auto]]. }
  assert (Hsame : forall entry0 c0,
            HReturn entry = HReturn entry0 ->
            runtime_get (domain_data h) (entry_id entry0) = Some c0 ->
            entry0 = entry /\ c0 = c).
  { intros entry0 c0 [= <-] Hn. split; congruence. }
  unfold client_send.
  destruct (annotated c) as [[config | webhook_key] |] eqn:Han.
  3:{ split; [| split; [discriminate | auto]].
      intros entry0 c0 cr cs He Hn. destruct (Hsame _ _ He Hn) as [-> ->].
      rewrite Han. discriminate. }
  - destruct (WeWorkAppClient.async_send_message env config _ s)
      as [r s'] eqn:Hcall.
    pose proof (as_host_error_shape r) as Hshape.
    split.
    + intros entry0 c0 cr cs He Hn. destruct (Hsame _ _ He Hn) as [-> ->].
      rewrite Han, Hcall. intros [= <- <-].
      split; [reflexivity |].
      destruct r as [[] | e]; [reflexivity |]. destruct e; reflexivity.
    + destruct (as_host_error r) as [a | e]; [split; discriminate |].
      destruct e; try contradiction.
      * split; [discriminate |].
        intros text0 [= <-]. left. exact Hshape.
      * split; [| discriminate].
        intros msg code [= ->]. exact (Hshape msg code eq_refl).
  - destruct (WeWorkBotClient.async_send_message env webhook_key _ s)
      as [r s'] eqn:Hcall.
    pose proof (as_host_error_shape r) as Hshape.
    split.
    + intros entry0 c0 cr cs He Hn. destruct (Hsame _ _ He Hn) as [-> ->].
      rewrite Han, Hcall. intros [= <- <-].
      split; [reflexivity |].
      destruct r as [[] | e]; [reflexivity |]. destruct e; reflexivity.
    + destruct (as_host_error r) as [a | e]; [split; discriminate |].
      destruct e; try contradiction.
      * split; [discriminate |].
        intros text0 [= <-]. left. exact Hshape.
      * split; [| discriminate].
        intros msg code [= ->]. exact (Hshape msg code eq_refl).
Qed.

Lemma bot_send_filled (webhook_key : string) (defaults payload : dict)
  (k : string) (s : state) :
  ~ In k bot_fields ->
  WeWorkBotClient.async_send_message env webhook_key
    (fill_default defaults payload k) s =
  WeWorkBotClient.async_send_message env webhook_key payload s.
Proof.
  intros Hk. unfold fill_default.
  destruct (none_or_empty (get payload k) && truthy (get defaults k));
    [| reflexivity].
  exact (bot_send_other env webhook_key payload k _ s Hk).
Qed.

(** X26. A call of the service for a robot entry is the call of the robot
    client with the fields of the call as they are, its [WeWorkError]s
    turned into [HomeAssistantError]s: the recipient defaults that the
    service fills in have no effect on a robot. *)
Theorem service_robot_call (h : hass) (call_data : dict) (s : state)
  (entry : config_entry) (webhook_key : string) :
  _resolve_entry h call_data = HReturn entry ->
  runtime_get (domain_data h) (entry_id entry) =
    Some (BotClient (PStr webhook_key)) ->
  _async_send_message env h call_data s =
  let (r, s') :=
    WeWorkBotClient.async_send_message env webhook_key call_data s in
  (as_host_error r, s').
Proof.
  intros Hres Hclient.
  unfold _async_send_message. rewrite Hres, Hclient.
  unfold client_send. cbn [annotated].
  unfold fill_defaults. cbn [fold_left].
  rewrite !bot_send_filled
    by (unfold bot_fields; cbn; intuition discriminate).
  reflexivity.
Qed.

End ServiceErrors.

(** ** Setting up and unloading entries *)

Module RuntimeFacts.
Local Open Scope list_scope.

Lemma runtime_get_set (d : list (string * client)) (k : string) (v : client) :
  runtime_get (runtime_set d k v) k = Some v.
Proof.
  induction d as [| [k' v'] r IH]; cbn.
  - rewrite String.eqb_refl. reflexivity.
  - destruct (String.eqb k k') eqn:Hk; cbn; rewrite Hk; [reflexivity | exact IH].
Qed.

Lemma runtime_get_set_other (d : list (string * client)) (k k' : string)
  (v : client) :
  k' <> k -> runtime_get (runtime_set d k v) k' = runtime_get d k'.
Proof.
  intros Hne. induction d as [| [k0 v0] r IH]; cbn.
  - destruct (String.eqb_spec k' k); [congruence | reflexivity].
  - destruct (String.eqb_spec k k0) as [-> | Hk]; cbn.
    + destruct (String.eqb_spec k' k0); [congruence | reflexivity].
    + destruct (String.eqb k' k0); [reflexivity | exact IH].
Qed.

Lemma runtime_get_pop (d : list (string * client)) (k : string) :
  runtime_get (runtime_pop d k) k = None.
Proof.
  unfold runtime_pop. induction d as [| [k' v'] r IH]; cbn; [reflexivity |].
  destruct (String.eqb k k') eqn:Hk; cbn; [exact IH |].
  rewrite Hk. exact IH.
Qed.

Lemma runtime_get_pop_other (d : list (string * client)) (k k' : string) :
  k' <> k -> runtime_get (runtime_pop d k) k' = runtime_get d k'.
Proof.
  intros Hne. unfold runtime_pop.
  induction d as [| [k0 v0] r IH]; cbn; [reflexivity |].
  destruct (String.eqb_spec k k0) as [-> | Hk]; cbn.
  - destruct (String.eqb_spec k' k0); [congruence | exact IH].
  - destruct (String.eqb k' k0); [reflexivity | exact IH].
Qed.

Lemma runtime_set_keys (d : list (string * client)) (k k' : string)
  (v : client) :
  In k' (map fst (runtime_set d k v)) <-> k' = k \/ In k' (map fst d).
Proof.
  induction d as [| [k0 v0] r IH]; cbn.
  - intuition.
  - destruct (String.eqb_spec k k0) as [-> | Hk]; cbn.
    + intuition.
    + rewrite IH. intuition.
Qed.

Lemma runtime_set_NoDup (d : list (string * client)) (k : string) (v : client) :
  NoDup (map fst d) -> NoDup (map fst (runtime_set d k v)).
Proof.
  induction d as [| [k0 v0] r IH]; cbn; intros Hnd.
  - constructor; [intros [] | constructor].
  - inversion Hnd as [| ? ? Hnotin Hrest]; subst.
    destruct (String.eqb_spec k k0) as [-> | Hk]; cbn.
    + constructor; assumption.
    + constructor; [| exact (IH Hrest)].
      rewrite runtime_set_keys. intros [-> | Hin]; [congruence | contradiction].
Qed.

Lemma runtime_pop_NoDup (d : list (string * client)) (k : string) :
  NoDup (map fst d) -> NoDup (map fst (runtime_pop d k)).
Proof.
  unfold runtime_pop.
  induction d as [| [k0 v0] r IH]; cbn; intros Hnd; [constructor |].
  inversion Hnd as [| ? ? Hnotin Hrest]; subst.
  destruct (negb (String.eqb k k0)); cbn; [| exact (IH Hrest)].
  constructor; [| exact (IH Hrest)].
  intros Hin. apply Hnotin. apply in_map_iff in Hin.
  destruct Hin as (kv & <- & Hkv). apply filter_In in Hkv.
  apply in_map. exact (proj1 Hkv).
Qed.

Lemma runtime_set_not_nil (d : list (string * client)) (k : string) (v : client) :
  runtime_set d k v <> [].
Proof.
  destruct d as [| [k0 v0] r]; cbn; [discriminate |].
  destruct (String.eqb k k0); discriminate.
Qed.

End RuntimeFacts.

Section Lifecycle.
Import Integration RuntimeFacts.
Local Open Scope list_scope.

Lemma lifecycle_step_invariant (h : hass) (op : lifecycle) :
  (has_send_message h = true <-> loaded h <> []) /\ NoDup (loaded h) ->
  (has_send_message (lifecycle_step h op) = true <->
   loaded (lifecycle_step h op) <> []) /\
  NoDup (loaded (lifecycle_step h op)) /\
  entries (lifecycle_step h op) = entries h.
Proof.
  intros [Hreg Hnd]. unfold loaded in *.
  destruct op as [entry | entry]; cbn [lifecycle_step].
  - unfold async_setup_entry.
    destruct (new_client entry) as [c | e]; cbn [hbind];
      [| split; [exact Hreg | split; [exact Hnd | reflexivity]]].
    cbn [has_send_message domain_data entries].
    split; [| split; [apply runtime_set_NoDup; exact Hnd | reflexivity]].
    split.
    + intros _ Hnil. apply map_eq_nil in Hnil.
      exact (runtime_set_not_nil _ _ _ Hnil).
    + intros _. destruct (has_send_message h); reflexivity.
  - unfold async_unload_entry. cbn [has_send_message domain_data entries].
    split; [| split; [apply runtime_pop_NoDup; exact Hnd | reflexivity]].
    destruct (runtime_pop (domain_data h) (entry_id entry)) as [| kv left] eqn:Hpop.
    + cbn. destruct (has_send_message h); split; congruence.
    + cbn [map]. split; [discriminate |]. intros _. apply Hreg.
      intros Hnil. apply map_eq_nil in Hnil.
      unfold runtime_pop in Hpop. rewrite Hnil in Hpop. discriminate.
Qed.

(** X27. The service is registered exactly while an entry has a client.
    Starting without clients and without the service, after entries have
    been set up and unloaded in any order (a setup that fails changing
    nothing), the service [send_message] is registered if and only if at
    least one entry has a client; no entry has more than one client, and the
    config entries themselves are not touched. *)
Theorem service_registered_iff_loaded (ops : list lifecycle) (h0 : hass) :
  domain_data h0 = [] -> has_send_message h0 = false ->
  let h := lifecycle_run ops h0 in
  (has_send_message h = true <-> loaded h <> []) /\
  NoDup (loaded h) /\
  entries h = entries h0.
Proof.
  intros Hempty Hoff.
  assert (Hstart : (has_send_message h0 = true <-> loaded h0 <> []) /\
                   NoDup (loaded h0)).
  { unfold loaded. rewrite Hempty, Hoff. cbn.
    split; [split; [discriminate | congruence] | constructor]. }
  clear Hempty Hoff. unfold lifecycle_run. revert h0 Hstart.
  induction ops as [| op rest IH]; intros h0 Hstart; cbn [fold_left].
  - destruct Hstart as [Hreg Hnd]. auto.
  - destruct (lifecycle_step_invariant h0 op Hstart) as (Hreg & Hnd & Hent).
    destruct (IH (lifecycle_step h0 op) (conj Hreg Hnd)) as (Hr & Hn & He).
    split; [exact Hr |]. split; [exact Hn |]. rewrite He. exact Hent.
Qed.

Context `{PyRuntime}.
Variable env : environment.

(** X28. A client is stored at setup and gone after the unloading.  After
    [async_setup_entry] the entry has the client the setup constructs, and
    the clients of the other entries are the ones they had; after
    [async_unload_entry] the entry has no client, the others keep theirs,
    and a call of the service that refers to the unloaded entry is refused
    without any request. *)
Theorem client_stored_until_unload (h : hass) (entry : config_entry) :
  (forall h',
     async_setup_entry h entry = HReturn h' ->
     exists c,
       new_client entry = HReturn c /\
       runtime_get (domain_data h') (entry_id entry) = Some c /\
       forall id, id <> entry_id entry ->
                  runtime_get (domain_data h') id = runtime_get (domain_data h) id) /\
  (let h' := async_unload_entry h entry in
   runtime_get (domain_data h') (entry_id entry) = None /\
   (forall id, id <> entry_id entry ->
               runtime_get (domain_data h') id = runtime_get (domain_data h) id) /\
   forall call_data s referred,
     _resolve_entry h' call_data = HReturn referred ->
     entry_id referred = entry_id entry ->
     _async_send_message env h' call_data s =
     (HRaise (HomeAssistantError RuntimeNotInitialized), s)).
Proof.
  split.
  - intros h'. unfold async_setup_entry.
    destruct (new_client entry) as [c | e]; cbn [hbind]; [| discriminate].
    intros [= <-]. exists c. cbn [domain_data].
    split; [reflexivity |]. split; [apply runtime_get_set |].
    intros id Hid. apply runtime_get_set_other. exact Hid.
  - cbn zeta. split; [apply runtime_get_pop |].
    split; [intros id Hid; apply runtime_get_pop_other; exact Hid |].
    intros call_data s referred Hres Hid.
    unfold _async_send_message. rewrite Hres, Hid.
    cbn [domain_data async_unload_entry]. rewrite runtime_get_pop. reflexivity.
Qed.

End Lifecycle.
(** ** Concrete runs *)

Import ZRuntime.


Lemma ensure_token_cached_no_io_witness :
  let env := Demo.healthy in
  let s := Demo.warm_cache in
  fresh_at env s (clock_reads s) /\
  let (r1, s1) := WeWorkAppClient._ensure_token env Demo.client s in
  (r1 = Return (_token s) /\ sent s1 = sent s /\
   _token s1 = _token s /\ _token_expire_time s1 = _token_expire_time s) /\
  (fresh_at env s (S (clock_reads s)) ->
   let (r2, s2) := WeWorkAppClient._ensure_token env Demo.client s1 in
   r2 = Return (_token s) /\ sent s2 = sent s /\
   _token s2 = _token s /\ _token_expire_time s2 = _token_expire_time s).
Proof.
  assert (Hfresh : fresh_at Demo.healthy Demo.warm_cache
                            (clock_reads Demo.warm_cache))
    by (split; reflexivity).
  split; [exact Hfresh |].
  exact (ensure_token_cached_no_io Demo.healthy Demo.client Demo.warm_cache
                                   Hfresh).
Defined.

Lemma refresh_token_fetch_result_witness :
  let env := Demo.healthy in
  let s := Demo.empty_cache in
  let d := [("errcode", PInt 0); ("errmsg", PStr "ok");
            ("access_token", PStr "new"); ("expires_in", PInt 7200)] in
  fetches env false s /\
  WeWorkAppClient._refresh_token env Demo.client false s =
  (Return (PStr "new"),
   mkState (PStr "new") (Demo.instant 7300) [GetToken "corp" "secret"] 1) /\
  let (r, s') := WeWorkAppClient._refresh_token env Demo.client false s in
  forall token, r = Return token ->
     token = get d "access_token" /\ _token s' = token /\
     sent s' = token_request Demo.client :: sent s /\
     exists n, py_int (get_default d "expires_in" (PInt 7200)) = Return n /\
               time_add_int (monotonic env (clock_reads (at_fetch env false s))) n
               = Some (_token_expire_time s').
Proof.
  assert (Hf : fetches Demo.healthy false Demo.empty_cache) by reflexivity.
  split; [exact Hf |].
  split; [reflexivity |].
  pose proof (refresh_token_fetch_result Demo.healthy Demo.client false
                Demo.empty_cache _ Hf eq_refl) as Hthm.
  destruct (WeWorkAppClient._refresh_token Demo.healthy Demo.client false
              Demo.empty_cache) as [r s'].
  exact (proj2 (proj2 (proj2 (proj2 Hthm)))).
Defined.

Lemma failed_refresh_keeps_cache_witness :
  let env := Demo.refresh_denied in
  let s := Demo.warm_cache in
  let reply := http env (sent s) (token_request Demo.client) in
  fetches env true s /\
  reply = Demo.rejected 40013 "invalid corpid" /\
  reported_failure reply /\
  let (r, s') := WeWorkAppClient._refresh_token env Demo.client true s in
  (exists msg code, r = Raise (WeWorkError msg code)) /\
  _token s' = _token s /\ _token_expire_time s' = _token_expire_time s.
Proof.
  intros env s reply.
  assert (Hf : fetches env true s) by reflexivity.
  assert (Hrep : reported_failure reply).
  { right. exists [("errcode", PInt 40013); ("errmsg", PStr "invalid corpid")].
    split; [reflexivity | left; reflexivity]. }
  split; [exact Hf | split; [reflexivity | split; [exact Hrep |]]].
  pose proof (failed_refresh_keeps_cache env Demo.client true s) as Hthm.
  cbv zeta in Hthm.
  destruct (WeWorkAppClient._refresh_token env Demo.client true s) as [r s'].
  exact (proj1 (proj1 Hthm Hf) Hrep).
Defined.

(** An answer that confirms success and carries a null [expires_in]: the
    forced refresh on a cache that holds token [old] stores the confirmed
    token [new] and then raises [TypeError] from [int(None)], the expiry
    instant being still the one of [old]. *)
Theorem refresh_failure_leaves_new_token :
  let before := Demo.warm_cache in
  let (r, after) :=
    WeWorkAppClient._refresh_token Demo.null_expiry Demo.client true before in
  r = Raise TypeError /\
  _token before = PStr "old" /\ _token after = PStr "new" /\
  _token_expire_time after = _token_expire_time before /\
  sent after = [GetToken "corp" "secret"].
Proof.
  cbv zeta.
  destruct (refresh_check_forced Demo.null_expiry Demo.warm_cache) as [Hf Hs].
  rewrite (refresh_conversion_failure_keeps_new_token Demo.null_expiry
             Demo.client true Demo.warm_cache
             [("errcode", PInt 0); ("access_token", PStr "new");
              ("expires_in", PNone)]
             TypeError Hf eq_refl eq_refl ltac:(discriminate) eq_refl).
  repeat split; reflexivity.
Qed.

Lemma retry_once_after_token_error_witness :
  let env := Demo.expired in
  let s1 := tick Demo.warm_cache in
  let first := PostMessage (PStr "old") Demo.alert_payload in
  let second := PostMessage (PStr "new") Demo.alert_payload in
  reaches_send env Demo.client Demo.alert Demo.warm_cache
               Demo.alert_payload (PStr "old") s1 /\
  WeWorkAppClient._do_send env Demo.alert_payload (PStr "old") s1 =
    (Raise (WeWorkError (SendFailed (PStr "access_token expired")) (PInt 42001)),
     logged first s1) /\
  in_int_set (PInt 42001) TOKEN_RETRYABLE_ERROR_CODES = Return true /\
  sent (snd (WeWorkAppClient.async_send_message env Demo.client Demo.alert
                                                Demo.warm_cache)) =
  [second; GetToken "corp" "secret"; first].
Proof.
  intros env s1 first second.
  assert (Hreach : reaches_send env Demo.client Demo.alert Demo.warm_cache
                                Demo.alert_payload (PStr "old") s1).
  { exists "text". split; [| split]; reflexivity. }
  assert (Hfirst :
    WeWorkAppClient._do_send env Demo.alert_payload (PStr "old") s1 =
    (Raise (WeWorkError (SendFailed (PStr "access_token expired")) (PInt 42001)),
     logged first s1)) by reflexivity.
  split; [exact Hreach | split; [exact Hfirst | split; [reflexivity |]]].
  destruct (retry_once_after_token_error env Demo.client Demo.alert
              Demo.warm_cache Demo.alert_payload (PStr "old") s1 _ _ _
              Hreach Hfirst) as [Hretry _].
  specialize (Hretry eq_refl).
  change (WeWorkAppClient._refresh_token env Demo.client true (logged first s1))
    with (Return (PStr "new"),
          mkState (PStr "new") (Demo.instant 7301)
                  [GetToken "corp" "secret"; first] 2) in Hretry.
  cbv beta iota in Hretry.
  destruct Hretry as (_ & _ & Hlog & _).
  exact Hlog.
Defined.

(** C1 as it is stated fails when the forced refresh fails: the first send
    is answered with 42001, the token endpoint refuses, and the call ends
    with the error of the refresh after one send and one token request; no
    send has been retried. *)
Lemma retry_skipped_when_refresh_fails :
  let env := Demo.refresh_denied in
  let s1 := tick Demo.warm_cache in
  let first := PostMessage (PStr "old") Demo.alert_payload in
  reaches_send env Demo.client Demo.alert Demo.warm_cache
               Demo.alert_payload (PStr "old") s1 /\
  WeWorkAppClient._do_send env Demo.alert_payload (PStr "old") s1 =
    (Raise (WeWorkError (SendFailed (PStr "access_token expired")) (PInt 42001)),
     logged first s1) /\
  in_int_set (PInt 42001) TOKEN_RETRYABLE_ERROR_CODES = Return true /\
  WeWorkAppClient.async_send_message env Demo.client Demo.alert Demo.warm_cache =
    (Raise (WeWorkError (RefreshFailed (PStr "invalid corpid")) (PInt 40013)),
     mkState (PStr "old") (Demo.instant 5000)
             [GetToken "corp" "secret"; first] 1) /\
  refreshes [GetToken "corp" "secret"; first] = 1 /\
  sends [GetToken "corp" "secret"; first] = 1 /\
  sends [GetToken "corp" "secret"; first] <> 2.
Proof.
  cbv zeta.
  split; [exists "text"; split; [| split]; reflexivity |].
  repeat split; try reflexivity. discriminate.
Qed.

Lemma build_failure_before_any_io_witness :
  let data := [(CONF_MESSAGE, PStr ""); (CONF_TO_USER, PStr "alice")] in
  let e := WeWorkError ContentRequiredApp PNone in
  build_fails Demo.client data e /\
  WeWorkAppClient.async_send_message Demo.healthy Demo.client data
    Demo.empty_cache = (Raise e, Demo.empty_cache).
Proof.
  intros data e.
  assert (Hfail : build_fails Demo.client data e).
  { right. exists "text". split; reflexivity. }
  split; [exact Hfail |].
  exact (build_failure_before_any_io Demo.healthy Demo.client data
                                     Demo.empty_cache e Hfail).
Defined.

Lemma absent_errcode_is_success_witness :
  let d := [("errmsg", PStr "ok")] in
  let s1 := tick Demo.warm_cache in
  let bot_payload :=
    [("msgtype", PStr "text"); ("text", PDict [("content", PStr "hi")])] in
  errcode_absent d /\
  WeWorkAppClient.async_send_message Demo.silent Demo.client Demo.alert
    Demo.warm_cache =
    (Return tt, logged (PostMessage (PStr "old") Demo.alert_payload) s1) /\
  WeWorkBotClient.async_send_message Demo.silent "key" Demo.alert
    Demo.empty_cache =
    (Return tt, logged (PostWebhook "key" bot_payload) Demo.empty_cache).
Proof.
  intros d s1 bot_payload.
  assert (Hd : errcode_absent d) by reflexivity.
  destruct (absent_errcode_is_success Demo.silent Demo.client "key" d
              (or_introl Hd)) as [Happ Hbot].
  split; [exact Hd | split].
  - apply (Happ Demo.alert Demo.warm_cache Demo.alert_payload (PStr "old") s1).
    + exists "text". split; [| split]; reflexivity.
    + reflexivity.
  - apply (Hbot Demo.alert Demo.empty_cache "text" bot_payload); reflexivity.
Defined.

Lemma text_payload_mentions_witness :
  let data := Demo.hi_with_mentions in
  ~ missing data CONF_MESSAGE /\
  str_or_none (get data CONF_MENTIONED_LIST) /\
  str_or_none (get data CONF_MENTIONED_MOBILE_LIST) /\
  WeWorkBotClient._build_payload MESSAGE_TYPE_TEXT data =
  Return
    [("msgtype", PStr "text");
     ("text", PDict [("content", PStr "hi");
                     ("mentioned_list", PList [PStr "u1"; PStr "u2"])])].
Proof.
  intros data.
  assert (H1 : ~ missing data CONF_MESSAGE) by discriminate.
  assert (H2 : str_or_none (get data CONF_MENTIONED_LIST))
    by (right; exists "u1|u2"; reflexivity).
  assert (H3 : str_or_none (get data CONF_MENTIONED_MOBILE_LIST))
    by (left; reflexivity).
  split; [exact H1 | split; [exact H2 | split; [exact H3 |]]].
  exact (proj1 (text_payload_mentions Demo.client data H1 H2 H3)).
Defined.

(** C5 as it is stated fails in the application client: for the example of
    the specification the payload is built, and its text body holds the
    content alone, without the mentioned list. *)
Lemma app_text_payload_without_mentions :
  exists payload,
    WeWorkAppClient._build_payload Demo.client MESSAGE_TYPE_TEXT
      Demo.hi_with_mentions = Return payload /\
    get payload "text" = PDict [("content", PStr "hi")] /\
    ~ contains_text_with_mentions payload "hi" ["u1"; "u2"].
Proof.
  eexists. split; [reflexivity |]. split; [reflexivity |].
  intros (_ & item & Hitem & _ & Hl).
  injection Hitem as <-. discriminate.
Qed.

Lemma required_fields_checked_witness :
  let no_message := [(CONF_MESSAGE, PStr ""); (CONF_TO_USER, PStr "alice")] in
  let no_md5 := [(CONF_IMAGE_BASE64, PStr "aGk=")] in
  let image := [(CONF_IMAGE_BASE64, PStr "aGk=");
                (CONF_IMAGE_MD5, PStr "49f68a5c8493ec2c0bf489821c21fc3b")] in
  (missing no_message CONF_MESSAGE /\
   WeWorkAppClient._build_payload Demo.client MESSAGE_TYPE_TEXT no_message =
     Raise (WeWorkError ContentRequiredApp PNone) /\
   WeWorkBotClient._build_payload MESSAGE_TYPE_TEXT no_message =
     Raise (WeWorkError ContentRequiredText PNone)) /\
  (missing no_md5 CONF_IMAGE_MD5 /\
   WeWorkBotClient._build_payload MESSAGE_TYPE_IMAGE no_md5 =
     Raise (WeWorkError ImageDataRequired PNone)) /\
  WeWorkBotClient._build_payload MESSAGE_TYPE_IMAGE image =
    Return [("msgtype", PStr "image");
            ("image",
             PDict [("base64", PStr "aGk=");
                    ("md5", PStr "49f68a5c8493ec2c0bf489821c21fc3b")])].
Proof.
  intros no_message no_md5 image.
  assert (Hmsg : missing no_message CONF_MESSAGE) by reflexivity.
  assert (Hmd5 : missing no_md5 CONF_IMAGE_MD5) by reflexivity.
  split; [| split].
  - split; [exact Hmsg |].
    exact (proj1 (required_fields_checked Demo.client no_message) Hmsg).
  - split; [exact Hmd5 |].
    exact (proj1 (proj2 (required_fields_checked Demo.client no_md5))
                 (or_intror Hmd5)).
  - apply (proj2 (proj2 (required_fields_checked Demo.client image)));
      discriminate.
Defined.

Lemma merge_recipient_tokens_witness :
  PyStr.nonempty (PyStr.strip " b | a ") = true /\
  PyStr.nonempty (PyStr.strip "a||c") = true /\
  _merge_recipient (PStr " b | a ") (PStr "a||c") = Some "b|a|c" /\
  _merge_recipient (PStr "b|a|c") (PStr "b|a|c") = Some "b|a|c".
Proof.
  assert (Ho : PyStr.nonempty (PyStr.strip " b | a ") = true) by reflexivity.
  assert (Hd : PyStr.nonempty (PyStr.strip "a||c") = true) by reflexivity.
  split; [exact Ho | split; [exact Hd |]].
  exact (proj1 (merge_recipient_tokens " b | a " "a||c") Ho Hd).
Defined.

(** C4 as it is stated fails when one side is empty: the other side is
    returned as it stands, duplicates included, where the specified
    procedure gives [a|] (or [a], with the empty tokens dropped); and a
    string with a duplicate merged with itself is not returned unchanged. *)
Lemma merge_one_side_kept_verbatim :
  _merge_recipient (PStr "a|a") (PStr "") = Some "a|a" /\
  merge_as_specified "a|a" "" = "a|" /\
  PyStr.join (first_seen (tokens "a|a" ++ tokens "")) = "a" /\
  _merge_recipient (PStr "a|a") (PStr "") <> Some (merge_as_specified "a|a" "") /\
  _merge_recipient (PStr "a|a") (PStr "a|a") = Some "a".
Proof.
  repeat split; try reflexivity. discriminate.
Qed.

Import Concurrent ConcurrentFacts.



(** The white space that [int()] ignores: a no-break space is, the
    separator U+001C is not; and an integer too large for a float cannot be
    added to a clock reading. *)
Example parse_padding :
  ZRuntime.parse (String (ascii_of_nat 160) "5") = Some 5%Z /\
  ZRuntime.parse (String (ascii_of_nat 28) "5") = None /\
  PyStr.strip (String (ascii_of_nat 28) "5") = "5" /\
  time_add_int (Demo.instant 100) (2 ^ 1024 - 2 ^ 970 - 1) <> None /\
  time_add_int (Demo.instant 100) (2 ^ 1024 - 2 ^ 970) = None.
Proof.
  repeat split; try reflexivity. discriminate.
Qed.

Example parse_numerals :
  map ZRuntime.parse [" 7200 "; "-5"; "+1_000"; "1__0"; "_1"; "1_"; ""; "soon"]
  = [Some 7200; Some (-5); Some 1000; None; None; None; None; None]%Z.
Proof. reflexivity. Qed.

(** ** Concrete runs of the further properties *)

Import ForcedCallers ForcedFacts.

Lemma split_optional_join_witness :
  ["u1"; "u2"] <> [] /\ Forall trimmed_token ["u1"; "u2"] /\
  _split_optional (PStr "u1|u2") = Return (Some ["u1"; "u2"]).
Proof.
  assert (H1 : ["u1"; "u2"] <> []) by discriminate.
  assert (H2 : Forall trimmed_token ["u1"; "u2"]).
  { repeat constructor. }
  split; [exact H1 | split; [exact H2 |]].
  exact (proj1 (split_optional_join ["u1"; "u2"] H1 H2)).
Defined.

Lemma merge_recipient_read_back_witness :
  PyStr.nonempty (PyStr.strip " b | a ") = true /\
  PyStr.nonempty (PyStr.strip "a||c") = true /\
  exists m,
    _merge_recipient (PStr " b | a ") (PStr "a||c") = Some m /\
    NoDup (tokens m) /\
    (forall t, In t (tokens m) <->
               In t (tokens " b | a ") \/ In t (tokens "a||c")) /\
    exists rest, tokens m = (first_seen (tokens " b | a ") ++ rest)%list.
Proof.
  assert (Ho : PyStr.nonempty (PyStr.strip " b | a ") = true) by reflexivity.
  assert (Hd : PyStr.nonempty (PyStr.strip "a||c") = true) by reflexivity.
  split; [exact Ho | split; [exact Hd |]].
  exact (merge_recipient_read_back " b | a " "a||c" Ho Hd).
Defined.

Lemma app_payload_validation_witness :
  supported "text" /\
  ((exists payload,
      WeWorkAppClient._build_payload Demo.client "text" Demo.alert
      = Return payload) <->
   ("text" <> MESSAGE_TYPE_IMAGE -> ~ missing Demo.alert CONF_MESSAGE) /\
   ~ no_recipient Demo.client Demo.alert /\
   ("text" = MESSAGE_TYPE_IMAGE -> ~ missing Demo.alert CONF_IMAGE_MEDIA_ID)).
Proof.
  assert (Hsup : supported "text") by (left; reflexivity).
  split; [exact Hsup |].
  exact (proj2 (app_payload_validation Demo.client "text" Demo.alert Hsup)).
Defined.

Lemma app_payload_layout_witness :
  supported "text" /\
  WeWorkAppClient._build_payload Demo.client "text" Demo.alert =
    Return Demo.alert_payload /\
  Demo.alert_payload =
    ([("agentid", PInt 1000002); ("msgtype", PStr "text"); ("safe", PInt 0)]
     ++ recipient_entry "touser" (Some "alice|ops")
     ++ recipient_entry "toparty" None
     ++ recipient_entry "totag" None
     ++ [("text", PDict [("content", PStr "hi")])])%list.
Proof.
  assert (Hsup : supported "text") by (left; reflexivity).
  assert (Hpay : WeWorkAppClient._build_payload Demo.client "text" Demo.alert
                 = Return Demo.alert_payload) by reflexivity.
  split; [exact Hsup | split; [exact Hpay |]].
  exact (proj1 (app_payload_layout Demo.client "text" Demo.alert
                  Demo.alert_payload Hsup Hpay)).
Defined.

Lemma other_fields_ignored_witness :
  ~ In CONF_TO_USER bot_fields /\
  WeWorkBotClient.async_send_message Demo.healthy "key"
    (dict_set [(CONF_MESSAGE, PStr "hi")] CONF_TO_USER (PStr "alice"))
    Demo.empty_cache =
  WeWorkBotClient.async_send_message Demo.healthy "key"
    [(CONF_MESSAGE, PStr "hi")] Demo.empty_cache.
Proof.
  assert (Hk : ~ In CONF_TO_USER bot_fields).
  { cbn. intuition discriminate. }
  split; [exact Hk |].
  exact (proj2 (other_fields_ignored Demo.healthy Demo.client "key"
                  [(CONF_MESSAGE, PStr "hi")] CONF_TO_USER (PStr "alice")
                  Demo.empty_cache) Hk).
Defined.

Lemma bot_payload_edges_witness :
  supported_type Samples.numeric_mention = Return MESSAGE_TYPE_TEXT /\
  ~ missing Samples.numeric_mention CONF_MESSAGE /\
  truthy_non_string (get Samples.numeric_mention CONF_MENTIONED_LIST) /\
  WeWorkBotClient.async_send_message Demo.healthy "key" Samples.numeric_mention
    Demo.empty_cache = (Raise AttributeError, Demo.empty_cache).
Proof.
  assert (Hty : supported_type Samples.numeric_mention = Return MESSAGE_TYPE_TEXT)
    by reflexivity.
  assert (Hmsg : ~ missing Samples.numeric_mention CONF_MESSAGE) by discriminate.
  assert (Hbad : truthy_non_string
                   (get Samples.numeric_mention CONF_MENTIONED_LIST)).
  { split; [reflexivity | discriminate]. }
  split; [exact Hty | split; [exact Hmsg | split; [exact Hbad |]]].
  exact (proj2 (proj2 (bot_payload_edges Demo.healthy "key"
                         Samples.numeric_mention "text" Demo.empty_cache))
               Hty Hmsg (or_introl Hbad)).
Defined.

Lemma ensure_token_stale_fetches_witness :
  truthy (_token Demo.empty_cache) = false /\
  WeWorkAppClient._ensure_token Demo.healthy Demo.client Demo.empty_cache =
    (Return (PStr "new"),
     mkState (PStr "new") (Demo.instant 7300) [GetToken "corp" "secret"] 1) /\
  sent (snd (WeWorkAppClient._ensure_token Demo.healthy Demo.client
               Demo.empty_cache)) = [GetToken "corp" "secret"].
Proof.
  assert (Hempty : truthy (_token Demo.empty_cache) = false) by reflexivity.
  split; [exact Hempty | split; [reflexivity |]].
  exact (proj2 (ensure_token_stale_fetches Demo.healthy Demo.client
                  Demo.empty_cache (or_introl Hempty))).
Defined.

Lemma refreshed_token_served_from_cache_witness :
  let s' := mkState (PStr "new") (Demo.instant 7300)
                    [GetToken "corp" "secret"] 1 in
  WeWorkAppClient._refresh_token Demo.healthy Demo.client false Demo.empty_cache
    = (Return (PStr "new"), s') /\
  time_lt (monotonic Demo.healthy (clock_reads s'))
          (time_sub_int (_token_expire_time s') 30) = true /\
  WeWorkAppClient._ensure_token Demo.healthy Demo.client s' =
    (Return (PStr "new"), tick s').
Proof.
  intros s'.
  assert (Hr : WeWorkAppClient._refresh_token Demo.healthy Demo.client false
                 Demo.empty_cache = (Return (PStr "new"), s')) by reflexivity.
  assert (Hlt : time_lt (monotonic Demo.healthy (clock_reads s'))
                        (time_sub_int (_token_expire_time s') 30) = true)
    by reflexivity.
  split; [exact Hr | split; [exact Hlt |]].
  exact (refreshed_token_served_from_cache Demo.healthy Demo.client false
           Demo.empty_cache s' (PStr "new") Hr Hlt).
Defined.

Lemma transport_failure_ends_call_witness :
  let s1 := tick Demo.warm_cache in
  let first := PostMessage (PStr "old") Demo.alert_payload in
  reaches_send Samples.send_drops Demo.client Demo.alert Demo.warm_cache
               Demo.alert_payload (PStr "old") s1 /\
  http Samples.send_drops (sent s1) first = HttpClientError "connection reset" /\
  WeWorkAppClient.async_send_message Samples.send_drops Demo.client Demo.alert
    Demo.warm_cache =
  (Raise (WeWorkError (SendTransport "connection reset") PNone),
   logged first s1).
Proof.
  intros s1 first.
  assert (Hreach : reaches_send Samples.send_drops Demo.client Demo.alert
                     Demo.warm_cache Demo.alert_payload (PStr "old") s1).
  { exists "text". split; [| split]; reflexivity. }
  split; [exact Hreach | split; [reflexivity |]].
  exact (proj1 (transport_failure_ends_call Samples.send_drops Demo.client
                  Demo.alert Demo.warm_cache)
               Demo.alert_payload (PStr "old") s1 Hreach).
Defined.

Lemma retry_recovers_witness :
  let env := Demo.expired in
  let s1 := tick Demo.warm_cache in
  let first := PostMessage (PStr "old") Demo.alert_payload in
  let second := PostMessage (PStr "new") Demo.alert_payload in
  let refusal := [("errcode", PInt 42001);
                  ("errmsg", PStr "access_token expired")] in
  reaches_send env Demo.client Demo.alert Demo.warm_cache
               Demo.alert_payload (PStr "old") s1 /\
  http env (sent s1) first = HttpJson (PDict refusal) /\
  in_int_set (get refusal "errcode") TOKEN_RETRYABLE_ERROR_CODES = Return true /\
  http env (first :: sent s1) (token_request Demo.client) =
    HttpJson (PDict Demo.grant) /\
  accepted env (token_request Demo.client :: first :: sent s1) second /\
  WeWorkAppClient.async_send_message env Demo.client Demo.alert Demo.warm_cache =
  (Return tt,
   mkState (PStr "new") (Demo.instant 7301)
           [second; GetToken "corp" "secret"; first] 2).
Proof.
  intros env s1 first second refusal.
  assert (Hreach : reaches_send env Demo.client Demo.alert Demo.warm_cache
                     Demo.alert_payload (PStr "old") s1).
  { exists "text". split; [| split]; reflexivity. }
  assert (Hacc : accepted env (token_request Demo.client :: first :: sent s1)
                          second).
  { exists [("errcode", PInt 0); ("errmsg", PStr "ok")]. split; reflexivity. }
  split; [exact Hreach | split; [reflexivity | split; [reflexivity |
    split; [reflexivity | split; [exact Hacc |]]]]].
  exact (retry_recovers env Demo.client Demo.alert Demo.warm_cache
           Demo.alert_payload (PStr "old") s1 refusal Demo.grant 7200%Z
           (Demo.instant 7301) Hreach eq_refl eq_refl eq_refl eq_refl eq_refl
           eq_refl eq_refl eq_refl Hacc).
Defined.

Lemma forced_callers_each_request_witness :
  let sys := Samples.forced_after Demo.healthy 2 [0; 1; 0; 1; 1] in
  reachable Demo.healthy Demo.client (forced_callers 2) Demo.warm_cache sys /\
  all_done sys /\
  refreshes (sent (shared sys)) = 2.
Proof.
  intros sys.
  assert (Hreach : reachable Demo.healthy Demo.client (forced_callers 2)
                             Demo.warm_cache sys).
  { exists [0; 1; 0; 1; 1]. reflexivity. }
  assert (Hall : all_done sys) by reflexivity.
  split; [exact Hreach | split; [exact Hall |]].
  exact (proj2 (proj2 (forced_callers_each_request Demo.healthy Demo.client 2
                         Demo.warm_cache sys Hreach)) Hall).
Defined.

Lemma callers_always_finish_witness :
  let sys := Samples.forced_after Demo.healthy 2 [0; 1] in
  reachable Demo.healthy Demo.client (forced_callers 2) Demo.warm_cache sys /\
  (exists schedule final,
     run Demo.healthy Demo.client schedule sys = Some final /\
     all_done final /\
     forall i, i < 2 -> exists result, returned final i result) /\
  forall schedule sys',
    run Demo.healthy Demo.client schedule sys = Some sys' ->
    length schedule <= 6.
Proof.
  intros sys.
  assert (Hreach : reachable Demo.healthy Demo.client (forced_callers 2)
                             Demo.warm_cache sys).
  { exists [0; 1]. reflexivity. }
  split; [exact Hreach |].
  exact (callers_always_finish Demo.healthy Demo.client (forced_callers 2)
           Demo.warm_cache sys Hreach).
Defined.

Lemma cleared_option_falls_back_witness :
  let defaults :=
    Integration._get_defaults
      (with_options Samples.app_entry [(CONF_TO_PARTY, PStr "7")]) in
  ConfigFlow.async_step_init Samples.app_entry (Some Samples.options_form) =
    HReturn (ConfigFlow.CreateEntry (PStr "") [(CONF_TO_PARTY, PStr "7")]) /\
  get defaults CONF_TO_USER = PStr "ops|dev" /\
  get defaults CONF_TO_PARTY = PStr "7" /\
  get defaults CONF_TO_TAG = PNone.
Proof.
  intros defaults.
  assert (Hflow : ConfigFlow.async_step_init Samples.app_entry
                    (Some Samples.options_form) =
                  HReturn (ConfigFlow.CreateEntry (PStr "")
                             [(CONF_TO_PARTY, PStr "7")])) by reflexivity.
  split; [exact Hflow |].
  exact (cleared_option_falls_back Samples.app_entry Samples.options_form
           [(CONF_TO_PARTY, PStr "7")] (PStr "") Hflow).
Defined.

Lemma app_flow_entry_client_witness :
  ConfigFlow.async_step_app Samples.nothing_configured (Samples.named "Ops")
    (Some Samples.app_form) =
    HReturn (ConfigFlow.CreateEntry (PStr "Ops") Samples.app_data) /\
  exists corp_id corp_secret,
    get Samples.app_form CONF_CORP_ID = PStr corp_id /\
    get Samples.app_form CONF_CORP_SECRET = PStr corp_secret /\
    Samples.nothing_configured
      (ConfigFlow.AppUniqueId (PyStr.strip corp_id) (PInt 1000002)) = false /\
    PStr "Ops" = py_or (PStr "Ops") (PStr "WeWork App") /\
    Integration.new_client Samples.app_entry =
    HReturn
      (AppClient (PStr (PyStr.strip corp_id)) (PStr (PyStr.strip corp_secret))
         (PInt 1000002)
         [(CONF_TO_USER, PStr "ops|dev"); (CONF_TO_PARTY, PNone);
          (CONF_TO_TAG, PNone)]).
Proof.
  assert (Hflow : ConfigFlow.async_step_app Samples.nothing_configured
                    (Samples.named "Ops") (Some Samples.app_form) =
                  HReturn (ConfigFlow.CreateEntry (PStr "Ops") Samples.app_data))
    by reflexivity.
  split; [exact Hflow |].
  exact (app_flow_entry_client Samples.nothing_configured (Samples.named "Ops")
           Samples.app_form (PStr "Ops") Samples.app_data "e1" "Ops" Hflow).
Defined.

Lemma bot_flow_entry_client_witness :
  ConfigFlow.async_step_bot Samples.nothing_configured (Samples.named "Door")
    (Some Samples.bot_form) =
    HReturn (ConfigFlow.CreateEntry (PStr "Door") Samples.bot_data) /\
  exists webhook_key,
    get Samples.bot_form CONF_WEBHOOK_KEY = PStr webhook_key /\
    Samples.nothing_configured
      (ConfigFlow.BotUniqueId (PyStr.strip webhook_key)) = false /\
    PStr "Door" = py_or (PStr "Door") (PStr "WeWork Robot") /\
    Integration.new_client Samples.bot_entry =
      HReturn (BotClient (PStr (PyStr.strip webhook_key))) /\
    forall submitted,
      ConfigFlow.async_step_init Samples.bot_entry submitted =
      HReturn (ConfigFlow.Abort "no_app_options").
Proof.
  assert (Hflow : ConfigFlow.async_step_bot Samples.nothing_configured
                    (Samples.named "Door") (Some Samples.bot_form) =
                  HReturn (ConfigFlow.CreateEntry (PStr "Door") Samples.bot_data))
    by reflexivity.
  split; [exact Hflow |].
  exact (bot_flow_entry_client Samples.nothing_configured (Samples.named "Door")
           Samples.bot_form (PStr "Door") Samples.bot_data "e2" "Door" Hflow).
Defined.

Lemma resolve_entry_sound_witness :
  Integration._resolve_entry Samples.home (Samples.by_title "OPS") =
    HReturn Samples.app_entry /\
  In Samples.app_entry (entries Samples.home) /\
  domain Samples.app_entry = DOMAIN /\
  exists t,
    get (Samples.by_title "OPS") CONF_ENTRY_TITLE = PStr t /\
    PyStrMore.lower (title Samples.app_entry) = PyStrMore.lower t /\
    forall other,
      In other (Integration.async_entries Samples.home) ->
      PyStrMore.lower (title other) = PyStrMore.lower t ->
      other = Samples.app_entry.
Proof.
  assert (Hres : Integration._resolve_entry Samples.home (Samples.by_title "OPS")
                 = HReturn Samples.app_entry) by reflexivity.
  split; [exact Hres |].
  exact (resolve_entry_sound Samples.home (Samples.by_title "OPS")
           Samples.app_entry Hres).
Defined.

Lemma resolve_entry_reference_witness :
  PyStrMore.lower "OPS" = PyStrMore.lower "ops" /\
  Integration._resolve_entry Samples.home (Samples.by_title "OPS") =
    HReturn Samples.app_entry /\
  Integration._resolve_entry Samples.home (Samples.by_title "ops") =
    HReturn Samples.app_entry.
Proof.
  assert (Hlow : PyStrMore.lower "OPS" = PyStrMore.lower "ops") by reflexivity.
  assert (Hres : Integration._resolve_entry Samples.home (Samples.by_title "OPS")
                 = HReturn Samples.app_entry) by reflexivity.
  split; [exact Hlow | split; [exact Hres |]].
  exact (proj1 (proj2 (resolve_entry_reference Samples.home
                         (Samples.by_title "OPS")))
               (Samples.by_title "ops") "OPS" "ops" Samples.app_entry
               eq_refl eq_refl eq_refl eq_refl Hlow Hres).
Defined.

Lemma service_default_recipients_witness :
  let entry := Samples.repeated_entry in
  let self := Samples.repeated_default in
  let call_data := [(CONF_MESSAGE, PStr "hi")] in
  _defaults self = Integration._get_defaults entry /\
  In CONF_TO_USER recipient_keys /\
  Integration.none_or_empty (get call_data CONF_TO_USER) = true /\
  merged self (Integration.fill_defaults call_data
                 (Integration._get_defaults entry)) CONF_TO_USER
    = Some "ops|dev" /\
  merged self call_data CONF_TO_USER = Some "ops| dev |ops".
Proof.
  intros entry self call_data.
  assert (Hk : In CONF_TO_USER recipient_keys) by (left; reflexivity).
  split; [reflexivity | split; [exact Hk | split; [reflexivity |]]].
  exact (proj1 (service_default_recipients entry self call_data CONF_TO_USER
                  eq_refl Hk)
               "ops| dev |ops" eq_refl eq_refl eq_refl).
Defined.

Lemma service_registered_iff_loaded_witness :
  let h := lifecycle_run [SetUp Samples.app_entry; SetUp Samples.bot_entry;
                          Unload Samples.app_entry] Samples.home in
  domain_data Samples.home = [] /\ has_send_message Samples.home = false /\
  loaded h = ["e2"] /\
  (has_send_message h = true <-> loaded h <> []) /\
  NoDup (loaded h) /\
  entries h = entries Samples.home.
Proof.
  intros h.
  split; [reflexivity | split; [reflexivity | split; [reflexivity |]]].
  exact (service_registered_iff_loaded
           [SetUp Samples.app_entry; SetUp Samples.bot_entry;
            Unload Samples.app_entry] Samples.home eq_refl eq_refl).
Defined.

Lemma client_stored_until_unload_witness :
  let h' := Integration.async_unload_entry Samples.home Samples.app_entry in
  Integration._resolve_entry h' (Samples.by_title "Ops") =
    HReturn Samples.app_entry /\
  Integration._async_send_message Demo.healthy h' (Samples.by_title "Ops")
    Demo.empty_cache =
  (HRaise (HomeAssistantError RuntimeNotInitialized), Demo.empty_cache).
Proof.
  intros h'.
  assert (Hres : Integration._resolve_entry h' (Samples.by_title "Ops") =
                 HReturn Samples.app_entry) by reflexivity.
  split; [exact Hres |].
  exact (proj2 (proj2 (proj2 (client_stored_until_unload Demo.healthy
                                Samples.home Samples.app_entry)))
               (Samples.by_title "Ops") Demo.empty_cache Samples.app_entry
               Hres eq_refl).
Defined.

Lemma refresh_failure_reported_witness :
  let s' := logged (GetToken "corp" "secret") Demo.warm_cache in
  fetches Demo.refresh_denied true Demo.warm_cache /\
  WeWorkAppClient._refresh_token Demo.refresh_denied Demo.client true
    Demo.warm_cache =
    (Raise (WeWorkError (RefreshFailed (PStr "invalid corpid")) (PInt 40013)),
     s') /\
  _token s' = PStr "old" /\ _token_expire_time s' = Demo.instant 5000.
Proof.
  intros s'.
  assert (Hf : fetches Demo.refresh_denied true Demo.warm_cache) by reflexivity.
  split; [exact Hf |].
  pose proof (refresh_failure_reported Demo.refresh_denied Demo.client true
                Demo.warm_cache Hf) as Hthm.
  change (WeWorkAppClient._refresh_token Demo.refresh_denied Demo.client true
            Demo.warm_cache)
    with (Raise (A := pyval)
            (WeWorkError (RefreshFailed (PStr "invalid corpid")) (PInt 40013)),
          s') in *.
  cbv beta iota in Hthm.
  destruct (proj1 Hthm eq_refl) as (_ & Htok & Hexp & _).
  split; [reflexivity | split; [exact Htok | exact Hexp]].
Defined.

Lemma service_robot_call_witness :
  let call_data := Samples.by_title "door" in
  let payload :=
    [("msgtype", PStr "text"); ("text", PDict [("content", PStr "hi")])] in
  Integration._resolve_entry Samples.running call_data =
    HReturn Samples.bot_entry /\
  runtime_get (domain_data Samples.running) (entry_id Samples.bot_entry) =
    Some (BotClient (PStr "key-1")) /\
  Integration._async_send_message Demo.healthy Samples.running call_data
    Demo.empty_cache =
  (HReturn tt, logged (PostWebhook "key-1" payload) Demo.empty_cache).
Proof.
  intros call_data payload.
  assert (Hres : Integration._resolve_entry Samples.running call_data =
                 HReturn Samples.bot_entry) by reflexivity.
  assert (Hclient : runtime_get (domain_data Samples.running)
                      (entry_id Samples.bot_entry) =
                    Some (BotClient (PStr "key-1"))) by reflexivity.
  split; [exact Hres | split; [exact Hclient |]].
  exact (service_robot_call Demo.healthy Samples.running call_data
           Demo.empty_cache Samples.bot_entry "key-1" Hres Hclient).
Defined.

Lemma service_errors_witness :
  let env := Demo.refresh_denied in
  let call_data := Samples.by_title "ops" in
  let failure := RefreshFailed (PStr "invalid corpid") in
  let after := logged (GetToken "ww123" "s3cret") Demo.empty_cache in
  Integration._resolve_entry Samples.running call_data =
    HReturn Samples.app_entry /\
  (exists c,
     runtime_get (domain_data Samples.running) (entry_id Samples.app_entry) =
       Some c /\
     direct_call env c
       (Integration.fill_defaults call_data
          (Integration._get_defaults Samples.app_entry))
       Demo.empty_cache =
     Some (Raise (WeWorkError failure (PInt 40013)), after)) /\
  Integration._async_send_message env Samples.running call_data
    Demo.empty_cache =
  (HRaise (HomeAssistantError (ClientFailure failure)), after).
Proof.
  intros env call_data failure after.
  assert (Hres : Integration._resolve_entry Samples.running call_data =
                 HReturn Samples.app_entry) by reflexivity.
  split; [exact Hres |].
  split; [eexists; split; reflexivity |].
  pose proof (service_errors env Samples.running call_data Demo.empty_cache)
    as Hthm.
  destruct (Integration._async_send_message env Samples.running call_data
              Demo.empty_cache) as [r s'].
  destruct (proj1 Hthm Samples.app_entry _
              (Raise (WeWorkError failure (PInt 40013))) after
              Hres eq_refl eq_refl) as [-> ->].
  reflexivity.
Defined.
